(** * railrepay delay-tracker: a shallow embedding of the detection core

    The development follows the TypeScript sources:
    - [services/delay-detector.ts]   -> [Module DelayDetector]
    - [services/claim-trigger.ts]    -> [Module ClaimTrigger]
    - [services/journey-monitor.ts]  -> [Module JourneyMonitor]
    - [services/outbox-publisher.ts] -> [Module OutboxPublisher]
    - [services/delay-tracker.ts]    -> [Module DelayTrackerService]
    - [services/delay-checker.ts]    -> [Module DelayChecker]
    - [cron/scheduler.ts]            -> [Module CronScheduler]
    - [repositories/*.ts]            -> [Module JourneyRepository],
      [Module DelayAlertRepository], [Module OutboxRepository]
    - the relay of the outbox ([findPending] ... [cleanupOldEvents],
      [processOutbox], [retryFailedEvents]) -> [Module OutboxRelay]
    - the PostgreSQL tables of [migrations/...initial-schema]  -> [Module Pg]

    Conventions.  JavaScript numbers that carry minutes or epoch
    milliseconds are integers of [Z]; an optional or nullable field is an
    [option]; a promise that rejects is the [Throw] outcome of the monad [M];
    the clock is a field of the environment and does not advance while one
    operation runs (the integration tests freeze it the same way).  Audit
    columns ([created_at], [updated_at]) play no part in the properties
    below and are left out of the rows, except in [Module OutboxRelay],
    whose queries order and expire the rows by [created_at].

    Strings.  A JavaScript string is the [string] of its UTF-16 code units,
    one [ascii] per code unit; the development covers the strings whose
    code units are below 256 (U+0000 to U+00FF), on which the string
    operations used by the sources ([===], [includes], [toLowerCase],
    truthiness) are modelled exactly.  The server refuses a text or JSONB
    value that holds U+0000: this is checked where a property speaks of
    arbitrary text (the JSONB columns of an alert in [Pg.jsonb_in], the
    error message of [OutboxRelay.run]); identifiers, CRS codes and RIDs
    bound to a statement are taken to be values their columns accept. *)

From Stdlib Require Import ZArith List String Ascii Bool Lia DecimalString.
From Stdlib Require Import Sorted Permutation.
Import ListNotations.

Local Open Scope string_scope.
Local Open Scope list_scope.
Local Open Scope Z_scope.

Set Warnings "-register-all".

(** ** JavaScript helpers *)

Module Js.

(** [a ?? d] *)
Definition nullish {A : Type} (a : option A) (d : A) : A :=
  match a with
  | Some x => x
  | None => d
  end.

(** Truthiness of a string: only the empty string is falsy. *)
Definition truthy_string (s : string) : bool :=
  match s with
  | EmptyString => false
  | String _ _ => true
  end.

(** Truthiness of [string | null | undefined]. *)
Definition truthy_opt_string (s : option string) : bool :=
  match s with
  | Some x => truthy_string x
  | None => false
  end.

(** Truthiness of [boolean | undefined]. *)
Definition truthy_opt_bool (b : option bool) : bool :=
  match b with
  | Some x => x
  | None => false
  end.

(** [s.includes(sub)] *)
Fixpoint includes (s sub : string) : bool :=
  if String.prefix sub s then true
  else match s with
       | EmptyString => false
       | String _ rest => includes rest sub
       end.

(** The lowercase mapping of one code unit below 256: the capitals
    [A]-[Z] (U+0041 to U+005A) and the accented capitals U+00C0 to U+00DE,
    without the multiplication sign U+00D7, move up by 32; every other code
    unit of the range is its own lowercase form. *)
Definition lower_ascii (c : ascii) : ascii :=
  let n := nat_of_ascii c in
  if (Nat.leb 65 n && Nat.leb n 90)%bool then ascii_of_nat (n + 32)
  else if (Nat.leb 192 n && Nat.leb n 222 && negb (Nat.eqb n 215))%bool
       then ascii_of_nat (n + 32)
       else c.

(** [s.toLowerCase()]: below U+0100 the mapping is code unit by code
    unit. *)
Fixpoint toLowerCase (s : string) : string :=
  match s with
  | EmptyString => EmptyString
  | String c rest => String (lower_ascii c) (toLowerCase rest)
  end.

(** Whether the code unit U+0000 occurs in [s]. *)
Fixpoint has_nul (s : string) : bool :=
  match s with
  | EmptyString => false
  | String c rest => Ascii.eqb c zero || has_nul rest
  end.

(** What a [throw] carries: an [Error] with its message, or anything
    else. *)
Inductive Thrown : Type :=
| ErrorObj (message : string)
| OtherValue.

(** [error instanceof Error ? error.message : 'Unknown error'] *)
Definition message_of (e : Thrown) : string :=
  match e with
  | ErrorObj m => m
  | OtherValue => "Unknown error"
  end.

End Js.

(** ** JSON values (payloads, [delay_reasons], JSONB columns) *)

Inductive Json : Type :=
| JNull
| JBool (b : bool)
| JNum (z : Z)
| JStr (s : string)
| JArr (items : list Json)
| JObj (fields : list (string * Json)).

Module JsonOps.

(** Whether some string of the value, a member name included, holds the
    code unit U+0000 ([JSON.stringify] writes it as the escape
    [\u0000]). *)
Fixpoint has_nul (j : Json) : bool :=
  match j with
  | JStr s => Js.has_nul s
  | JArr items => existsb has_nul items
  | JObj fields =>
      existsb (fun kv => let '(k, v) := kv in Js.has_nul k || has_nul v) fields
  | _ => false
  end.

Definition truthy (j : Json) : bool :=
  match j with
  | JNull => false
  | JBool b => b
  | JNum z => negb (z =? 0)
  | JStr s => Js.truthy_string s
  | JArr _ => true
  | JObj _ => true
  end.

Fixpoint assoc (k : string) (fields : list (string * Json)) : option Json :=
  match fields with
  | [] => None
  | (k', v) :: rest => if String.eqb k' k then Some v else assoc k rest
  end.

(** An object literal whose [undefined] members are dropped, as
    [JSON.stringify] does. *)
Fixpoint obj_of (fields : list (string * option Json)) : list (string * Json) :=
  match fields with
  | [] => []
  | (k, Some v) :: rest => (k, v) :: obj_of rest
  | (_, None) :: rest => obj_of rest
  end.

End JsonOps.

(** ** [types.ts] *)

Inductive MonitoringStatus : Type :=
| pending_rid
| active
| delayed
| completed
| cancelled.

Definition MonitoringStatus_eqb (a b : MonitoringStatus) : bool :=
  match a, b with
  | pending_rid, pending_rid
  | active, active
  | delayed, delayed
  | completed, completed
  | cancelled, cancelled => true
  | _, _ => false
  end.

Definition status_name (s : MonitoringStatus) : string :=
  match s with
  | pending_rid => "pending_rid"
  | active => "active"
  | delayed => "delayed"
  | completed => "completed"
  | cancelled => "cancelled"
  end.

Record MonitoredJourney : Type := {
  id : string;
  user_id : string;
  journey_id : string;
  rid : option string;
  service_date : string;
  origin_crs : string;
  destination_crs : string;
  scheduled_departure : Z;
  scheduled_arrival : Z;
  monitoring_status : MonitoringStatus;
  last_checked_at : option Z;
  next_check_at : option Z
}.

(** The [id] member is optional in [types.ts]; every object read back from
    the database carries it and [create] never reads it, so it is a plain
    string here (and ignored by [create]).  The same holds for
    [MonitoredJourney] above. *)
Record DelayAlert : Type := {
  alert_id : string;
  monitored_journey_id : string;
  delay_minutes : Z;
  delay_detected_at : option Z;
  delay_reasons : option Json;
  is_cancellation : option bool;
  threshold_exceeded : option bool;
  claim_triggered : bool;
  claim_triggered_at : option Z;
  claim_reference_id : option string;
  claim_trigger_response : option string;
  notification_sent : bool;
  notification_sent_at : option Z
}.

Inductive OutboxStatus : Type :=
| ob_pending
| ob_processed
| ob_failed.

Record OutboxEvent : Type := {
  event_id : string;
  event_type : string;
  aggregate_type : string;
  aggregate_id : string;
  payload : Json;
  status : OutboxStatus;
  retry_count : Z;
  error_message : option string
}.

Record DelayResult : Type := {
  journeyId : string;
  result_rid : string;
  isDelayed : bool;
  isCancelled : bool;
  delayMinutes : Z;
  exceedsThreshold : bool;
  claimEligible : bool;
  delayReasons : option Json;
  detectedAt : Z;
  dataNotFound : option bool
}.

Inductive ClaimTriggerReason : Type :=
| BELOW_THRESHOLD
| NOT_ELIGIBLE
| SERVICE_ERROR
| DUPLICATE_CLAIM
| NETWORK_ERROR
| ALREADY_TRIGGERED.

Definition reason_name (r : ClaimTriggerReason) : string :=
  match r with
  | BELOW_THRESHOLD => "BELOW_THRESHOLD"
  | NOT_ELIGIBLE => "NOT_ELIGIBLE"
  | SERVICE_ERROR => "SERVICE_ERROR"
  | DUPLICATE_CLAIM => "DUPLICATE_CLAIM"
  | NETWORK_ERROR => "NETWORK_ERROR"
  | ALREADY_TRIGGERED => "ALREADY_TRIGGERED"
  end.

(** Compensation amounts are decimal in the API; only their presence and
    identity matter here, so they are kept as the decimal text received. *)
Record ClaimTriggerResult : Type := {
  success : bool;
  claimReferenceId : option string;
  reason : option ClaimTriggerReason;
  estimatedCompensation : option string;
  existingClaimReferenceId : option string;
  error : option string;
  retryable : option bool;
  triggeredAt : Z;
  delayAlertId : string
}.

Record ClaimTriggerApiResponse : Type := {
  api_success : option bool;
  api_claim_reference_id : option string;
  api_message : option string;
  api_eligible : option bool;
  api_estimated_compensation : option string;
  api_error : option string
}.

(** ** [services/delay-detector.ts] *)

Module DelayDetector.

Record DelayDetectorConfig : Type := {
  cfg_thresholdMinutes : option Z
}.

Record JourneyData : Type := {
  jd_id : option string;
  jd_rid : option string
}.

Record DelayData : Type := {
  dd_rid : string;
  total_delay_minutes : Z;
  cancelled_flag : bool;
  dd_delay_reasons : option Json
}.

Record t : Type := {
  thresholdMinutes : Z
}.

Definition constructor (config : DelayDetectorConfig) : Js.Thrown + t :=
  let threshold := Js.nullish (cfg_thresholdMinutes config) 15 in
  if threshold <=? 0
  then inl (Js.ErrorObj "Threshold must be a positive number")
  else inr {| thresholdMinutes := threshold |}.

Definition getThreshold (this : t) : Z := thresholdMinutes this.

Definition meetsThreshold (this : t) (delayMinutes : Z) : bool :=
  delayMinutes >=? thresholdMinutes this.

Definition detectDelay (this : t) (now : Z)
           (journey : JourneyData) (delayData : DelayData) : DelayResult :=
  let delayMinutes := total_delay_minutes delayData in
  let isCancelled := cancelled_flag delayData in
  let isDelayed := (delayMinutes >? 0) || isCancelled in
  let exceedsThreshold := meetsThreshold this delayMinutes in
  let claimEligible := exceedsThreshold || isCancelled in
  {| journeyId := Js.nullish (jd_id journey) "";
     result_rid := dd_rid delayData;
     isDelayed := isDelayed;
     isCancelled := isCancelled;
     delayMinutes := delayMinutes;
     exceedsThreshold := exceedsThreshold;
     claimEligible := claimEligible;
     delayReasons := dd_delay_reasons delayData;
     detectedAt := now;
     dataNotFound := None |}.

Definition findDelayByRid (rid : string) (delayDataArray : list DelayData)
  : option DelayData :=
  if negb (Js.truthy_string rid) then None
  else find (fun d => String.eqb (dd_rid d) rid) delayDataArray.

(** The result pushed when no delay data is found for a journey. *)
Definition notFoundResult (now : Z) (journey : JourneyData) : DelayResult :=
  {| journeyId := Js.nullish (jd_id journey) "";
     result_rid := Js.nullish (jd_rid journey) "";
     isDelayed := false;
     isCancelled := false;
     delayMinutes := 0;
     exceedsThreshold := false;
     claimEligible := false;
     delayReasons := None;
     detectedAt := now;
     dataNotFound := Some true |}.

Definition detectOne (this : t) (now : Z) (delayDataArray : list DelayData)
           (journey : JourneyData) : DelayResult :=
  match findDelayByRid (Js.nullish (jd_rid journey) "") delayDataArray with
  | Some delayData => detectDelay this now journey delayData
  | None => notFoundResult now journey
  end.

Definition detectDelaysBatch (this : t) (now : Z)
           (journeys : list JourneyData) (delayDataArray : list DelayData)
  : list DelayResult :=
  match journeys with
  | [] => []
  | _ => map (detectOne this now delayDataArray) journeys
  end.

End DelayDetector.

(** ** The database: tables, statements and constraints of the schema *)

Module Pg.

(** [pool.query] runs a statement on a connection of its own, which
    commits at once; [client.query] runs it on the connection checked out
    by [pool.connect()], which may hold an open transaction. *)
Inductive Conn : Type :=
| Pool
| Client.

(** A parameter bound to a JSONB column: [null], the text produced by
    [JSON.stringify] (kept as the value it denotes), or the empty
    JavaScript string sent as it is. *)
Inductive JsonbParam : Type :=
| JP_null
| JP_json (j : Json)
| JP_empty_text.

(** Input conversion of the [jsonb] type: the empty text is not JSON, and
    a text with the escape of U+0000 is refused ([jsonb] cannot hold that
    code unit in a string). *)
Definition jsonb_in (p : JsonbParam) : Js.Thrown + option Json :=
  match p with
  | JP_null => inr None
  | JP_json j =>
      if JsonOps.has_nul j
      then inl (Js.ErrorObj "unsupported Unicode escape sequence")
      else inr (Some j)
  | JP_empty_text => inl (Js.ErrorObj "invalid input syntax for type json")
  end.

(** A row of [delay_tracker.delay_alerts]. *)
Record AlertRow : Type := {
  ar_id : string;
  ar_monitored_journey_id : string;
  ar_delay_minutes : Z;
  ar_delay_detected_at : Z;
  ar_delay_reasons : option Json;
  ar_is_cancellation : bool;
  ar_threshold_exceeded : bool;
  ar_claim_triggered : bool;
  ar_claim_triggered_at : option Z;
  ar_claim_reference_id : option string;
  ar_claim_trigger_response : option Json;
  ar_notification_sent : bool;
  ar_notification_sent_at : option Z
}.

(** Parameters [$1..$12] of the alert INSERT. *)
Record AlertValues : Type := {
  av_monitored_journey_id : string;
  av_delay_minutes : Z;
  av_delay_detected_at : Z;
  av_delay_reasons : JsonbParam;
  av_is_cancellation : bool;
  av_threshold_exceeded : bool;
  av_claim_triggered : bool;
  av_claim_triggered_at : option Z;
  av_claim_reference_id : option string;
  av_claim_trigger_response : JsonbParam;
  av_notification_sent : bool;
  av_notification_sent_at : option Z
}.

(** The SET clauses of the alert UPDATE; [None] means the column is not
    mentioned. *)
Record AlertSets : Type := {
  set_delay_minutes : option Z;
  set_delay_reasons : option JsonbParam;
  set_is_cancellation : option bool;
  set_threshold_exceeded : option bool;
  set_claim_triggered : option bool;
  set_claim_triggered_at : option (option Z);
  set_claim_reference_id : option (option string);
  set_claim_trigger_response : option JsonbParam;
  set_notification_sent : option bool;
  set_notification_sent_at : option (option Z)
}.

(** The SET clauses of the journey UPDATE (also the shape of the
    [Partial<MonitoredJourney>] the repository whitelists). *)
Record JourneySets : Type := {
  set_rid : option (option string);
  set_monitoring_status : option MonitoringStatus;
  set_last_checked_at : option (option Z);
  set_next_check_at : option (option Z)
}.

Inductive Stmt : Type :=
| Begin
| Commit
| Rollback
| SelectJourneyById (jid : string)
| SelectJourneyByJourneyId (ext : string)
| SelectJourneysDue (checkTime : Z) (limit : Z)
| InsertJourney (values : MonitoredJourney)
| UpdateJourney (jid : string) (sets : JourneySets)
| UpdateJourneyStatus (jid : string) (st : MonitoringStatus) (r : option string)
| UpdateJourneysLastChecked (ids : list string) (checkedAt : Z) (nextCheckAt : option Z)
| InsertAlert (values : AlertValues)
| SelectAlertById (aid : string)
| UpdateAlert (aid : string) (sets : AlertSets)
| UpdateAlertClaimTriggered (aid : string) (ref : string)
| InsertOutbox (etype atype aid : string) (body : Json).

Record Tables : Type := {
  journeys : list MonitoredJourney;
  alerts : list AlertRow;
  outbox : list OutboxEvent
}.

Inductive Rows : Type :=
| NoRows
| JourneyRows (rows : list MonitoredJourney)
| AlertRows (rows : list AlertRow)
| OutboxRows (rows : list OutboxEvent).

Definition with_journeys (t : Tables) (js : list MonitoredJourney) : Tables :=
  {| journeys := js; alerts := alerts t; outbox := outbox t |}.

Definition with_alerts (t : Tables) (rows : list AlertRow) : Tables :=
  {| journeys := journeys t; alerts := rows; outbox := outbox t |}.

Definition with_outbox (t : Tables) (rows : list OutboxEvent) : Tables :=
  {| journeys := journeys t; alerts := alerts t; outbox := rows |}.

Definition set_or {A : Type} (s : option A) (old : A) : A :=
  match s with
  | Some v => v
  | None => old
  end.

Definition patch_journey (sets : JourneySets) (j : MonitoredJourney)
  : MonitoredJourney :=
  {| id := id j;
     user_id := user_id j;
     journey_id := journey_id j;
     rid := set_or (set_rid sets) (rid j);
     service_date := service_date j;
     origin_crs := origin_crs j;
     destination_crs := destination_crs j;
     scheduled_departure := scheduled_departure j;
     scheduled_arrival := scheduled_arrival j;
     monitoring_status := set_or (set_monitoring_status sets) (monitoring_status j);
     last_checked_at := set_or (set_last_checked_at sets) (last_checked_at j);
     next_check_at := set_or (set_next_check_at sets) (next_check_at j) |}.

(** [UPDATE ... WHERE pred]: the new table and the rows RETURNING gives. *)
Definition update_where {A : Type} (pred : A -> bool) (f : A -> A) (rows : list A)
  : list A * list A :=
  (map (fun r => if pred r then f r else r) rows, map f (filter pred rows)).

Definition id_is (k : string) (j : MonitoredJourney) : bool := String.eqb (id j) k.

Definition id_in (ks : list string) (j : MonitoredJourney) : bool :=
  existsb (String.eqb (id j)) ks.

Definition alert_id_is (k : string) (a : AlertRow) : bool := String.eqb (ar_id a) k.

(** [WHERE next_check_at <= $1 AND monitoring_status IN ('active',
    'pending_rid')]; a NULL [next_check_at] never satisfies the
    comparison. *)
Definition is_due (checkTime : Z) (j : MonitoredJourney) : bool :=
  match next_check_at j with
  | Some t => (t <=? checkTime)
              && (MonitoringStatus_eqb (monitoring_status j) active
                  || MonitoringStatus_eqb (monitoring_status j) pending_rid)
  | None => false
  end.

Definition due_key (j : MonitoredJourney) : Z := Js.nullish (next_check_at j) 0.

Fixpoint insert_due (j : MonitoredJourney) (sorted : list MonitoredJourney)
  : list MonitoredJourney :=
  match sorted with
  | [] => [j]
  | x :: rest =>
      if due_key j <=? due_key x then j :: sorted else x :: insert_due j rest
  end.

(** [ORDER BY next_check_at ASC] (rows with equal keys keep table order). *)
Definition order_by_next_check (rows : list MonitoredJourney) : list MonitoredJourney :=
  fold_right insert_due [] rows.

Definition patch_alert (sets : AlertSets) (dr ctr : option (option Json))
           (a : AlertRow) : AlertRow :=
  {| ar_id := ar_id a;
     ar_monitored_journey_id := ar_monitored_journey_id a;
     ar_delay_minutes := set_or (set_delay_minutes sets) (ar_delay_minutes a);
     ar_delay_detected_at := ar_delay_detected_at a;
     ar_delay_reasons := set_or dr (ar_delay_reasons a);
     ar_is_cancellation := set_or (set_is_cancellation sets) (ar_is_cancellation a);
     ar_threshold_exceeded :=
       set_or (set_threshold_exceeded sets) (ar_threshold_exceeded a);
     ar_claim_triggered := set_or (set_claim_triggered sets) (ar_claim_triggered a);
     ar_claim_triggered_at :=
       set_or (set_claim_triggered_at sets) (ar_claim_triggered_at a);
     ar_claim_reference_id :=
       set_or (set_claim_reference_id sets) (ar_claim_reference_id a);
     ar_claim_trigger_response := set_or ctr (ar_claim_trigger_response a);
     ar_notification_sent :=
       set_or (set_notification_sent sets) (ar_notification_sent a);
     ar_notification_sent_at :=
       set_or (set_notification_sent_at sets) (ar_notification_sent_at a) |}.

Definition mark_claim_triggered (now : Z) (ref : string) (a : AlertRow) : AlertRow :=
  {| ar_id := ar_id a;
     ar_monitored_journey_id := ar_monitored_journey_id a;
     ar_delay_minutes := ar_delay_minutes a;
     ar_delay_detected_at := ar_delay_detected_at a;
     ar_delay_reasons := ar_delay_reasons a;
     ar_is_cancellation := ar_is_cancellation a;
     ar_threshold_exceeded := ar_threshold_exceeded a;
     ar_claim_triggered := true;
     ar_claim_triggered_at := Some now;
     ar_claim_reference_id := Some ref;
     ar_claim_trigger_response := ar_claim_trigger_response a;
     ar_notification_sent := ar_notification_sent a;
     ar_notification_sent_at := ar_notification_sent_at a |}.

(** Input conversion of an optional JSONB SET clause. *)
Definition jsonb_set_in (p : option JsonbParam) : Js.Thrown + option (option Json) :=
  match p with
  | None => inr None
  | Some q => match jsonb_in q with
              | inl e => inl e
              | inr v => inr (Some v)
              end
  end.

Definition unique_violation : Js.Thrown :=
  Js.ErrorObj "duplicate key value violates unique constraint uk_monitored_journeys_journey_id".

Definition check_violation : Js.Thrown :=
  Js.ErrorObj "new row for relation delay_alerts violates check constraint delay_minutes > 0".

Definition fk_violation : Js.Thrown :=
  Js.ErrorObj "insert on table delay_alerts violates foreign key constraint".

(** The effect of one statement on the tables it sees.  The CHECK on
    [delay_minutes] is evaluated where the column is assigned (a stored row
    already satisfies it).  [newid] is the
    value [gen_random_uuid()] yields for an inserted row and [now] the
    value of [NOW()]. *)
Definition run (newid : string) (now : Z) (s : Stmt) (t : Tables)
  : Js.Thrown + (Tables * Rows) :=
  match s with
  | Begin | Commit | Rollback => inr (t, NoRows)
  | SelectJourneyById k =>
      inr (t, JourneyRows (filter (id_is k) (journeys t)))
  | SelectJourneyByJourneyId ext =>
      inr (t, JourneyRows
                (filter (fun j => String.eqb (journey_id j) ext) (journeys t)))
  | SelectJourneysDue checkTime limit =>
      inr (t, JourneyRows
                (firstn (Z.to_nat limit)
                        (order_by_next_check (filter (is_due checkTime) (journeys t)))))
  | InsertJourney v =>
      if existsb (fun j => String.eqb (journey_id j) (journey_id v)) (journeys t)
      then inl unique_violation
      else
        let row := {| id := newid;
                      user_id := user_id v;
                      journey_id := journey_id v;
                      rid := rid v;
                      service_date := service_date v;
                      origin_crs := origin_crs v;
                      destination_crs := destination_crs v;
                      scheduled_departure := scheduled_departure v;
                      scheduled_arrival := scheduled_arrival v;
                      monitoring_status := monitoring_status v;
                      last_checked_at := last_checked_at v;
                      next_check_at := next_check_at v |} in
        inr (with_journeys t (journeys t ++ [row]), JourneyRows [row])
  | UpdateJourney k sets =>
      let '(js, ret) := update_where (id_is k) (patch_journey sets) (journeys t) in
      inr (with_journeys t js, JourneyRows ret)
  | UpdateJourneyStatus k st r =>
      let sets := {| set_rid := option_map Some r;
                     set_monitoring_status := Some st;
                     set_last_checked_at := None;
                     set_next_check_at := None |} in
      let '(js, _) := update_where (id_is k) (patch_journey sets) (journeys t) in
      inr (with_journeys t js, NoRows)
  | UpdateJourneysLastChecked ids checkedAt nextCheckAt =>
      let sets := {| set_rid := None;
                     set_monitoring_status := None;
                     set_last_checked_at := Some (Some checkedAt);
                     set_next_check_at := Some nextCheckAt |} in
      let '(js, _) := update_where (id_in ids) (patch_journey sets) (journeys t) in
      inr (with_journeys t js, NoRows)
  | InsertAlert v =>
      match jsonb_in (av_delay_reasons v), jsonb_in (av_claim_trigger_response v) with
      | inl e, _ => inl e
      | _, inl e => inl e
      | inr dr, inr ctr =>
          if negb (av_delay_minutes v >? 0) then inl check_violation
          else if negb (existsb (id_is (av_monitored_journey_id v)) (journeys t))
          then inl fk_violation
          else
            let row := {| ar_id := newid;
                          ar_monitored_journey_id := av_monitored_journey_id v;
                          ar_delay_minutes := av_delay_minutes v;
                          ar_delay_detected_at := av_delay_detected_at v;
                          ar_delay_reasons := dr;
                          ar_is_cancellation := av_is_cancellation v;
                          ar_threshold_exceeded := av_threshold_exceeded v;
                          ar_claim_triggered := av_claim_triggered v;
                          ar_claim_triggered_at := av_claim_triggered_at v;
                          ar_claim_reference_id := av_claim_reference_id v;
                          ar_claim_trigger_response := ctr;
                          ar_notification_sent := av_notification_sent v;
                          ar_notification_sent_at := av_notification_sent_at v |} in
            inr (with_alerts t (alerts t ++ [row]), AlertRows [row])
      end
  | SelectAlertById k =>
      inr (t, AlertRows (filter (alert_id_is k) (alerts t)))
  | UpdateAlert k sets =>
      match jsonb_set_in (set_delay_reasons sets),
            jsonb_set_in (set_claim_trigger_response sets) with
      | inl e, _ => inl e
      | _, inl e => inl e
      | inr dr, inr ctr =>
          let '(rows, ret) :=
            update_where (alert_id_is k) (patch_alert sets dr ctr) (alerts t) in
          if match set_delay_minutes sets with
             | Some _ => forallb (fun a => ar_delay_minutes a >? 0) ret
             | None => true
             end
          then inr (with_alerts t rows, AlertRows ret)
          else inl check_violation
      end
  | UpdateAlertClaimTriggered k ref =>
      let '(rows, ret) :=
        update_where (alert_id_is k) (mark_claim_triggered now ref) (alerts t) in
      inr (with_alerts t rows, AlertRows ret)
  | InsertOutbox etype atype aid body =>
      let row := {| event_id := newid;
                    event_type := etype;
                    aggregate_type := atype;
                    aggregate_id := aid;
                    payload := body;
                    status := ob_pending;
                    retry_count := 0;
                    error_message := None |} in
      inr (with_outbox t (outbox t ++ [row]), OutboxRows [row])
  end.

(** Transaction control statements. *)
Definition is_control (s : Stmt) : bool :=
  match s with
  | Begin | Commit | Rollback => true
  | _ => false
  end.

Definition is_insert (s : Stmt) : bool :=
  match s with
  | InsertJourney _ | InsertAlert _ | InsertOutbox _ _ _ _ => true
  | _ => false
  end.

(** The statements that read or write [monitored_journeys] only. *)
Definition journey_only (s : Stmt) : bool :=
  match s with
  | SelectJourneyById _ | SelectJourneyByJourneyId _ | SelectJourneysDue _ _
  | InsertJourney _ | UpdateJourney _ _ | UpdateJourneyStatus _ _ _
  | UpdateJourneysLastChecked _ _ _ => true
  | _ => false
  end.

(** The statements that change a table (what a transaction has to keep
    until it commits). *)
Definition is_write (s : Stmt) : bool :=
  match s with
  | InsertJourney _ | UpdateJourney _ _ | UpdateJourneyStatus _ _ _
  | UpdateJourneysLastChecked _ _ _ | InsertAlert _ | UpdateAlert _ _
  | UpdateAlertClaimTriggered _ _ | InsertOutbox _ _ _ _ => true
  | _ => false
  end.

(** Writes made inside the open transaction, oldest first, each with the
    row id it drew. *)
Definition Pending : Type := list (string * Stmt).

Definition replay (now : Z) (pending : Pending) (t : Tables) : Tables :=
  fold_left
    (fun acc '(newid, s) =>
       match run newid now s acc with
       | inr (acc', _) => acc'
       | inl _ => acc
       end)
    pending t.

(** State of the checked-out client connection. *)
Inductive TxState : Type :=
| NoTx
| InTx (pending : Pending)
| Aborted.

Definition aborted_error : Js.Thrown :=
  Js.ErrorObj "current transaction is aborted, commands ignored until end of transaction block".

End Pg.

(** ** Collaborators, the world and the monad of asynchronous code *)

(** [clients/darwin-ingestor.ts]: what [getDelaysByRids] resolves to.  The
    orchestrator accepts the array of the real client and the
    [{ delays: [...] }] object of the test doubles, with either spelling of
    the members. *)
Record RawDelay : Type := {
  raw_rid : string;
  raw_total_delay_minutes : option Z;
  raw_delay_minutes : option Z;
  raw_cancelled : option bool;
  raw_is_cancelled : option bool;
  raw_delay_reasons : option Json
}.

Inductive DarwinResponse : Type :=
| DarwinArray (items : list RawDelay)
| DarwinObject (delays : option (list RawDelay)).

(** [clients/journey-matcher.ts]: only the member the orchestrator reads. *)
Record JourneySegment : Type := {
  segment_rid : option string
}.

Record JourneyWithSegments : Type := {
  segments : list JourneySegment
}.

(** Argument of [EligibilityClient.triggerClaim]. *)
Record TriggerClaimParams : Type := {
  param_userId : string;
  param_journeyId : string;
  param_delayMinutes : Z
}.

(** [DelayAlertInput] of [claim-trigger.ts]. *)
Record DelayAlertInput : Type := {
  in_id : string;
  in_monitored_journey_id : string;
  in_delay_minutes : Z;
  in_user_id : string;
  in_claim_triggered : option bool;
  in_claim_reference_id : option string
}.

(** Everything the code under study does not decide: the clock, the remote
    services, and failures injected below the repositories (a statement for
    which [fault] holds is rejected before it reaches the server, as the
    mocked repository of the integration tests does). *)
Record Env : Type := {
  now : Z;
  fault : Pg.Conn -> Pg.Stmt -> bool;
  darwinClient_getDelaysByRids : list string -> Js.Thrown + DarwinResponse;
  journeyMatcherClient : option (string -> Js.Thrown + option JourneyWithSegments);
  eligibilityClient_triggerClaim :
    TriggerClaimParams -> Js.Thrown + ClaimTriggerApiResponse
}.

(** What a spy on the collaborators would record. *)
Inductive Call : Type :=
| SqlCall (c : Pg.Conn) (s : Pg.Stmt)
| DarwinCall (rids : list string)
| MatcherCall (ext : string)
| OracleCall (params : TriggerClaimParams)
| ClaimTriggerCall (alert : DelayAlertInput).

(** The two counters [runDetectionCycle] declares with [let] and
    increments inside its [try] blocks; an exception does not undo them. *)
Record Locals : Type := {
  delaysDetected : Z;
  claimsTriggered : Z
}.

Record World : Type := {
  tables : Pg.Tables;
  tx : Pg.TxState;
  next_uuid : nat;
  trace : list Call;
  locals : Locals
}.

Definition set_tx (w : World) (s : Pg.TxState) : World :=
  {| tables := tables w; tx := s; next_uuid := next_uuid w;
     trace := trace w; locals := locals w |}.

Definition set_tables (w : World) (t : Pg.Tables) : World :=
  {| tables := t; tx := tx w; next_uuid := next_uuid w;
     trace := trace w; locals := locals w |}.

Definition set_next_uuid (w : World) (n : nat) : World :=
  {| tables := tables w; tx := tx w; next_uuid := n;
     trace := trace w; locals := locals w |}.

Definition set_trace (w : World) (tr : list Call) : World :=
  {| tables := tables w; tx := tx w; next_uuid := next_uuid w;
     trace := tr; locals := locals w |}.

Definition set_locals (w : World) (l : Locals) : World :=
  {| tables := tables w; tx := tx w; next_uuid := next_uuid w;
     trace := trace w; locals := l |}.

Inductive Outcome (A : Type) : Type :=
| Ok (a : A)
| Throw (e : Js.Thrown).

Arguments Ok {A} a.
Arguments Throw {A} e.

Definition M (A : Type) : Type := Env -> World -> Outcome A * World.

Definition ret {A : Type} (a : A) : M A := fun _ w => (Ok a, w).

Definition throw {A : Type} (e : Js.Thrown) : M A := fun _ w => (Throw e, w).

Definition bind {A B : Type} (m : M A) (k : A -> M B) : M B :=
  fun env w =>
    match m env w with
    | (Ok a, w') => k a env w'
    | (Throw e, w') => (Throw e, w')
    end.

(** [try { m } catch (error) { handler error }] *)
Definition try_catch {A : Type} (m : M A) (handler : Js.Thrown -> M A) : M A :=
  fun env w =>
    match m env w with
    | (Ok a, w') => (Ok a, w')
    | (Throw e, w') => handler e env w'
    end.

Declare Scope monad_scope.
Delimit Scope monad_scope with monad.
Notation "x <- m ;; k" := (bind m (fun x => k))
  (at level 61, m at next level, right associativity) : monad_scope.
Notation "' pat <- m ;; k" := (bind m (fun x => match x with pat => k end))
  (at level 61, pat pattern, m at next level, right associativity) : monad_scope.
Notation "m ;;; k" := (bind m (fun _ => k))
  (at level 61, right associativity) : monad_scope.
Local Open Scope monad_scope.

Definition ask : M Env := fun env w => (Ok env, w).

Definition record_call (c : Call) : M unit :=
  fun _ w => (Ok tt, set_trace w (trace w ++ [c])).

(** [for (const x of xs) { body x }] *)
Fixpoint for_each {A : Type} (xs : list A) (body : A -> M unit) : M unit :=
  match xs with
  | [] => ret tt
  | x :: rest => body x ;;; for_each rest body
  end.

(** A remote call: an [inl] answer is a rejected promise. *)
Definition lift_remote {A : Type} (r : Js.Thrown + A) : M A :=
  match r with
  | inl e => throw e
  | inr a => ret a
  end.

(** Identifiers.  [gen_random_uuid()] and [randomUUID()] are modelled by a
    counter that never repeats. *)
Definition uuid_of_nat (n : nat) : string :=
  String.append "uuid-" (NilEmpty.string_of_uint (Nat.to_uint n)).

Arguments uuid_of_nat : simpl never.

Definition randomUUID : M string :=
  fun _ w => (Ok (uuid_of_nat (next_uuid w)), set_next_uuid w (S (next_uuid w))).

(** An INSERT draws one identifier for the new row. *)
Definition bump_uuid (s : Pg.Stmt) (w : World) : World :=
  set_next_uuid w (if Pg.is_insert s then S (next_uuid w) else next_uuid w).

Definition is_sql_call (c : Call) : bool :=
  match c with
  | SqlCall _ _ => true
  | _ => false
  end.


(** [queryClient.query(sql, values)].  On the pool, and on a client with no
    open transaction, a statement commits at once.  Inside a transaction its
    writes are kept pending until COMMIT and dropped by ROLLBACK; a
    statement the server rejects aborts the transaction. *)
Definition query (c : Pg.Conn) (s : Pg.Stmt) : M Pg.Rows :=
  fun env w0 =>
    let w := set_trace w0 (trace w0 ++ [SqlCall c s]) in
    if fault env c s then (Throw (Js.ErrorObj "DB error"), w)
    else
      match s with
      | Pg.Begin =>
          match c with
          | Pg.Client => (Ok Pg.NoRows, set_tx w (Pg.InTx []))
          | Pg.Pool => (Ok Pg.NoRows, w)
          end
      | Pg.Commit =>
          match c, tx w with
          | Pg.Client, Pg.InTx pending =>
              (Ok Pg.NoRows,
               set_tx (set_tables w (Pg.replay (now env) pending (tables w))) Pg.NoTx)
          | Pg.Client, _ => (Ok Pg.NoRows, set_tx w Pg.NoTx)
          | Pg.Pool, _ => (Ok Pg.NoRows, w)
          end
      | Pg.Rollback =>
          match c with
          | Pg.Client => (Ok Pg.NoRows, set_tx w Pg.NoTx)
          | Pg.Pool => (Ok Pg.NoRows, w)
          end
      | _ =>
          let newid := uuid_of_nat (next_uuid w) in
          match c, tx w with
          | Pg.Client, Pg.Aborted => (Throw Pg.aborted_error, w)
          | Pg.Client, Pg.InTx pending =>
              match Pg.run newid (now env) s (Pg.replay (now env) pending (tables w)) with
              | inl e => (Throw e, set_tx w Pg.Aborted)
              | inr (_, rows) =>
                  (Ok rows,
                   bump_uuid s
                     (set_tx w (Pg.InTx (if Pg.is_write s
                                         then pending ++ [(newid, s)]
                                         else pending))))
              end
          | _, _ =>
              match Pg.run newid (now env) s (tables w) with
              | inl e => (Throw e, w)
              | inr (t', rows) => (Ok rows, bump_uuid s (set_tables w t'))
              end
          end
      end.

(** [client || this.pool] *)
Definition queryClient (client : option Pg.Conn) : Pg.Conn :=
  Js.nullish client Pg.Pool.

Definition type_error {A : Type} : M A :=
  throw (Js.ErrorObj "Cannot read properties of undefined").

(** ** [repositories/journey-repository.ts] *)

Module JourneyRepository.

Definition journey_rows (r : Pg.Rows) : list MonitoredJourney :=
  match r with
  | Pg.JourneyRows rows => rows
  | _ => []
  end.

(** [mapRow] copies the columns; the only conversion it makes
    ([service_date] to text) is one the rows already carry. *)
Definition mapRow (row : MonitoredJourney) : MonitoredJourney := row.

(** [rows.length > 0 ? mapRow(rows[0]) : null] *)
Definition first_or_null (r : Pg.Rows) : option MonitoredJourney :=
  match journey_rows r with
  | row :: _ => Some (mapRow row)
  | [] => None
  end.

Definition create (journey : MonitoredJourney) (client : option Pg.Conn)
  : M MonitoredJourney :=
  let values :=
    {| id := "";
       user_id := user_id journey;
       journey_id := journey_id journey;
       rid := if Js.truthy_opt_string (rid journey) then rid journey else None;
       service_date := service_date journey;
       origin_crs := origin_crs journey;
       destination_crs := destination_crs journey;
       scheduled_departure := scheduled_departure journey;
       scheduled_arrival := scheduled_arrival journey;
       monitoring_status := monitoring_status journey;
       last_checked_at := last_checked_at journey;
       next_check_at := next_check_at journey |} in
  result <- query (queryClient client) (Pg.InsertJourney values) ;;
  match journey_rows result with
  | row :: _ => ret (mapRow row)
  | [] => type_error
  end.

Definition findById (k : string) : M (option MonitoredJourney) :=
  result <- query Pg.Pool (Pg.SelectJourneyById k) ;;
  ret (first_or_null result).

Definition findByJourneyId (ext : string) : M (option MonitoredJourney) :=
  result <- query Pg.Pool (Pg.SelectJourneyByJourneyId ext) ;;
  ret (first_or_null result).

Definition findJourneysDueForCheck (limit : option Z) (at_time : option Z)
  : M (list MonitoredJourney) :=
  env <- ask ;;
  let checkTime := Js.nullish at_time (now env) in
  result <- query Pg.Pool (Pg.SelectJourneysDue checkTime (Js.nullish limit 100)) ;;
  ret (map mapRow (journey_rows result)).

Definition no_sets (updates : Pg.JourneySets) : bool :=
  match Pg.set_rid updates, Pg.set_monitoring_status updates,
        Pg.set_last_checked_at updates, Pg.set_next_check_at updates with
  | None, None, None, None => true
  | _, _, _, _ => false
  end.

Definition update (k : string) (updates : Pg.JourneySets)
  : M (option MonitoredJourney) :=
  if no_sets updates then findById k
  else
    result <- query Pg.Pool (Pg.UpdateJourney k updates) ;;
    ret (first_or_null result).

(** [additionalData?.rid] is used only when it is truthy. *)
Definition updateStatus (k : string) (st : MonitoringStatus)
           (additionalData : option (option string)) : M unit :=
  let r := match additionalData with
           | Some (Some x) => if Js.truthy_string x then Some x else None
           | _ => None
           end in
  query Pg.Pool (Pg.UpdateJourneyStatus k st r) ;;; ret tt.

(** [nextCheckAt || null]: a [Date] is always truthy. *)
Definition updateLastChecked (ids : list string) (checkedAt : Z)
           (nextCheckAt : option Z) : M unit :=
  match ids with
  | [] => ret tt
  | _ => query Pg.Pool (Pg.UpdateJourneysLastChecked ids checkedAt nextCheckAt) ;;;
         ret tt
  end.

End JourneyRepository.

(** ** [repositories/delay-alert-repository.ts] *)

Module DelayAlertRepository.

(** [Partial<DelayAlert>] restricted to [allowedFields]: [None] when the
    member is absent, [Some v] when [field in updates]. *)
Record AlertUpdates : Type := {
  upd_delay_minutes : option Z;
  upd_delay_reasons : option (option Json);
  upd_is_cancellation : option bool;
  upd_threshold_exceeded : option bool;
  upd_claim_triggered : option bool;
  upd_claim_triggered_at : option (option Z);
  upd_claim_reference_id : option (option string);
  upd_claim_trigger_response : option (option string);
  upd_notification_sent : option bool;
  upd_notification_sent_at : option (option Z)
}.

Definition alert_rows (r : Pg.Rows) : list Pg.AlertRow :=
  match r with
  | Pg.AlertRows rows => rows
  | _ => []
  end.

(** [mapRow]: a JSONB object with a [message] member yields that member,
    a JSONB string yields itself, anything else yields [null].  (The
    cast [as string] is unchecked; a [message] that is not a string has
    no counterpart in [DelayAlert] and reads as [null] here.) *)
Definition extract_response (column : option Json) : option string :=
  match column with
  | Some response =>
      if JsonOps.truthy response then
        match response with
        | JObj fields =>
            match JsonOps.assoc "message" fields with
            | Some (JStr m) => Some m
            | _ => None
            end
        | JStr s => Some s
        | _ => None
        end
      else None
  | None => None
  end.

Definition mapRow (row : Pg.AlertRow) : DelayAlert :=
  {| alert_id := Pg.ar_id row;
     monitored_journey_id := Pg.ar_monitored_journey_id row;
     delay_minutes := Pg.ar_delay_minutes row;
     delay_detected_at := Some (Pg.ar_delay_detected_at row);
     delay_reasons := Pg.ar_delay_reasons row;
     is_cancellation := Some (Pg.ar_is_cancellation row);
     threshold_exceeded := Some (Pg.ar_threshold_exceeded row);
     claim_triggered := Pg.ar_claim_triggered row;
     claim_triggered_at := Pg.ar_claim_triggered_at row;
     claim_reference_id := Pg.ar_claim_reference_id row;
     claim_trigger_response := extract_response (Pg.ar_claim_trigger_response row);
     notification_sent := Pg.ar_notification_sent row;
     notification_sent_at := Pg.ar_notification_sent_at row |}.

Definition first_or_null (r : Pg.Rows) : option DelayAlert :=
  match alert_rows r with
  | row :: _ => Some (mapRow row)
  | [] => None
  end.

(** [JSON.stringify(typeof v === 'string' ? { message: v } : v)] for the
    string-or-null member [claim_trigger_response]. *)
Definition wrap_message (v : string) : Pg.JsonbParam :=
  Pg.JP_json (JObj [("message", JStr v)]).

(** How the driver sends a JavaScript value that reached the parameter
    list without [JSON.stringify]. *)
Definition prepareValue (j : Json) : Pg.JsonbParam :=
  match j with
  | JNull => Pg.JP_null
  | JStr EmptyString => Pg.JP_empty_text
  | _ => Pg.JP_json j
  end.

Definition create (alert : DelayAlert) (client : option Pg.Conn) : M DelayAlert :=
  env <- ask ;;
  let values :=
    {| Pg.av_monitored_journey_id := monitored_journey_id alert;
       Pg.av_delay_minutes := delay_minutes alert;
       Pg.av_delay_detected_at := Js.nullish (delay_detected_at alert) (now env);
       Pg.av_delay_reasons :=
         match delay_reasons alert with
         | Some j => if JsonOps.truthy j then Pg.JP_json j else Pg.JP_null
         | None => Pg.JP_null
         end;
       Pg.av_is_cancellation := Js.truthy_opt_bool (is_cancellation alert);
       Pg.av_threshold_exceeded := Js.truthy_opt_bool (threshold_exceeded alert);
       Pg.av_claim_triggered := claim_triggered alert;
       Pg.av_claim_triggered_at := claim_triggered_at alert;
       Pg.av_claim_reference_id :=
         if Js.truthy_opt_string (claim_reference_id alert)
         then claim_reference_id alert else None;
       Pg.av_claim_trigger_response :=
         match claim_trigger_response alert with
         | Some v => if Js.truthy_string v then wrap_message v else Pg.JP_null
         | None => Pg.JP_null
         end;
       Pg.av_notification_sent := notification_sent alert;
       Pg.av_notification_sent_at := notification_sent_at alert |} in
  result <- query (queryClient client) (Pg.InsertAlert values) ;;
  match alert_rows result with
  | row :: _ => ret (mapRow row)
  | [] => type_error
  end.

Definition findById (k : string) : M (option DelayAlert) :=
  result <- query Pg.Pool (Pg.SelectAlertById k) ;;
  ret (first_or_null result).

Definition markClaimTriggered (k : string) (claimReferenceId : string)
           (client : option Pg.Conn) : M (option DelayAlert) :=
  result <- query (queryClient client) (Pg.UpdateAlertClaimTriggered k claimReferenceId) ;;
  ret (first_or_null result).

Definition sets_of (updates : AlertUpdates) : Pg.AlertSets :=
  {| Pg.set_delay_minutes := upd_delay_minutes updates;
     Pg.set_delay_reasons :=
       match upd_delay_reasons updates with
       | None => None
       | Some None => Some Pg.JP_null
       | Some (Some j) =>
           Some (if JsonOps.truthy j then Pg.JP_json j else prepareValue j)
       end;
     Pg.set_is_cancellation := upd_is_cancellation updates;
     Pg.set_threshold_exceeded := upd_threshold_exceeded updates;
     Pg.set_claim_triggered := upd_claim_triggered updates;
     Pg.set_claim_triggered_at := upd_claim_triggered_at updates;
     Pg.set_claim_reference_id := upd_claim_reference_id updates;
     Pg.set_claim_trigger_response :=
       match upd_claim_trigger_response updates with
       | None => None
       | Some None => Some Pg.JP_null
       | Some (Some v) =>
           Some (if Js.truthy_string v then wrap_message v else Pg.JP_empty_text)
       end;
     Pg.set_notification_sent := upd_notification_sent updates;
     Pg.set_notification_sent_at := upd_notification_sent_at updates |}.

Definition no_sets (updates : AlertUpdates) : bool :=
  match upd_delay_minutes updates, upd_delay_reasons updates,
        upd_is_cancellation updates, upd_threshold_exceeded updates,
        upd_claim_triggered updates, upd_claim_triggered_at updates,
        upd_claim_reference_id updates, upd_claim_trigger_response updates,
        upd_notification_sent updates, upd_notification_sent_at updates with
  | None, None, None, None, None, None, None, None, None, None => true
  | _, _, _, _, _, _, _, _, _, _ => false
  end.

Definition update (k : string) (updates : AlertUpdates) (client : option Pg.Conn)
  : M (option DelayAlert) :=
  if no_sets updates then findById k
  else
    result <- query (queryClient client) (Pg.UpdateAlert k (sets_of updates)) ;;
    ret (first_or_null result).

Definition no_updates : AlertUpdates :=
  {| upd_delay_minutes := None;
     upd_delay_reasons := None;
     upd_is_cancellation := None;
     upd_threshold_exceeded := None;
     upd_claim_triggered := None;
     upd_claim_triggered_at := None;
     upd_claim_reference_id := None;
     upd_claim_trigger_response := None;
     upd_notification_sent := None;
     upd_notification_sent_at := None |}.

(** The object literal
    [{ claim_triggered: false, claim_trigger_response: text }]. *)
Definition claim_outcome (text : string) : AlertUpdates :=
  {| upd_delay_minutes := None;
     upd_delay_reasons := None;
     upd_is_cancellation := None;
     upd_threshold_exceeded := None;
     upd_claim_triggered := Some false;
     upd_claim_triggered_at := None;
     upd_claim_reference_id := None;
     upd_claim_trigger_response := Some (Some text);
     upd_notification_sent := None;
     upd_notification_sent_at := None |}.


End DelayAlertRepository.

(** ** [repositories/outbox-repository.ts] *)

Module OutboxRepository.

Definition outbox_rows (r : Pg.Rows) : list OutboxEvent :=
  match r with
  | Pg.OutboxRows rows => rows
  | _ => []
  end.

(** [create] writes the type, the aggregate and the payload; the row
    starts [pending] with [retry_count = 0] whatever the event says. *)
Definition create (etype atype aid : string) (body : Json)
           (client : option Pg.Conn) : M OutboxEvent :=
  result <- query (queryClient client) (Pg.InsertOutbox etype atype aid body) ;;
  match outbox_rows result with
  | row :: _ => ret row
  | [] => type_error
  end.

End OutboxRepository.

(** ** [services/outbox-publisher.ts]: the typed event builders *)

Module OutboxPublisher.

(** [data.correlationId ?? randomUUID()] *)
Definition correlation (c : option string) : M string :=
  match c with
  | Some x => ret x
  | None => randomUUID
  end.

Definition publishDelayDetected (journeyId alertId userId : string)
           (delayMinutes : Z) (delayReasons : option Json)
           (correlationId : option string) (client : option Pg.Conn) : M unit :=
  cid <- correlation correlationId ;;
  OutboxRepository.create "delay.detected" "delay_alert" alertId
    (JObj (JsonOps.obj_of
             [("journeyId", Some (JStr journeyId));
              ("alertId", Some (JStr alertId));
              ("userId", Some (JStr userId));
              ("delayMinutes", Some (JNum delayMinutes));
              ("delayReasons", delayReasons);
              ("correlationId", Some (JStr cid))]))
    client ;;;
  ret tt.

Definition publishClaimTriggered (alertId journeyId userId claimReferenceId : string)
           (delayMinutes : Z) (correlationId : option string)
           (client : option Pg.Conn) : M unit :=
  cid <- correlation correlationId ;;
  OutboxRepository.create "claim.triggered" "delay_alert" alertId
    (JObj [("alertId", JStr alertId);
           ("journeyId", JStr journeyId);
           ("userId", JStr userId);
           ("claimReferenceId", JStr claimReferenceId);
           ("delayMinutes", JNum delayMinutes);
           ("correlationId", JStr cid)])
    client ;;;
  ret tt.

Definition publishJourneyMonitoringStarted
           (journeyId userId monitoredJourneyId origin destination : string)
           (scheduledDeparture : Z) (correlationId : option string)
           (client : option Pg.Conn) : M unit :=
  cid <- correlation correlationId ;;
  OutboxRepository.create "journey.monitoring_started" "monitored_journey"
    monitoredJourneyId
    (JObj [("journeyId", JStr journeyId);
           ("userId", JStr userId);
           ("monitoredJourneyId", JStr monitoredJourneyId);
           ("origin", JStr origin);
           ("destination", JStr destination);
           ("scheduledDeparture", JNum scheduledDeparture);
           ("correlationId", JStr cid)])
    client ;;;
  ret tt.

(** [completedAt] is written with [toISOString()] in the source; the
    payload keeps the instant itself. *)
Definition publishJourneyCompleted (journeyId userId : string) (completedAt : Z)
           (hadDelay : bool) (delayMinutes : option Z)
           (correlationId : option string) (client : option Pg.Conn) : M unit :=
  cid <- correlation correlationId ;;
  OutboxRepository.create "journey.completed" "monitored_journey" journeyId
    (JObj (JsonOps.obj_of
             [("journeyId", Some (JStr journeyId));
              ("userId", Some (JStr userId));
              ("completedAt", Some (JNum completedAt));
              ("hadDelay", Some (JBool hadDelay));
              ("delayMinutes", option_map JNum delayMinutes);
              ("correlationId", Some (JStr cid))]))
    client ;;;
  ret tt.

End OutboxPublisher.

(** ** [services/journey-monitor.ts] *)

Module JourneyMonitor.

Definition VALID_TRANSITIONS (s : MonitoringStatus) : list MonitoringStatus :=
  match s with
  | pending_rid => [active; cancelled]
  | active => [delayed; completed; cancelled]
  | delayed => [completed; cancelled]
  | completed => []
  | cancelled => []
  end.

(** [validNextStates.includes(newStatus)] *)
Definition includes (l : list MonitoringStatus) (s : MonitoringStatus) : bool :=
  existsb (MonitoringStatus_eqb s) l.

Definition checkIntervalMinutes : Z := 5.

Definition t48Hours : Z := 48 * 60 * 60 * 1000.

Record RegisterJourneyData : Type := {
  reg_user_id : string;
  reg_journey_id : string;
  reg_service_date : string;
  reg_origin_crs : string;
  reg_destination_crs : string;
  reg_scheduled_departure : Z;
  reg_scheduled_arrival : Z
}.

Definition getJourneysDueForCheck : M (list MonitoredJourney) :=
  env <- ask ;;
  JourneyRepository.findJourneysDueForCheck (Some 100) (Some (now env)).

Definition updateLastChecked (journeyIds : list string) : M unit :=
  match journeyIds with
  | [] => ret tt
  | _ =>
      env <- ask ;;
      let nextCheck := now env + checkIntervalMinutes * 60 * 1000 in
      JourneyRepository.updateLastChecked journeyIds (now env) None ;;;
      JourneyRepository.updateLastChecked journeyIds (now env) (Some nextCheck)
  end.

Definition invalid_transition (currentStatus newStatus : MonitoringStatus)
  : Js.Thrown :=
  Js.ErrorObj
    (String.append "Invalid status transition from '"
       (String.append (status_name currentStatus)
          (String.append "' to '"
             (String.append (status_name newStatus) "'")))).

Definition registerJourney (data : RegisterJourneyData) : M MonitoredJourney :=
  existing <- JourneyRepository.findByJourneyId (reg_journey_id data) ;;
  match existing with
  | Some _ => throw (Js.ErrorObj "Journey already registered for monitoring")
  | None =>
      env <- ask ;;
      let departureTime := reg_scheduled_departure data in
      let timeUntilDeparture := departureTime - now env in
      let monitoringStatus := pending_rid in
      let nextCheckAt :=
        if timeUntilDeparture >? t48Hours
        then departureTime - t48Hours
        else now env + checkIntervalMinutes * 60 * 1000 in
      JourneyRepository.create
        {| id := "";
           user_id := reg_user_id data;
           journey_id := reg_journey_id data;
           rid := None;
           service_date := reg_service_date data;
           origin_crs := reg_origin_crs data;
           destination_crs := reg_destination_crs data;
           scheduled_departure := reg_scheduled_departure data;
           scheduled_arrival := reg_scheduled_arrival data;
           monitoring_status := monitoringStatus;
           last_checked_at := None;
           next_check_at := Some nextCheckAt |}
        None
  end.

Definition updateStatus (journeyId : string) (newStatus : MonitoringStatus)
           (additionalData : option (option string)) : M unit :=
  journey <- JourneyRepository.findById journeyId ;;
  match journey with
  | Some j =>
      let currentStatus := monitoring_status j in
      let validNextStates := VALID_TRANSITIONS currentStatus in
      if negb (includes validNextStates newStatus)
      then throw (invalid_transition currentStatus newStatus)
      else ret tt
  | None => ret tt
  end ;;;
  JourneyRepository.updateStatus journeyId newStatus additionalData.

Definition journey_not_found : Js.Thrown := Js.ErrorObj "Journey not found".

Definition resolveRid (journeyId : string) (r : string) : M unit :=
  journey <- JourneyRepository.findById journeyId ;;
  match journey with
  | None => throw journey_not_found
  | Some _ =>
      env <- ask ;;
      JourneyRepository.update journeyId
        {| Pg.set_rid := Some (Some r);
           Pg.set_monitoring_status := Some active;
           Pg.set_last_checked_at := None;
           Pg.set_next_check_at := None |} ;;;
      JourneyRepository.update journeyId
        {| Pg.set_rid := None;
           Pg.set_monitoring_status := None;
           Pg.set_last_checked_at := None;
           Pg.set_next_check_at := Some (Some (now env)) |} ;;;
      ret tt
  end.

Definition clear_next_check : Pg.JourneySets :=
  {| Pg.set_rid := None;
     Pg.set_monitoring_status := None;
     Pg.set_last_checked_at := None;
     Pg.set_next_check_at := Some None |}.

Definition cancelMonitoring (journeyId : string) : M unit :=
  journey <- JourneyRepository.findById journeyId ;;
  match journey with
  | None => throw journey_not_found
  | Some _ =>
      JourneyRepository.updateStatus journeyId cancelled None ;;;
      JourneyRepository.update journeyId clear_next_check ;;;
      ret tt
  end.

Definition completeJourney (journeyId : string) : M unit :=
  journey <- JourneyRepository.findById journeyId ;;
  match journey with
  | None => throw journey_not_found
  | Some _ =>
      JourneyRepository.updateStatus journeyId completed None ;;;
      JourneyRepository.update journeyId clear_next_check ;;;
      ret tt
  end.

End JourneyMonitor.

(** ** [services/claim-trigger.ts] *)

Module ClaimTrigger.

Record ClaimTriggerConfig : Type := {
  cfg_thresholdMinutes : option Z
}.

Record t : Type := {
  thresholdMinutes : Z
}.

Definition constructor (config : ClaimTriggerConfig) : t :=
  {| thresholdMinutes := Js.nullish (cfg_thresholdMinutes config) 15 |}.

Definition getThreshold (this : t) : Z := thresholdMinutes this.

Definition isNetworkError (errorMessage : string) : bool :=
  Js.includes (Js.toLowerCase errorMessage) "network"
  || Js.includes errorMessage "ECONNREFUSED"
  || Js.includes (Js.toLowerCase errorMessage) "timeout".

(** The body of the [try] block once the oracle has answered. *)
Definition classify (now : Z) (alertId : string) (response : ClaimTriggerApiResponse)
  : ClaimTriggerResult :=
  if negb (Js.truthy_opt_bool (api_success response))
     && Js.truthy_opt_string (api_claim_reference_id response)
  then {| success := false;
          claimReferenceId := None;
          reason := Some DUPLICATE_CLAIM;
          estimatedCompensation := None;
          existingClaimReferenceId := api_claim_reference_id response;
          error := None;
          retryable := None;
          triggeredAt := now;
          delayAlertId := alertId |}
  else
    match api_eligible response with
    | Some false =>
        {| success := false;
           claimReferenceId := None;
           reason := Some NOT_ELIGIBLE;
           estimatedCompensation := None;
           existingClaimReferenceId := None;
           error := None;
           retryable := None;
           triggeredAt := now;
           delayAlertId := alertId |}
    | _ =>
        if negb (Js.truthy_opt_bool (api_success response))
        then {| success := false;
                claimReferenceId := None;
                reason := Some SERVICE_ERROR;
                estimatedCompensation := None;
                existingClaimReferenceId := None;
                error := api_message response;
                retryable := Some false;
                triggeredAt := now;
                delayAlertId := alertId |}
        else {| success := true;
                claimReferenceId := api_claim_reference_id response;
                reason := None;
                estimatedCompensation := api_estimated_compensation response;
                existingClaimReferenceId := None;
                error := None;
                retryable := None;
                triggeredAt := now;
                delayAlertId := alertId |}
    end.

Definition networkError (now : Z) (alertId : string) (thrown : Js.Thrown)
  : ClaimTriggerResult :=
  let errorMessage := Js.message_of thrown in
  {| success := false;
     claimReferenceId := None;
     reason := Some NETWORK_ERROR;
     estimatedCompensation := None;
     existingClaimReferenceId := None;
     error := Some errorMessage;
     retryable := Some (isNetworkError errorMessage);
     triggeredAt := now;
     delayAlertId := alertId |}.

Definition triggerClaim (this : t) (delayAlert : DelayAlertInput)
  : M ClaimTriggerResult :=
  record_call (ClaimTriggerCall delayAlert) ;;;
  env <- ask ;;
  if Js.truthy_opt_bool (in_claim_triggered delayAlert)
  then ret {| success := false;
              claimReferenceId := None;
              reason := Some ALREADY_TRIGGERED;
              estimatedCompensation := None;
              existingClaimReferenceId := in_claim_reference_id delayAlert;
              error := None;
              retryable := None;
              triggeredAt := now env;
              delayAlertId := in_id delayAlert |}
  else if in_delay_minutes delayAlert <? thresholdMinutes this
  then ret {| success := false;
              claimReferenceId := None;
              reason := Some BELOW_THRESHOLD;
              estimatedCompensation := None;
              existingClaimReferenceId := None;
              error := None;
              retryable := None;
              triggeredAt := now env;
              delayAlertId := in_id delayAlert |}
  else
    let params := {| param_userId := in_user_id delayAlert;
                     param_journeyId := in_monitored_journey_id delayAlert;
                     param_delayMinutes := in_delay_minutes delayAlert |} in
    try_catch
      (record_call (OracleCall params) ;;;
       response <- lift_remote (eligibilityClient_triggerClaim env params) ;;
       ret (classify (now env) (in_id delayAlert) response))
      (fun thrown => ret (networkError (now env) (in_id delayAlert) thrown)).

(** [triggerClaimsBatch] *)
Fixpoint triggerClaimsBatch (this : t) (delayAlerts : list DelayAlertInput)
  : M (list ClaimTriggerResult) :=
  match delayAlerts with
  | [] => ret []
  | alert :: rest =>
      result <- triggerClaim this alert ;;
      results <- triggerClaimsBatch this rest ;;
      ret (result :: results)
  end.

End ClaimTrigger.

(** ** [clients/journey-matcher.ts]: [extractRidsFromSegments] *)

Module JourneyMatcherClient.

Fixpoint extractRidsFromSegments (segs : list JourneySegment) : list string :=
  match segs with
  | [] => []
  | seg :: rest =>
      match segment_rid seg with
      | Some r => r :: extractRidsFromSegments rest
      | None => extractRidsFromSegments rest
      end
  end.


End JourneyMatcherClient.

(** ** [services/delay-tracker.ts]: the detection orchestrator *)

Module DelayTrackerService.

Record t : Type := {
  delayDetector : DelayDetector.t;
  claimTrigger : ClaimTrigger.t
}.

Record DetectionCycleMetrics : Type := {
  journeysChecked : Z;
  metric_delaysDetected : Z;
  metric_claimsTriggered : Z;
  durationMs : Z
}.

Definition reset_locals : M unit :=
  fun _ w => (Ok tt, set_locals w {| delaysDetected := 0; claimsTriggered := 0 |}).

(** [delaysDetected++] *)
Definition incr_delaysDetected : M unit :=
  fun _ w =>
    (Ok tt, set_locals w {| delaysDetected := delaysDetected (locals w) + 1;
                            claimsTriggered := claimsTriggered (locals w) |}).

(** [claimsTriggered++] *)
Definition incr_claimsTriggered : M unit :=
  fun _ w =>
    (Ok tt, set_locals w {| delaysDetected := delaysDetected (locals w);
                            claimsTriggered := claimsTriggered (locals w) + 1 |}).

Definition read_locals : M Locals := fun _ w => (Ok (locals w), w).

(** A loop that grows local arrays: the accumulator is threaded through
    the iterations. *)
Fixpoint fold_each {A S : Type} (xs : list A) (acc : S) (body : S -> A -> M S)
  : M S :=
  match xs with
  | [] => ret acc
  | x :: rest => acc' <- body acc x ;; fold_each rest acc' body
  end.

(** [Array.isArray(raw) ? raw : (raw?.delays || [])] *)
Definition responseData (raw : DarwinResponse) : list RawDelay :=
  match raw with
  | DarwinArray items => items
  | DarwinObject (Some items) => items
  | DarwinObject None => []
  end.

Definition toDelayData (d : RawDelay) : DelayDetector.DelayData :=
  {| DelayDetector.dd_rid := raw_rid d;
     DelayDetector.total_delay_minutes :=
       Js.nullish (raw_total_delay_minutes d) (Js.nullish (raw_delay_minutes d) 0);
     DelayDetector.cancelled_flag :=
       Js.nullish (raw_cancelled d) (Js.nullish (raw_is_cancelled d) false);
     DelayDetector.dd_delay_reasons := raw_delay_reasons d |}.

(** The position fallback: with exactly one journey and exactly one delay
    record, the record is given the journey's RID before matching. *)
Definition mapDelayData (journeysWithRids : list MonitoredJourney)
           (delayDataArray : list DelayDetector.DelayData)
  : list DelayDetector.DelayData :=
  match journeysWithRids, delayDataArray with
  | [j], [d] =>
      [{| DelayDetector.dd_rid := Js.nullish (rid j) "";
          DelayDetector.total_delay_minutes := DelayDetector.total_delay_minutes d;
          DelayDetector.cancelled_flag := DelayDetector.cancelled_flag d;
          DelayDetector.dd_delay_reasons := DelayDetector.dd_delay_reasons d |}]
  | _, _ => delayDataArray
  end.

Definition toJourneyData (j : MonitoredJourney) : DelayDetector.JourneyData :=
  {| DelayDetector.jd_id := Some (id j); DelayDetector.jd_rid := rid j |}.

(** Step 6 of the cycle: the results for the active journeys that have a
    RID, given the delay data obtained from the upstream answer. *)
Definition classify (this : t) (now : Z) (journeysWithRids : list MonitoredJourney)
           (delayDataArray : list DelayDetector.DelayData) : list DelayResult :=
  DelayDetector.detectDelaysBatch (delayDetector this) now
    (map toJourneyData journeysWithRids)
    (mapDelayData journeysWithRids delayDataArray).

Definition not_eligible_text : string :=
  "Journey does not meet eligibility criteria - not eligible".

(** [claimResult.error || claimResult.reason || 'Claim trigger failed'],
    after the NOT_ELIGIBLE case. *)
Definition response_text (claimResult : ClaimTriggerResult) : string :=
  match reason claimResult with
  | Some NOT_ELIGIBLE => not_eligible_text
  | _ =>
      if Js.truthy_opt_string (error claimResult)
      then Js.nullish (error claimResult) ""
      else match reason claimResult with
           | Some r => reason_name r
           | None => "Claim trigger failed"
           end
  end.

(** The claim step of the per-journey commit (the inner [try]). *)
Definition claimStep (this : t) (correlationId : string) (journey : MonitoredJourney)
           (result : DelayResult) (alert : DelayAlert) (client : option Pg.Conn)
  : M unit :=
  try_catch
    (claimResult <- ClaimTrigger.triggerClaim (claimTrigger this)
                      {| in_id := alert_id alert;
                         in_monitored_journey_id := journeyId result;
                         in_delay_minutes := delayMinutes result;
                         in_user_id := user_id journey;
                         in_claim_triggered := None;
                         in_claim_reference_id := None |} ;;
     if success claimResult && Js.truthy_opt_string (claimReferenceId claimResult)
     then
       incr_claimsTriggered ;;;
       DelayAlertRepository.markClaimTriggered (alert_id alert)
         (Js.nullish (claimReferenceId claimResult) "") client ;;;
       OutboxPublisher.publishClaimTriggered (alert_id alert) (journeyId result)
         (user_id journey) (Js.nullish (claimReferenceId claimResult) "")
         (delayMinutes result) (Some correlationId) client
     else
       DelayAlertRepository.update (alert_id alert)
         (DelayAlertRepository.claim_outcome (response_text claimResult)) client ;;;
       ret tt)
    (fun thrown =>
       DelayAlertRepository.update (alert_id alert)
         (DelayAlertRepository.claim_outcome (Js.message_of thrown)) client ;;;
       ret tt).

(** The body of the outer [try]: BEGIN ... COMMIT. *)
Definition transactionBody (this : t) (correlationId : string)
           (journey : MonitoredJourney) (result : DelayResult) : M unit :=
  let client := Some Pg.Client in
  query Pg.Client Pg.Begin ;;;
  let alertDelayMinutes :=
    if isCancelled result && (delayMinutes result =? 0)
    then 1 else delayMinutes result in
  alert <- DelayAlertRepository.create
             {| alert_id := "";
                monitored_journey_id := journeyId result;
                delay_minutes := alertDelayMinutes;
                delay_detected_at := Some (detectedAt result);
                delay_reasons := delayReasons result;
                is_cancellation := Some (isCancelled result);
                threshold_exceeded := Some (exceedsThreshold result);
                claim_triggered := false;
                claim_triggered_at := None;
                claim_reference_id := None;
                claim_trigger_response := None;
                notification_sent := false;
                notification_sent_at := None |}
             client ;;
  (if isCancelled result
   then JourneyMonitor.updateStatus (journeyId result) cancelled None
   else JourneyMonitor.updateStatus (journeyId result) delayed None) ;;;
  OutboxPublisher.publishDelayDetected (journeyId result) (alert_id alert)
    (user_id journey) (delayMinutes result) (delayReasons result)
    (Some correlationId) client ;;;
  (if claimEligible result && negb (isCancelled result)
   then claimStep this correlationId journey result alert client
   else ret tt) ;;;
  query Pg.Client Pg.Commit ;;;
  ret tt.

(** One iteration of the loop over the delay results (step 7). *)
Definition processResult (this : t) (correlationId : string)
           (journeysWithRids : list MonitoredJourney) (result : DelayResult)
  : M unit :=
  if negb (exceedsThreshold result) && negb (isCancelled result)
  then ret tt
  else
    incr_delaysDetected ;;;
    match find (fun j => String.eqb (id j) (journeyId result)) journeysWithRids with
    | None => ret tt
    | Some journey =>
        try_catch
          (transactionBody this correlationId journey result)
          (fun _ => query Pg.Client Pg.Rollback ;;; ret tt)
    end.

(** Step 3: completed journeys are closed, the others are split by
    status. *)
Definition partitionStep (correlationId : string)
           (acc : list MonitoredJourney * list MonitoredJourney * list string)
           (journey : MonitoredJourney)
  : M (list MonitoredJourney * list MonitoredJourney * list string) :=
  let '(pendingRidJourneys, activeJourneys, completedJourneyIds) := acc in
  env <- ask ;;
  if scheduled_arrival journey <? now env
  then
    JourneyMonitor.completeJourney (id journey) ;;;
    OutboxPublisher.publishJourneyCompleted (id journey) (user_id journey) (now env)
      (MonitoringStatus_eqb (monitoring_status journey) delayed) None
      (Some correlationId) None ;;;
    ret (pendingRidJourneys, activeJourneys, completedJourneyIds ++ [id journey])
  else
    match monitoring_status journey with
    | pending_rid => ret (pendingRidJourneys ++ [journey], activeJourneys,
                          completedJourneyIds)
    | active => ret (pendingRidJourneys, activeJourneys ++ [journey],
                     completedJourneyIds)
    | _ => ret acc
    end.

(** Step 4, for one [pending_rid] journey. *)
Definition resolveStep (journey : MonitoredJourney) : M unit :=
  env <- ask ;;
  try_catch
    (match journeyMatcherClient env with
     | Some getJourneyWithSegments =>
         record_call (MatcherCall (journey_id journey)) ;;;
         journeyWithSegments <- lift_remote (getJourneyWithSegments (journey_id journey)) ;;
         match journeyWithSegments with
         | Some jws =>
             match segments jws with
             | [] => JourneyMonitor.updateLastChecked [id journey]
             | _ =>
                 match JourneyMatcherClient.extractRidsFromSegments (segments jws) with
                 | r :: _ => JourneyMonitor.resolveRid (id journey) r
                 | [] => JourneyMonitor.updateLastChecked [id journey]
                 end
             end
         | None => JourneyMonitor.updateLastChecked [id journey]
         end
     | None => JourneyMonitor.updateLastChecked [id journey]
     end)
    (fun _ => JourneyMonitor.updateLastChecked [id journey]).

(** Steps 5 to 7.  [false] is the early [return] taken when the upstream
    call fails. *)
Definition detectionPhase (this : t) (correlationId : string)
           (journeysWithRids : list MonitoredJourney) : M bool :=
  match journeysWithRids with
  | [] => ret true
  | _ =>
      env <- ask ;;
      let rids := map (fun j => Js.nullish (rid j) "") journeysWithRids in
      fetched <-
        try_catch
          (record_call (DarwinCall rids) ;;;
           darwinResponse <- lift_remote (darwinClient_getDelaysByRids env rids) ;;
           ret (Some (map toDelayData (responseData darwinResponse))))
          (fun _ =>
             JourneyMonitor.updateLastChecked (map id journeysWithRids) ;;;
             ret None) ;;
      match fetched with
      | None => ret false
      | Some delayDataArray =>
          let delayResults := classify this (now env) journeysWithRids delayDataArray in
          for_each delayResults (processResult this correlationId journeysWithRids) ;;;
          ret true
      end
  end.

Definition runDetectionCycle (this : t) : M DetectionCycleMetrics :=
  reset_locals ;;;
  correlationId <- randomUUID ;;
  journeysDue <- JourneyMonitor.getJourneysDueForCheck ;;
  let checked := Z.of_nat (List.length journeysDue) in
  match journeysDue with
  | [] => ret {| journeysChecked := 0;
                 metric_delaysDetected := 0;
                 metric_claimsTriggered := 0;
                 durationMs := 0 |}
  | _ =>
      '(pendingRidJourneys, activeJourneys, completedJourneyIds) <-
        fold_each journeysDue ([], [], []) (partitionStep correlationId) ;;
      for_each pendingRidJourneys resolveStep ;;;
      let journeysWithRids :=
        filter (fun j => Js.truthy_opt_string (rid j)) activeJourneys in
      proceeded <- detectionPhase this correlationId journeysWithRids ;;
      if negb proceeded
      then ret {| journeysChecked := checked;
                  metric_delaysDetected := 0;
                  metric_claimsTriggered := 0;
                  durationMs := 0 |}
      else
        let remainingJourneyIds :=
          map id
            (filter (fun j => negb (existsb (String.eqb (id j)) completedJourneyIds))
                    journeysDue) in
        (match remainingJourneyIds with
         | [] => ret tt
         | _ => JourneyMonitor.updateLastChecked remainingJourneyIds
         end) ;;;
        counters <- read_locals ;;
        ret {| journeysChecked := checked;
               metric_delaysDetected := delaysDetected counters;
               metric_claimsTriggered := claimsTriggered counters;
               durationMs := 0 |}
  end.

(** A member of the service's [RegisterJourneyData], which a caller gives
    in camelCase, in snake_case or in both.  The non-null assertion of
    [(data.userId ?? data.user_id)!] is the caller's promise that one of
    the two is there, and the type keeps it. *)
Inductive Spelled (A : Type) : Type :=
| camelCase (v : A)
| snake_case (v : A)
| bothSpellings (camel snake : A).

Arguments camelCase {A} v.
Arguments snake_case {A} v.
Arguments bothSpellings {A} camel snake.

(** [data.userId ?? data.user_id] *)
Definition chosen {A : Type} (member : Spelled A) : A :=
  match member with
  | camelCase v => v
  | snake_case v => v
  | bothSpellings camel _ => camel
  end.

Record RegisterJourneyData : Type := {
  rd_userId : Spelled string;
  rd_journeyId : Spelled string;
  rd_serviceDate : Spelled string;
  rd_origin : Spelled string;
  rd_destination : Spelled string;
  rd_scheduledDeparture : Spelled Z;
  rd_scheduledArrival : Spelled Z
}.

(** [registerJourney]: the registration, then the
    [journey.monitoring_started] event (no client, no correlation id). *)
Definition registerJourney (data : RegisterJourneyData) : M MonitoredJourney :=
  let userId := chosen (rd_userId data) in
  let journeyId := chosen (rd_journeyId data) in
  let origin := chosen (rd_origin data) in
  let destination := chosen (rd_destination data) in
  let scheduledDeparture := chosen (rd_scheduledDeparture data) in
  journey <- JourneyMonitor.registerJourney
               {| JourneyMonitor.reg_user_id := userId;
                  JourneyMonitor.reg_journey_id := journeyId;
                  JourneyMonitor.reg_service_date := chosen (rd_serviceDate data);
                  JourneyMonitor.reg_origin_crs := origin;
                  JourneyMonitor.reg_destination_crs := destination;
                  JourneyMonitor.reg_scheduled_departure := scheduledDeparture;
                  JourneyMonitor.reg_scheduled_arrival :=
                    chosen (rd_scheduledArrival data) |} ;;
  OutboxPublisher.publishJourneyMonitoringStarted journeyId userId (id journey)
    origin destination scheduledDeparture None None ;;;
  ret journey.

End DelayTrackerService.

(** ** Sample data used by the examples and witnesses below *)

Module Scenario.

(** A detector and a claim trigger at the default threshold. *)
Definition detector15 : DelayDetector.t :=
  {| DelayDetector.thresholdMinutes := 15 |}.

Definition trigger15 : ClaimTrigger.t :=
  ClaimTrigger.constructor {| ClaimTrigger.cfg_thresholdMinutes := None |}.

Definition service : DelayTrackerService.t :=
  {| DelayTrackerService.delayDetector := detector15;
     DelayTrackerService.claimTrigger := trigger15 |}.

(** An active journey with a RID, due at 500, arriving at 100000. *)
Definition journey1 : MonitoredJourney :=
  {| id := "j1";
     user_id := "u1";
     journey_id := "ext-1";
     rid := Some "202601150800123";
     service_date := "2026-01-15";
     origin_crs := "KGX";
     destination_crs := "EDB";
     scheduled_departure := 1000;
     scheduled_arrival := 100000;
     monitoring_status := active;
     last_checked_at := None;
     next_check_at := Some 500 |}.

Definition world_of (js : list MonitoredJourney) : World :=
  {| tables := {| Pg.journeys := js; Pg.alerts := []; Pg.outbox := [] |};
     tx := Pg.NoTx;
     next_uuid := 0%nat;
     trace := [];
     locals := {| delaysDetected := 0; claimsTriggered := 0 |} |}.

Definition world1 : World := world_of [journey1].

Definition no_fault : Pg.Conn -> Pg.Stmt -> bool := fun _ _ => false.

(** The failure of the integration test "should use transaction for atomic
    operations": every outbox insert is rejected. *)
Definition outbox_fault : Pg.Conn -> Pg.Stmt -> bool :=
  fun _ s =>
    match s with
    | Pg.InsertOutbox _ _ _ _ => true
    | _ => false
    end.

Definition upstream_record (r : string) (minutes : Z) (is_cancelled : bool) : RawDelay :=
  {| raw_rid := r;
     raw_total_delay_minutes := None;
     raw_delay_minutes := Some minutes;
     raw_cancelled := None;
     raw_is_cancelled := Some is_cancelled;
     raw_delay_reasons := None |}.

(** [claimTriggerSuccess] of the fixtures. *)
Definition claimTriggerSuccess : ClaimTriggerApiResponse :=
  {| api_success := Some true;
     api_claim_reference_id := Some "claim-ref-001-abc123";
     api_message := Some "Claim successfully initiated";
     api_eligible := Some true;
     api_estimated_compensation := Some "25.5";
     api_error := None |}.

(** An oracle answer with [success: false], no reference id and
    [eligible: false]. *)
Definition refusedNotEligible : ClaimTriggerApiResponse :=
  {| api_success := Some false;
     api_claim_reference_id := None;
     api_message := Some "Journey does not meet eligibility criteria";
     api_eligible := Some false;
     api_estimated_compensation := None;
     api_error := None |}.

Definition env_with (f : Pg.Conn -> Pg.Stmt -> bool) (upstream : list RawDelay)
           (oracle : Js.Thrown + ClaimTriggerApiResponse) : Env :=
  {| now := 600;
     fault := f;
     darwinClient_getDelaysByRids := fun _ => inr (DarwinArray upstream);
     journeyMatcherClient := None;
     eligibilityClient_triggerClaim := fun _ => oracle |}.

Definition env1 : Env :=
  env_with no_fault [upstream_record "202601150800123" 25 false]
           (inr claimTriggerSuccess).

Definition alert_input (minutes : Z) (triggered : option bool) : DelayAlertInput :=
  {| in_id := "alert-001";
     in_monitored_journey_id := "journey-001";
     in_delay_minutes := minutes;
     in_user_id := "user-001";
     in_claim_triggered := triggered;
     in_claim_reference_id := Some "existing-ref" |}.

(** A journey object whose [rid] is the empty string, and a delay record
    carrying the same (empty) RID. *)
Definition journey_empty_rid : DelayDetector.JourneyData :=
  {| DelayDetector.jd_id := Some "j1"; DelayDetector.jd_rid := Some "" |}.

Definition record_empty_rid : DelayDetector.DelayData :=
  {| DelayDetector.dd_rid := "";
     DelayDetector.total_delay_minutes := 20;
     DelayDetector.cancelled_flag := false;
     DelayDetector.dd_delay_reasons := None |}.

Definition journey_data1 : DelayDetector.JourneyData :=
  {| DelayDetector.jd_id := Some "j1"; DelayDetector.jd_rid := Some "R1" |}.

Definition record1 (minutes : Z) (is_cancelled : bool) : DelayDetector.DelayData :=
  {| DelayDetector.dd_rid := "R1";
     DelayDetector.total_delay_minutes := minutes;
     DelayDetector.cancelled_flag := is_cancelled;
     DelayDetector.dd_delay_reasons := None |}.






(** The environments of the three detection-cycle examples: a 25-minute
    delay while every outbox insert is rejected; a cancellation reported
    with no delay; a cancellation reported with a negative delay. *)
Definition env_outbox_down : Env :=
  env_with outbox_fault [upstream_record "202601150800123" 25 false]
           (inr claimTriggerSuccess).

Definition env_cancelled : Env :=
  env_with no_fault [upstream_record "202601150800123" 0 true]
           (inr claimTriggerSuccess).

Definition env_cancelled_early : Env :=
  env_with no_fault [upstream_record "202601150800123" (-5) true]
           (inr claimTriggerSuccess).

(** The stored journey [j1] after an operation. *)
Definition stored_journey1 (w : World) : option MonitoredJourney :=
  find (Pg.id_is "j1") (Pg.journeys (tables w)).

(** A registration of journey [ext-9] departing at [departure]. *)
Definition registration (departure : Z) : JourneyMonitor.RegisterJourneyData :=
  {| JourneyMonitor.reg_user_id := "u9";
     JourneyMonitor.reg_journey_id := "ext-9";
     JourneyMonitor.reg_service_date := "2026-01-20";
     JourneyMonitor.reg_origin_crs := "KGX";
     JourneyMonitor.reg_destination_crs := "EDB";
     JourneyMonitor.reg_scheduled_departure := departure;
     JourneyMonitor.reg_scheduled_arrival := departure + 16200000 |}.

End Scenario.

(** ** The lifecycle as the specification words it *)

Module Lifecycle.

(** The permitted transitions: [pending_rid] to [active] or [cancelled];
    [active] to [delayed], [completed] or [cancelled]; [delayed] to
    [completed] or [cancelled]; nothing leaves [completed] or
    [cancelled]. *)
Inductive Permitted : MonitoringStatus -> MonitoringStatus -> Prop :=
| pending_rid_active : Permitted pending_rid active
| pending_rid_cancelled : Permitted pending_rid cancelled
| active_delayed : Permitted active delayed
| active_completed : Permitted active completed
| active_cancelled : Permitted active cancelled
| delayed_completed : Permitted delayed completed
| delayed_cancelled : Permitted delayed cancelled.

Definition terminal (s : MonitoringStatus) : bool :=
  match s with
  | completed | cancelled => true
  | _ => false
  end.

(** The scheduling invariant: a journey in a terminal state has no next
    check. *)
Definition terminal_cleared (j : MonitoredJourney) : Prop :=
  terminal (monitoring_status j) = true -> next_check_at j = None.

End Lifecycle.

(** ** Network failures as the specification words them *)

Module NetworkFailure.

(** A small letter [a]-[z]. *)
Definition small (c : ascii) : bool :=
  (Nat.leb 97 (nat_of_ascii c) && Nat.leb (nat_of_ascii c) 122)%bool.

(** The capital of a small letter. *)
Definition capital (c : ascii) : ascii := ascii_of_nat (nat_of_ascii c - 32).

(** [w] spells the keyword [kw] (written in small letters), each letter in
    either case. *)
Fixpoint spells (kw w : string) : Prop :=
  match kw, w with
  | EmptyString, EmptyString => True
  | String a kw', String b w' =>
      small a = true /\ (b = a \/ b = capital a) /\ spells kw' w'
  | _, _ => False
  end.

(** The message mentions [kw], in any letter case. *)
Definition mentions (kw message : string) : Prop :=
  exists pre w post, message = (pre ++ w ++ post)%string /\ spells kw w.

(** The message carries [code] as it is written. *)
Definition carries (code message : string) : Prop :=
  exists pre post, message = (pre ++ code ++ post)%string.

(** A network, timeout or connection failure, as its message tells. *)
Definition named (message : string) : Prop :=
  mentions "network" message
  \/ mentions "timeout" message
  \/ carries "ECONNREFUSED" message.

End NetworkFailure.

(** ** Invariants of a computation *)

Module Frame.

(** The committed alerts and events are those of [w0]. *)
Definition same_rows (w0 w : World) : Prop :=
  Pg.alerts (tables w) = Pg.alerts (tables w0)
  /\ Pg.outbox (tables w) = Pg.outbox (tables w0).

(** The client's transaction is open (possibly aborted) and nothing it
    wrote has reached the committed alerts and events. *)
Definition uncommitted (w0 w : World) : Prop :=
  same_rows w0 w /\ tx w <> Pg.NoTx.

(** [m] keeps the invariant [I], whether it returns or throws. *)
Definition preserves {A : Type} (I : World -> Prop) (m : M A) : Prop :=
  forall env w, I w -> I (snd (m env w)).

(** When [m] throws while the transaction is open, the committed alerts
    and events are still those of [w0]. *)
Definition throws_clean {A : Type} (w0 : World) (m : M A) : Prop :=
  forall env w e w',
    uncommitted w0 w -> m env w = (Throw e, w') -> same_rows w0 w'.

End Frame.

(** ** When the writes of a connection are durable *)


(** ** Further sample data and auxiliary notions *)

(** Order of two journeys in the due query. *)
Definition due_le (a b : MonitoredJourney) : Prop := Pg.due_key a <= Pg.due_key b.

(** The RID the matcher offers for a journey: the first non-null RID of
    its segments, when the matcher is configured and answers with a
    journey. *)
Definition matcher_rid (env : Env) (ext : string) : option string :=
  match journeyMatcherClient env with
  | Some getJourneyWithSegments =>
      match getJourneyWithSegments ext with
      | inr (Some jws) =>
          hd_error (JourneyMatcherClient.extractRidsFromSegments (segments jws))
      | _ => None
      end
  | None => None
  end.

(** A result that leads to no alert. *)
Definition quiet (r : DelayResult) : Prop :=
  exceedsThreshold r = false /\ isCancelled r = false.

(** ** [services/delay-checker.ts]: the checker of the scheduler *)

Module DelayChecker.

(** [DarwinDelayInfo] of [types.ts], what the typed client resolves to. *)
Record DarwinDelayInfo : Type := {
  di_rid : string;
  di_delay_minutes : Z;
  di_is_cancelled : bool;
  di_delay_reasons : option Json
}.

Record JourneyToCheck : Type := {
  jc_id : string;
  jc_rid : string
}.

Record t : Type := {
  delayDetector : DelayDetector.t;
  getDelaysByRids : list string -> Js.Thrown + list DarwinDelayInfo
}.

Definition toDelayData (d : DarwinDelayInfo) : DelayDetector.DelayData :=
  {| DelayDetector.dd_rid := di_rid d;
     DelayDetector.total_delay_minutes := di_delay_minutes d;
     DelayDetector.cancelled_flag := di_is_cancelled d;
     DelayDetector.dd_delay_reasons := di_delay_reasons d |}.

Definition toJourneyData (j : JourneyToCheck) : DelayDetector.JourneyData :=
  {| DelayDetector.jd_id := Some (jc_id j); DelayDetector.jd_rid := Some (jc_rid j) |}.

Definition checkDelays (this : t) (journeys : list JourneyToCheck)
  : M (list DelayResult) :=
  match journeys with
  | [] => ret []
  | _ =>
      let rids := map jc_rid journeys in
      record_call (DarwinCall rids) ;;;
      darwinResponse <- lift_remote (getDelaysByRids this rids) ;;
      let delayDataArray := map toDelayData darwinResponse in
      env <- ask ;;
      ret (DelayDetector.detectDelaysBatch (delayDetector this) (now env)
             (map toJourneyData journeys) delayDataArray)
  end.

End DelayChecker.

(** ** [cron/scheduler.ts]: one run of the scheduler *)

Module CronScheduler.

Record CronMetrics : Type := {
  lastExecutionDurationMs : Z;
  totalExecutions : Z;
  journeysProcessed : Z;
  errorCount : Z
}.

(** The scheduler object: its collaborator and its mutable members. *)
Record t : Type := {
  delayChecker : DelayChecker.t;
  running : bool;
  executing : bool;
  metrics : CronMetrics
}.

Definition finished (this : t) (m : CronMetrics) : t :=
  {| delayChecker := delayChecker this;
     running := running this;
     executing := false;
     metrics := m |}.

(** [j.rid != null], then [{ id: j.id!, rid: j.rid! }] *)
Definition journeysWithRids (journeys : list MonitoredJourney)
  : list DelayChecker.JourneyToCheck :=
  map (fun j => {| DelayChecker.jc_id := id j;
                   DelayChecker.jc_rid := Js.nullish (rid j) "" |})
      (filter (fun j => match rid j with
                        | Some _ => true
                        | None => false
                        end) journeys).

(** [execute]: the [try] block, the [catch] that counts the error and the
    [finally] that clears [executing]. *)
Definition execute (this : t) : M t :=
  if executing this then ret this
  else
    env <- ask ;;
    let startTime := now env in
    try_catch
      (journeys <- JourneyMonitor.getJourneysDueForCheck ;;
       match journeys with
       | [] => ret tt
       | _ =>
           match journeysWithRids journeys with
           | [] => ret tt
           | withRids =>
               DelayChecker.checkDelays (delayChecker this) withRids ;;; ret tt
           end ;;;
           JourneyMonitor.updateLastChecked (map id journeys)
       end ;;;
       ret (finished this
              {| lastExecutionDurationMs := now env - startTime;
                 totalExecutions := totalExecutions (metrics this) + 1;
                 journeysProcessed :=
                   journeysProcessed (metrics this) + Z.of_nat (List.length journeys);
                 errorCount := errorCount (metrics this) |}))
      (fun _ =>
         ret (finished this
                {| lastExecutionDurationMs := now env - startTime;
                   totalExecutions := totalExecutions (metrics this);
                   journeysProcessed := journeysProcessed (metrics this);
                   errorCount := errorCount (metrics this) + 1 |})).

End CronScheduler.


(** The journeys the due query returns now: at most 100, by ascending
    [next_check_at]. *)
Definition due_now (env : Env) (w : World) : list MonitoredJourney :=
  firstn 100
    (Pg.order_by_next_check (filter (Pg.is_due (now env)) (Pg.journeys (tables w)))).

Module Samples.

(** What the detector answers for [journey1] on an upstream record. *)
Definition result_for (minutes : Z) (is_cancelled : bool) : DelayResult :=
  DelayDetector.detectDelay Scenario.detector15 600
    (DelayTrackerService.toJourneyData Scenario.journey1)
    (DelayTrackerService.toDelayData
       (Scenario.upstream_record "202601150800123" minutes is_cancelled)).


(** A journey registered but not yet resolved to a RID. *)
Definition pending_journey : MonitoredJourney :=
  {| id := "j2";
     user_id := "u2";
     journey_id := "ext-2";
     rid := None;
     service_date := "2026-01-15";
     origin_crs := "KGX";
     destination_crs := "YRK";
     scheduled_departure := 1000;
     scheduled_arrival := 100000;
     monitoring_status := pending_rid;
     last_checked_at := None;
     next_check_at := Some 500 |}.

(** The environment of [Scenario.env1] with a journey matcher that gives
    the same answer for every journey. *)
Definition env_matcher (answer : Js.Thrown + option JourneyWithSegments) : Env :=
  {| now := 600;
     fault := Scenario.no_fault;
     darwinClient_getDelaysByRids := darwinClient_getDelaysByRids Scenario.env1;
     journeyMatcherClient := Some (fun _ => answer);
     eligibilityClient_triggerClaim := eligibilityClient_triggerClaim Scenario.env1 |}.

(** A matched journey of two legs: a walk (no RID) and a train. *)
Definition two_legs : JourneyWithSegments :=
  {| segments := [ {| segment_rid := None |};
                   {| segment_rid := Some "202601150900456" |} ] |}.

(** The upstream delay service is unreachable. *)
Definition env_upstream_down : Env :=
  {| now := 600;
     fault := Scenario.no_fault;
     darwinClient_getDelaysByRids := fun _ => inl (Js.ErrorObj "connect ECONNREFUSED");
     journeyMatcherClient := None;
     eligibilityClient_triggerClaim := eligibilityClient_triggerClaim Scenario.env1 |}.

(** A registration that gives every member in both spellings; the
    camelCase values are those of [Scenario.registration]. *)
Definition registration_both : DelayTrackerService.RegisterJourneyData :=
  {| DelayTrackerService.rd_userId := DelayTrackerService.bothSpellings "u9" "u0";
     DelayTrackerService.rd_journeyId :=
       DelayTrackerService.bothSpellings "ext-9" "ext-0";
     DelayTrackerService.rd_serviceDate := DelayTrackerService.snake_case "2026-01-20";
     DelayTrackerService.rd_origin := DelayTrackerService.camelCase "KGX";
     DelayTrackerService.rd_destination := DelayTrackerService.snake_case "EDB";
     DelayTrackerService.rd_scheduledDeparture := DelayTrackerService.camelCase 7200000;
     DelayTrackerService.rd_scheduledArrival :=
       DelayTrackerService.snake_case 23400000 |}.

(** The pool accepts every statement but the outbox insert. *)
Definition env_pool_outbox_down : Env :=
  Scenario.env_with Scenario.outbox_fault [] (inr Scenario.claimTriggerSuccess).

(** A checker whose upstream answers with the given records, or fails. *)
Definition checker (answer : Js.Thrown + list DelayChecker.DarwinDelayInfo)
  : DelayChecker.t :=
  {| DelayChecker.delayDetector := Scenario.detector15;
     DelayChecker.getDelaysByRids := fun _ => answer |}.

Definition info (r : string) (minutes : Z) (is_cancelled : bool)
  : DelayChecker.DarwinDelayInfo :=
  {| DelayChecker.di_rid := r;
     DelayChecker.di_delay_minutes := minutes;
     DelayChecker.di_is_cancelled := is_cancelled;
     DelayChecker.di_delay_reasons := None |}.

(** An idle scheduler with fresh metrics. *)
Definition scheduler (answer : Js.Thrown + list DelayChecker.DarwinDelayInfo)
  : CronScheduler.t :=
  {| CronScheduler.delayChecker := checker answer;
     CronScheduler.running := true;
     CronScheduler.executing := false;
     CronScheduler.metrics :=
       {| CronScheduler.lastExecutionDurationMs := 0;
          CronScheduler.totalExecutions := 0;
          CronScheduler.journeysProcessed := 0;
          CronScheduler.errorCount := 0 |} |}.

End Samples.

(** ** [repositories/outbox-repository.ts] and [services/outbox-publisher.ts]:
       the relay of the outbox *)

Module OutboxRelay.

(** A row of [delay_tracker.outbox] as [mapRow] returns it: the event and
    its two timestamps. *)
Record Row : Type := {
  event : OutboxEvent;
  created_at : Z;
  processed_at : option Z
}.

Definition row_id (r : Row) : string := event_id (event r).

(** The statements the relay sends. *)
Inductive Stmt : Type :=
| Begin
| Commit
| Rollback
| SelectPending (limit : Z) (forUpdateSkipLocked : bool)
| MarkProcessed (k : string)
| MarkFailed (k : string) (errorMessage : string)
| ResetToPending (k : string)
| SelectFailedForRetry (maxRetries : Z)
| DeleteProcessedBefore (retentionDays : Z).

Inductive Answer : Type :=
| NoAnswer
| Selected (found : list Row)
| Affected (rowCount : Z).

(** [MessageBroker.publish]: given the events handed over so far and the
    event to publish, the promise rejects or resolves to a boolean. *)
Definition MessageBroker : Type := list Row -> Row -> Js.Thrown + bool.

(** What the relay does not decide: the instant [NOW()] yields, the instant
    [NOW() - INTERVAL '1 day' * n] (or the error of that computation), the
    rows other sessions hold locked, the statements rejected below the
    repository, and whether [pool.connect()] resolves. *)
Record Surroundings : Type := {
  clock : Z;
  days_ago : Z -> Js.Thrown + Z;
  locked : Row -> bool;
  rejected : Pg.Conn -> Stmt -> bool;
  connect_error : option Js.Thrown
}.

(** The table, what the broker was handed (in order), and the statements
    sent (in order, with their connection). *)
Record Store : Type := {
  rows : list Row;
  published : list Row;
  statements : list (Pg.Conn * Stmt)
}.

Definition amend (r : Row) (st : OutboxStatus) (retries : Z)
           (msg : option string) (done : option Z) : Row :=
  {| event := {| event_id := event_id (event r);
                 event_type := event_type (event r);
                 aggregate_type := aggregate_type (event r);
                 aggregate_id := aggregate_id (event r);
                 payload := payload (event r);
                 status := st;
                 retry_count := retries;
                 error_message := msg |};
     created_at := created_at r;
     processed_at := done |}.

(** [SET status = 'processed', processed_at = NOW()] *)
Definition mark_processed (now : Z) (r : Row) : Row :=
  amend r ob_processed (retry_count (event r)) (error_message (event r)) (Some now).

(** [SET status = 'failed', error_message = $2, retry_count = retry_count + 1] *)
Definition mark_failed (msg : string) (r : Row) : Row :=
  amend r ob_failed (retry_count (event r) + 1) (Some msg) (processed_at r).

(** [SET status = 'pending', error_message = NULL] *)
Definition reset_to_pending (r : Row) : Row :=
  amend r ob_pending (retry_count (event r)) None (processed_at r).

Definition has_id (k : string) (r : Row) : bool := String.eqb (row_id r) k.

(** [UPDATE ... WHERE id = $1] *)
Definition update_where (k : string) (f : Row -> Row) (t : list Row) : list Row :=
  map (fun r => if has_id k r then f r else r) t.

Definition is_pending (r : Row) : bool :=
  match status (event r) with
  | ob_pending => true
  | _ => false
  end.

Definition is_processed (r : Row) : bool :=
  match status (event r) with
  | ob_processed => true
  | _ => false
  end.

Definition is_failed (r : Row) : bool :=
  match status (event r) with
  | ob_failed => true
  | _ => false
  end.

Fixpoint insert_created (r : Row) (sorted : list Row) : list Row :=
  match sorted with
  | [] => [r]
  | x :: rest =>
      if created_at r <=? created_at x then r :: sorted else x :: insert_created r rest
  end.

(** [ORDER BY created_at ASC] (rows with equal keys keep table order). *)
Definition order_by_created (t : list Row) : list Row :=
  fold_right insert_created [] t.

(** Bounds of the [integer] column [retry_count]. *)
Definition int4_max : Z := 2147483647.
Definition int4_min : Z := -2147483648.

(** [WHERE status = 'pending' ORDER BY created_at ASC LIMIT $1], and with
    [FOR UPDATE SKIP LOCKED] without the rows another session holds. *)
Definition pending_batch (sur : Surroundings) (limit : Z) (skipLocked : bool)
           (t : list Row) : list Row :=
  firstn (Z.to_nat limit)
         (order_by_created
            (filter (fun r => is_pending r && negb (skipLocked && locked sur r)) t)).

(** [WHERE status = 'failed' AND retry_count < $1 ORDER BY created_at ASC] *)
Definition failed_batch (maxRetries : Z) (t : list Row) : list Row :=
  order_by_created
    (filter (fun r => is_failed r && (retry_count (event r) <? maxRetries)) t).

(** [WHERE status = 'processed' AND created_at < cutoff] *)
Definition expired (cutoff : Z) (r : Row) : bool :=
  is_processed r && (created_at r <? cutoff).

(** The effect of one statement on the table.  A negative [LIMIT], a
    parameter or a result outside the range of [integer], and a text with
    a U+0000 code unit are rejected by the server. *)
Definition run (sur : Surroundings) (s : Stmt) (t : list Row)
  : Js.Thrown + (list Row * Answer) :=
  match s with
  | Begin | Commit | Rollback => inr (t, NoAnswer)
  | SelectPending limit skipLocked =>
      if limit <? 0 then inl (Js.ErrorObj "LIMIT must not be negative")
      else inr (t, Selected (pending_batch sur limit skipLocked t))
  | MarkProcessed k =>
      inr (update_where k (mark_processed (clock sur)) t,
           Affected (Z.of_nat (List.length (filter (has_id k) t))))
  | MarkFailed k msg =>
      if Js.has_nul msg
      then inl (Js.ErrorObj "invalid byte sequence for encoding")
      else if existsb (fun r => has_id k r && (int4_max <=? retry_count (event r))) t
      then inl (Js.ErrorObj "integer out of range")
      else inr (update_where k (mark_failed msg) t,
                Affected (Z.of_nat (List.length (filter (has_id k) t))))
  | ResetToPending k =>
      inr (update_where k reset_to_pending t,
           Affected (Z.of_nat (List.length (filter (has_id k) t))))
  | SelectFailedForRetry maxRetries =>
      if (maxRetries <? int4_min) || (int4_max <? maxRetries)
      then inl (Js.ErrorObj "integer out of range")
      else inr (t, Selected (failed_batch maxRetries t))
  | DeleteProcessedBefore retentionDays =>
      match days_ago sur retentionDays with
      | inl e => inl e
      | inr cutoff =>
          inr (filter (fun r => negb (expired cutoff r)) t,
               Affected (Z.of_nat (List.length (filter (expired cutoff) t))))
      end
  end.

(** The relay's asynchronous code: the same monad as [M], over the
    relay's store. *)
Definition R (A : Type) : Type := Surroundings -> Store -> Outcome A * Store.

Definition ret {A : Type} (a : A) : R A := fun _ st => (Ok a, st).

Definition throw {A : Type} (e : Js.Thrown) : R A := fun _ st => (Throw e, st).

Definition bind {A B : Type} (m : R A) (k : A -> R B) : R B :=
  fun sur st =>
    match m sur st with
    | (Ok a, st') => k a sur st'
    | (Throw e, st') => (Throw e, st')
    end.

Definition try_catch {A : Type} (m : R A) (handler : Js.Thrown -> R A) : R A :=
  fun sur st =>
    match m sur st with
    | (Ok a, st') => (Ok a, st')
    | (Throw e, st') => handler e sur st'
    end.

Declare Scope relay_scope.
Delimit Scope relay_scope with relay.
Notation "x <- m ;; k" := (bind m (fun x => k))
  (at level 61, m at next level, right associativity) : relay_scope.
Notation "m ;;; k" := (bind m (fun _ => k))
  (at level 61, right associativity) : relay_scope.
Local Open Scope relay_scope.

Fixpoint for_each {A : Type} (xs : list A) (body : A -> R unit) : R unit :=
  match xs with
  | [] => ret tt
  | x :: rest => body x ;;; for_each rest body
  end.

(** [this.pool.query(sql, values)] and [client.query(...)].  The relay's
    reads and writes all go through the pool, so each commits at once; the
    client only ever receives BEGIN, COMMIT and ROLLBACK. *)
Definition query (c : Pg.Conn) (s : Stmt) : R Answer :=
  fun sur st0 =>
    let st := {| rows := rows st0; published := published st0;
                 statements := statements st0 ++ [(c, s)] |} in
    if rejected sur c s then (Throw (Js.ErrorObj "DB error"), st)
    else
      match run sur s (rows st) with
      | inl e => (Throw e, st)
      | inr (t', a) =>
          (Ok a, {| rows := t'; published := published st;
                    statements := statements st |})
      end.



Definition selected (a : Answer) : list Row :=
  match a with
  | Selected found => found
  | _ => []
  end.

(** [result.rowCount ?? 0] *)
Definition row_count (a : Answer) : Z :=
  match a with
  | Affected n => n
  | _ => 0
  end.

Definition findPending (limit : option Z) : R (list Row) :=
  a <- query Pg.Pool (SelectPending (Js.nullish limit 100) false) ;;
  ret (selected a).

Definition findPendingForProcessing (limit : option Z) : R (list Row) :=
  a <- query Pg.Pool (SelectPending (Js.nullish limit 100) true) ;;
  ret (selected a).





Definition cleanupOldEvents (retentionDays : Z) : R Z :=
  a <- query Pg.Pool (DeleteProcessedBefore retentionDays) ;;
  ret (row_count a).

(** The publisher's configuration: [maxRetries] is [config.maxRetries ?? 3]. *)
Record t : Type := {
  messageBroker : option MessageBroker;
  maxRetries : Z
}.








(** Order of two rows in the queries of the relay. *)
Definition created_le (a b : Row) : Prop := created_at a <= created_at b.



(** The sample data of the examples. *)
Definition outbox_row (k : string) (st : OutboxStatus) (retries : Z) (at_time : Z) : Row :=
  {| event := {| event_id := k;
                 event_type := "delay.detected";
                 aggregate_type := "delay_alert";
                 aggregate_id := "alert-1";
                 payload := JObj [];
                 status := st;
                 retry_count := retries;
                 error_message := None |};
     created_at := at_time;
     processed_at := None |}.

Definition quiet_surroundings : Surroundings :=
  {| clock := 1000;
     days_ago := fun n => inr (1000 - 86400000 * n);
     locked := fun _ => false;
     rejected := fun _ _ => false;
     connect_error := None |}.



Definition store_of (t : list Row) : Store :=
  {| rows := t; published := []; statements := [] |}.



End OutboxRelay.

(** * Properties *)

(** ** The delay detector *)

Lemma truthy_string_iff (s : string) : Js.truthy_string s = true <-> s <> "".
Proof.
  destruct s; cbn; split; intro H; congruence.
Qed.

Lemma findDelayByRid_some (r : string) (ds : list DelayDetector.DelayData)
      (d : DelayDetector.DelayData) :
  DelayDetector.findDelayByRid r ds = Some d ->
  In d ds /\ DelayDetector.dd_rid d = r /\ r <> "".
Proof.
  unfold DelayDetector.findDelayByRid.
  destruct (Js.truthy_string r) eqn:Ht; cbn; [| discriminate].
  intro Hf. apply find_some in Hf. destruct Hf as [Hin Heq].
  apply String.eqb_eq in Heq. apply truthy_string_iff in Ht. auto.
Qed.

Lemma findDelayByRid_none (r : string) (ds : list DelayDetector.DelayData) :
  DelayDetector.findDelayByRid r ds = None ->
  r = "" \/ forall d, In d ds -> DelayDetector.dd_rid d <> r.
Proof.
  unfold DelayDetector.findDelayByRid.
  destruct (Js.truthy_string r) eqn:Ht; cbn.
  - intro Hf. right. intros d Hin Heq.
    pose proof (find_none _ _ Hf d Hin) as Hn. cbn in Hn.
    apply String.eqb_neq in Hn. contradiction.
  - intros _. left. destruct r; [reflexivity | discriminate].
Qed.

Lemma findDelayByRid_found (r : string) (ds : list DelayDetector.DelayData)
      (d : DelayDetector.DelayData) :
  r <> "" -> In d ds -> DelayDetector.dd_rid d = r ->
  exists d', DelayDetector.findDelayByRid r ds = Some d'.
Proof.
  intros Hr Hin Heq.
  destruct (DelayDetector.findDelayByRid r ds) as [d' |] eqn:Hf; [eauto |].
  apply findDelayByRid_none in Hf. destruct Hf as [He | Hn]; [contradiction |].
  exfalso. exact (Hn d Hin Heq).
Qed.

(** [find] answers with the first record that matches. *)
Lemma findDelayByRid_first (r : string) (ds : list DelayDetector.DelayData)
      (d : DelayDetector.DelayData) :
  DelayDetector.findDelayByRid r ds = Some d ->
  exists pre post,
    ds = pre ++ d :: post
    /\ forall x, In x pre -> DelayDetector.dd_rid x <> r.
Proof.
  unfold DelayDetector.findDelayByRid.
  destruct (negb (Js.truthy_string r)); [discriminate |].
  induction ds as [| x ds IH]; cbn; [discriminate |].
  destruct (String.eqb (DelayDetector.dd_rid x) r) eqn:Hx.
  - intro H. injection H as <-. exists [], ds. split; [reflexivity |].
    intros y [].
  - intro H. destruct (IH H) as (pre & post & -> & Hpre).
    exists (x :: pre), post. split; [reflexivity |].
    intros y [<- | Hy]; [apply String.eqb_neq; exact Hx | exact (Hpre y Hy)].
Qed.

Lemma detectDelaysBatch_map (det : DelayDetector.t) (now : Z)
      (js : list DelayDetector.JourneyData) (ds : list DelayDetector.DelayData) :
  DelayDetector.detectDelaysBatch det now js ds
  = map (DelayDetector.detectOne det now ds) js.
Proof. destruct js; reflexivity. Qed.

(** C3, as stated, fails: a journey whose [rid] is the empty string and a
    record with that same RID match by string equality, the delay (20) is
    above the threshold (15), and yet the detector answers
    [dataNotFound]. *)
Lemma C3_counterexample :
  DelayDetector.jd_rid Scenario.journey_empty_rid
  = Some (DelayDetector.dd_rid Scenario.record_empty_rid)
  /\ (DelayDetector.total_delay_minutes Scenario.record_empty_rid >=? 15) = true
  /\ exists r,
      DelayDetector.detectDelaysBatch Scenario.detector15 0
        [Scenario.journey_empty_rid] [Scenario.record_empty_rid] = [r]
      /\ dataNotFound r = Some true
      /\ exceedsThreshold r = false
      /\ claimEligible r = false.
Proof.
  split; [reflexivity |]. split; [reflexivity |].
  eexists. split; [reflexivity |]. cbn. auto.
Qed.

(** C3 (amended): construction takes the default 15 and rejects a
    threshold [T <= 0]; the batch yields one result per journey, in order;
    a journey whose RID is non-empty and equals the RID of a record is
    classified from the first such record of the batch, the one no equal
    RID precedes ([is_delayed = minutes > 0 or cancelled],
    [is_cancelled = cancelled], [exceeds_threshold = minutes >= T],
    [claim_eligible = exceeds_threshold or cancelled]); a journey whose RID
    is missing or empty, or that no record matches, gets
    [data_not_found = true] with the four booleans false. *)
Theorem C3_detector_classifies
        (config : DelayDetector.DelayDetectorConfig) (det : DelayDetector.t)
        (now : Z) (js : list DelayDetector.JourneyData)
        (ds : list DelayDetector.DelayData) (j : DelayDetector.JourneyData) :
  let T := Js.nullish (DelayDetector.cfg_thresholdMinutes config) 15 in
  let res := DelayDetector.detectOne det now ds j in
  (T <= 0 -> exists e, DelayDetector.constructor config = inl e)
  /\ (0 < T ->
      DelayDetector.constructor config = inr {| DelayDetector.thresholdMinutes := T |})
  /\ DelayDetector.detectDelaysBatch det now js ds
     = map (DelayDetector.detectOne det now ds) js
  /\ (forall r d,
         DelayDetector.jd_rid j = Some r -> r <> "" ->
         In d ds -> DelayDetector.dd_rid d = r ->
         exists pre d' post,
           ds = pre ++ d' :: post
           /\ (forall x, In x pre -> DelayDetector.dd_rid x <> r)
           /\ DelayDetector.dd_rid d' = r
           /\ isDelayed res
              = (DelayDetector.total_delay_minutes d' >? 0)
                || DelayDetector.cancelled_flag d'
           /\ isCancelled res = DelayDetector.cancelled_flag d'
           /\ exceedsThreshold res
              = (DelayDetector.total_delay_minutes d'
                 >=? DelayDetector.thresholdMinutes det)
           /\ claimEligible res
              = exceedsThreshold res || DelayDetector.cancelled_flag d'
           /\ delayMinutes res = DelayDetector.total_delay_minutes d'
           /\ dataNotFound res = None)
  /\ (Js.nullish (DelayDetector.jd_rid j) "" = ""
      \/ (forall d, In d ds ->
                    DelayDetector.dd_rid d <> Js.nullish (DelayDetector.jd_rid j) "") ->
      dataNotFound res = Some true
      /\ isDelayed res = false /\ isCancelled res = false
      /\ exceedsThreshold res = false /\ claimEligible res = false).
Proof.
  cbv zeta. split; [| split; [| split; [| split]]].
  - intro HT. unfold DelayDetector.constructor.
    destruct (Z.leb_spec (Js.nullish (DelayDetector.cfg_thresholdMinutes config) 15) 0);
      [eauto | lia].
  - intro HT. unfold DelayDetector.constructor.
    destruct (Z.leb_spec (Js.nullish (DelayDetector.cfg_thresholdMinutes config) 15) 0);
      [lia | reflexivity].
  - apply detectDelaysBatch_map.
  - intros r d Hr Hne Hin Heq.
    destruct (findDelayByRid_found r ds d Hne Hin Heq) as [d' Hf].
    pose proof (findDelayByRid_some _ _ _ Hf) as (Hin' & Heq' & _).
    destruct (findDelayByRid_first _ _ _ Hf) as (pre & post & Hds & Hpre).
    exists pre, d', post. unfold DelayDetector.detectOne. rewrite Hr.
    cbn [Js.nullish]. rewrite Hf. cbn. repeat split; auto.
  - intro H. unfold DelayDetector.detectOne.
    destruct (DelayDetector.findDelayByRid _ ds) as [d' |] eqn:Hf;
      [| cbn; repeat split; reflexivity].
    apply findDelayByRid_some in Hf. destruct Hf as (Hin & Heq & Hne).
    destruct H as [He | Hn]; [contradiction | exfalso; exact (Hn d' Hin Heq)].
Qed.

Lemma C3_detector_classifies_witness :
  (exists e,
      DelayDetector.constructor {| DelayDetector.cfg_thresholdMinutes := Some 0 |}
      = inl e)
  /\ DelayDetector.constructor {| DelayDetector.cfg_thresholdMinutes := None |}
     = inr Scenario.detector15
  /\ (let res := DelayDetector.detectOne Scenario.detector15 0
                    [Scenario.record1 10 false; Scenario.record1 30 true]
                    Scenario.journey_data1 in
      delayMinutes res = 10
      /\ isDelayed res = true
      /\ isCancelled res = false
      /\ exceedsThreshold res = false
      /\ claimEligible res = false)
  /\ dataNotFound
       (DelayDetector.detectOne Scenario.detector15 0
          [Scenario.record1 15 false] Scenario.journey_empty_rid)
     = Some true.
Proof.
  split; [| split; [| split]].
  - apply (proj1 (C3_detector_classifies
                    {| DelayDetector.cfg_thresholdMinutes := Some 0 |}
                    Scenario.detector15 0 [] [] Scenario.journey_data1)).
    cbn. lia.
  - apply (proj1 (proj2 (C3_detector_classifies
                           {| DelayDetector.cfg_thresholdMinutes := None |}
                           Scenario.detector15 0 [] [] Scenario.journey_data1))).
    cbn. lia.
  - destruct (proj1 (proj2 (proj2 (proj2
               (C3_detector_classifies
                  {| DelayDetector.cfg_thresholdMinutes := None |}
                  Scenario.detector15 0 []
                  [Scenario.record1 10 false; Scenario.record1 30 true]
                  Scenario.journey_data1))))
               "R1" (Scenario.record1 30 true))
      as (pre & d' & post & Hds & Hpre & _ & Hd & Hc & Hex & Hel & Hmin & _).
    + reflexivity.
    + discriminate.
    + right. left. reflexivity.
    + reflexivity.
    + assert (Hfirst : d' = Scenario.record1 10 false).
      { destruct pre as [| x pre].
        - cbn in Hds. congruence.
        - cbn in Hds. injection Hds as Hx _. exfalso.
          apply (Hpre x (or_introl eq_refl)). rewrite <- Hx. reflexivity. }
      subst d'. cbv zeta. rewrite Hmin, Hd, Hc, Hel, Hex. cbn.
      repeat split; reflexivity.
  - apply (proj2 (proj2 (proj2 (proj2
             (C3_detector_classifies
                {| DelayDetector.cfg_thresholdMinutes := None |}
                Scenario.detector15 0 [] [Scenario.record1 15 false]
                Scenario.journey_empty_rid))))).
    left. reflexivity.
Defined.

(** ** The claim trigger *)

Lemma prefix_append (sub post : string) :
  String.prefix sub (sub ++ post)%string = true.
Proof.
  induction sub as [| c sub IH]; cbn; [destruct post; reflexivity |].
  destruct (Ascii.ascii_dec c c) as [_ | Hc]; [exact IH | contradiction].
Qed.

Lemma includes_append (pre sub post : string) :
  Js.includes (pre ++ sub ++ post)%string sub = true.
Proof.
  induction pre as [| c pre IH].
  - cbn [String.append]. pose proof (prefix_append sub post) as Hp.
    destruct (sub ++ post)%string; cbn [Js.includes]; now rewrite Hp.
  - cbn [String.append Js.includes].
    destruct (String.prefix sub (String c (pre ++ sub ++ post)%string));
      [reflexivity |].
    exact IH.
Qed.

Lemma toLowerCase_append (a b : string) :
  Js.toLowerCase (a ++ b)%string = (Js.toLowerCase a ++ Js.toLowerCase b)%string.
Proof.
  induction a as [| c a IH]; cbn; [reflexivity |]. now rewrite IH.
Qed.

Lemma lower_small (c : ascii) :
  NetworkFailure.small c = true ->
  Js.lower_ascii c = c /\ Js.lower_ascii (NetworkFailure.capital c) = c.
Proof.
  destruct c as [[] [] [] [] [] [] [] []]; cbn; intro H;
    try discriminate H; split; reflexivity.
Qed.

Lemma spells_toLowerCase (kw w : string) :
  NetworkFailure.spells kw w -> Js.toLowerCase w = kw.
Proof.
  revert w. induction kw as [| a kw IH]; intros [| b w]; cbn; try tauto.
  intros (Ha & Hb & Hw). rewrite (IH w Hw).
  destruct (lower_small a Ha) as [H1 H2].
  destruct Hb as [-> | ->]; [rewrite H1 | rewrite H2]; reflexivity.
Qed.

(** The test of the [catch] block answers [true] for every failure named
    as a network, timeout or connection failure. *)
Lemma isNetworkError_named (message : string) :
  NetworkFailure.named message -> ClaimTrigger.isNetworkError message = true.
Proof.
  unfold ClaimTrigger.isNetworkError.
  intros [(pre & w & post & -> & Hw) | [(pre & w & post & -> & Hw) | (pre & post & ->)]].
  - rewrite !toLowerCase_append, (spells_toLowerCase _ _ Hw), includes_append.
    reflexivity.
  - rewrite !toLowerCase_append, (spells_toLowerCase _ _ Hw), includes_append.
    now rewrite !orb_true_r.
  - rewrite includes_append. now rewrite orb_true_r.
Qed.

(** C4, as stated, fails: when the oracle answers [success = false] with no
    reference id and [eligible = false], the claim's table gives
    SERVICE_ERROR, the code answers NOT_ELIGIBLE (and no [retryable]
    flag).  And a refused connection, which [fetch] rejects with the
    message "fetch failed" and the client throws on unchanged, is answered
    NETWORK_ERROR with [retryable = false]. *)
Lemma C4_counterexample :
  (api_success Scenario.refusedNotEligible = Some false
   /\ api_claim_reference_id Scenario.refusedNotEligible = None
   /\ exists r w',
       ClaimTrigger.triggerClaim Scenario.trigger15 (Scenario.alert_input 20 None)
         (Scenario.env_with Scenario.no_fault [] (inr Scenario.refusedNotEligible))
         Scenario.world1
       = (Ok r, w')
       /\ reason r = Some NOT_ELIGIBLE
       /\ reason r <> Some SERVICE_ERROR
       /\ retryable r = None)
  /\ exists r w',
      ClaimTrigger.triggerClaim Scenario.trigger15 (Scenario.alert_input 20 None)
        (Scenario.env_with Scenario.no_fault [] (inl (Js.ErrorObj "fetch failed")))
        Scenario.world1
      = (Ok r, w')
      /\ reason r = Some NETWORK_ERROR
      /\ retryable r = Some false.
Proof.
  split.
  - split; [reflexivity |]. split; [reflexivity |].
    eexists. eexists. split; [lazy; reflexivity |]. cbn.
    split; [reflexivity |]. split; [discriminate | reflexivity].
  - eexists. eexists. split; [lazy; reflexivity |]. cbn.
    split; reflexivity.
Qed.

(** C4 (amended): [triggerClaim] answers ALREADY_TRIGGERED with the
    existing reference, or BELOW_THRESHOLD, without calling the oracle;
    otherwise it calls the oracle once and classifies in this order:
    success false or absent with a non-empty reference id is
    DUPLICATE_CLAIM (that id returned as existing); otherwise
    [eligible = false] is NOT_ELIGIBLE whatever [success] is; otherwise
    success false or absent is SERVICE_ERROR with [retryable = false];
    otherwise (success true, eligible not false) it is SUCCESS with the
    reference id and the optional estimated compensation; an exception
    thrown by the oracle is NETWORK_ERROR carrying its message, and a
    network, timeout or connection failure, one whose message mentions
    network or timeout (in either letter case) or carries ECONNREFUSED, is
    retryable. *)
Theorem C4_triggerClaim_decision_table
        (this : ClaimTrigger.t) (alert : DelayAlertInput) (env : Env) (w : World) :
  let params := {| param_userId := in_user_id alert;
                   param_journeyId := in_monitored_journey_id alert;
                   param_delayMinutes := in_delay_minutes alert |} in
  let quiet := set_trace w (trace w ++ [ClaimTriggerCall alert]) in
  let called := set_trace quiet (trace quiet ++ [OracleCall params]) in
  let outcome := ClaimTrigger.triggerClaim this alert env w in
  (in_claim_triggered alert = Some true ->
   exists r, outcome = (Ok r, quiet)
             /\ success r = false
             /\ reason r = Some ALREADY_TRIGGERED
             /\ existingClaimReferenceId r = in_claim_reference_id alert)
  /\ (in_claim_triggered alert <> Some true ->
      in_delay_minutes alert < ClaimTrigger.thresholdMinutes this ->
      exists r, outcome = (Ok r, quiet)
                /\ success r = false
                /\ reason r = Some BELOW_THRESHOLD)
  /\ (in_claim_triggered alert <> Some true ->
      ClaimTrigger.thresholdMinutes this <= in_delay_minutes alert ->
      exists r,
        outcome = (Ok r, called)
        /\ match eligibilityClient_triggerClaim env params with
           | inl thrown =>
               success r = false
               /\ reason r = Some NETWORK_ERROR
               /\ error r = Some (Js.message_of thrown)
               /\ (NetworkFailure.named (Js.message_of thrown) ->
                   retryable r = Some true)
           | inr response =>
               let falsy_success := api_success response <> Some true in
               let has_reference :=
                 Js.truthy_opt_string (api_claim_reference_id response) = true in
               (falsy_success -> has_reference ->
                success r = false
                /\ reason r = Some DUPLICATE_CLAIM
                /\ existingClaimReferenceId r = api_claim_reference_id response)
               /\ (~ (falsy_success /\ has_reference) ->
                   api_eligible response = Some false ->
                   success r = false /\ reason r = Some NOT_ELIGIBLE)
               /\ (falsy_success -> ~ has_reference ->
                   api_eligible response <> Some false ->
                   success r = false
                   /\ reason r = Some SERVICE_ERROR
                   /\ retryable r = Some false)
               /\ (api_success response = Some true ->
                   api_eligible response <> Some false ->
                   success r = true
                   /\ reason r = None
                   /\ claimReferenceId r = api_claim_reference_id response
                   /\ estimatedCompensation r = api_estimated_compensation response)
           end).
Proof.
  cbv zeta.
  unfold ClaimTrigger.triggerClaim, bind, record_call, ask, ret.
  split; [| split].
  - intros Ht. rewrite Ht. cbn. eexists. split; [reflexivity |]. cbn. auto.
  - intros Ht Hlt.
    assert (Hf : Js.truthy_opt_bool (in_claim_triggered alert) = false).
    { destruct (in_claim_triggered alert) as [[|] |]; cbn; congruence. }
    rewrite Hf.
    assert (Hb : (in_delay_minutes alert <? ClaimTrigger.thresholdMinutes this) = true)
      by (apply Z.ltb_lt; exact Hlt).
    rewrite Hb. eexists. split; [reflexivity |]. cbn. auto.
  - intros Ht Hge.
    assert (Hf : Js.truthy_opt_bool (in_claim_triggered alert) = false).
    { destruct (in_claim_triggered alert) as [[|] |]; cbn; congruence. }
    rewrite Hf.
    assert (Hb : (in_delay_minutes alert <? ClaimTrigger.thresholdMinutes this) = false)
      by (apply Z.ltb_ge; exact Hge).
    rewrite Hb. unfold try_catch, bind, record_call, lift_remote, ret, throw.
    destruct (eligibilityClient_triggerClaim env _) as [thrown | response]; cbn.
    + eexists. split; [reflexivity |]. cbn.
      split; [reflexivity |]. split; [reflexivity |]. split; [reflexivity |].
      intro Hnamed. now rewrite (isNetworkError_named _ Hnamed).
    + eexists. split; [reflexivity |].
      unfold ClaimTrigger.classify.
      destruct (api_success response) as [[|] |]; cbn;
        destruct (Js.truthy_opt_string (api_claim_reference_id response)); cbn;
          destruct (api_eligible response) as [[|] |]; cbn;
            repeat split; intros; try reflexivity; try congruence; try tauto;
              exfalso; intuition congruence.
Qed.

Lemma C4_triggerClaim_decision_table_witness :
  (exists r,
      fst (ClaimTrigger.triggerClaim Scenario.trigger15
             (Scenario.alert_input 20 (Some true)) Scenario.env1 Scenario.world1)
      = Ok r
      /\ reason r = Some ALREADY_TRIGGERED
      /\ existingClaimReferenceId r = Some "existing-ref")
  /\ (exists r,
         fst (ClaimTrigger.triggerClaim Scenario.trigger15
                (Scenario.alert_input 14 None) Scenario.env1 Scenario.world1)
         = Ok r
         /\ reason r = Some BELOW_THRESHOLD)
  /\ (exists r,
         fst (ClaimTrigger.triggerClaim Scenario.trigger15
                (Scenario.alert_input 15 None) Scenario.env1 Scenario.world1)
         = Ok r
         /\ success r = true
         /\ claimReferenceId r = Some "claim-ref-001-abc123")
  /\ (exists r,
         fst (ClaimTrigger.triggerClaim Scenario.trigger15
                (Scenario.alert_input 15 None)
                (Scenario.env_with Scenario.no_fault []
                   (inl (Js.ErrorObj "Eligibility API request timeout")))
                Scenario.world1)
         = Ok r
         /\ reason r = Some NETWORK_ERROR
         /\ retryable r = Some true).
Proof.
  split; [| split; [| split]].
  - destruct (proj1 (C4_triggerClaim_decision_table Scenario.trigger15
                       (Scenario.alert_input 20 (Some true))
                       Scenario.env1 Scenario.world1) eq_refl)
      as (r & Hout & _ & Hr & He).
    exists r. rewrite Hout. auto.
  - destruct (proj1 (proj2 (C4_triggerClaim_decision_table Scenario.trigger15
                              (Scenario.alert_input 14 None)
                              Scenario.env1 Scenario.world1)))
      as (r & Hout & _ & Hr).
    + discriminate.
    + cbn. lia.
    + exists r. rewrite Hout. auto.
  - destruct (proj2 (proj2 (C4_triggerClaim_decision_table Scenario.trigger15
                              (Scenario.alert_input 15 None)
                              Scenario.env1 Scenario.world1)))
      as (r & Hout & Hcases).
    + discriminate.
    + cbn. lia.
    + cbn in Hcases. destruct Hcases as (_ & _ & _ & Hok).
      destruct Hok as (Hs & _ & Href & _); [reflexivity | discriminate |].
      exists r. rewrite Hout. auto.
  - destruct (proj2 (proj2 (C4_triggerClaim_decision_table Scenario.trigger15
                              (Scenario.alert_input 15 None)
                              (Scenario.env_with Scenario.no_fault []
                                 (inl (Js.ErrorObj "Eligibility API request timeout")))
                              Scenario.world1)))
      as (r & Hout & Hcases).
    + discriminate.
    + cbn. lia.
    + cbn in Hcases. destruct Hcases as (_ & Hr & _ & Hretry).
      exists r. rewrite Hout. split; [reflexivity |]. split; [exact Hr |].
      apply Hretry. right. left.
      exists "Eligibility API request ", "timeout", "".
      split; [reflexivity |]. cbn. intuition reflexivity.
Defined.

(** ** RID matching inside a tick *)

Lemma mapDelayData_identity (js : list MonitoredJourney)
      (ds : list DelayDetector.DelayData) :
  ~ (List.length js = 1%nat /\ List.length ds = 1%nat) ->
  DelayTrackerService.mapDelayData js ds = ds.
Proof.
  intro H. unfold DelayTrackerService.mapDelayData.
  destruct js as [| j [| j' js']]; try reflexivity.
  destruct ds as [| d [| d' ds']]; try reflexivity.
  exfalso. apply H. split; reflexivity.
Qed.

Lemma detectOne_cases (det : DelayDetector.t) (now : Z)
      (ds : list DelayDetector.DelayData) (j : DelayDetector.JourneyData) :
  (DelayDetector.detectOne det now ds j = DelayDetector.notFoundResult now j
   /\ (Js.nullish (DelayDetector.jd_rid j) "" = ""
       \/ forall d, In d ds ->
                    DelayDetector.dd_rid d <> Js.nullish (DelayDetector.jd_rid j) ""))
  \/ (exists d, In d ds
                /\ DelayDetector.dd_rid d = Js.nullish (DelayDetector.jd_rid j) ""
                /\ DelayDetector.dd_rid d <> ""
                /\ DelayDetector.detectOne det now ds j
                   = DelayDetector.detectDelay det now j d).
Proof.
  unfold DelayDetector.detectOne.
  destruct (DelayDetector.findDelayByRid _ ds) as [d |] eqn:Hf.
  - right. apply findDelayByRid_some in Hf. destruct Hf as (Hin & Heq & Hne).
    exists d. repeat split; auto. congruence.
  - left. split; [reflexivity |]. apply findDelayByRid_none. exact Hf.
Qed.

(** C6, as stated, fails: with one active journey and one upstream record,
    the record is applied to the journey although its RID is different. *)
Lemma C6_counterexample :
  rid Scenario.journey1 <> Some "OTHER-RID"
  /\ exists r,
      DelayTrackerService.classify Scenario.service 600 [Scenario.journey1]
        (map DelayTrackerService.toDelayData
             (DelayTrackerService.responseData
                (DarwinArray [Scenario.upstream_record "OTHER-RID" 20 false])))
      = [r]
      /\ journeyId r = id Scenario.journey1
      /\ dataNotFound r = None
      /\ delayMinutes r = 20
      /\ exceedsThreshold r = true.
Proof.
  split; [discriminate |].
  eexists. split; [lazy; reflexivity |]. cbn. auto.
Qed.

(** C6 (amended): the tick yields one result per active journey; when the
    tick has exactly one active journey (with a RID) and the upstream answer
    has exactly one record, that record is applied to the journey whatever
    RID it carries; in every other case a journey for which no record with
    an equal RID exists gets the [data_not_found] result, and a result that
    carries delay data was computed from a record whose RID equals the
    journey's. *)
Theorem C6_rid_matching
        (this : DelayTrackerService.t) (now : Z)
        (js : list MonitoredJourney) (raw : DarwinResponse) :
  let det := DelayTrackerService.delayDetector this in
  let ds := map DelayTrackerService.toDelayData
                (DelayTrackerService.responseData raw) in
  let results := DelayTrackerService.classify this now js ds in
  List.length results = List.length js
  /\ (forall j d,
         js = [j] -> ds = [d] -> Js.truthy_opt_string (rid j) = true ->
         exists r,
           results = [r]
           /\ journeyId r = id j
           /\ dataNotFound r = None
           /\ delayMinutes r = DelayDetector.total_delay_minutes d
           /\ isCancelled r = DelayDetector.cancelled_flag d
           /\ exceedsThreshold r
              = (DelayDetector.total_delay_minutes d
                 >=? DelayDetector.thresholdMinutes det))
  /\ (~ (List.length js = 1%nat /\ List.length ds = 1%nat) ->
      forall i j r,
        nth_error js i = Some j -> nth_error results i = Some r ->
        ((forall d, In d ds -> Some (DelayDetector.dd_rid d) <> rid j) ->
         r = DelayDetector.notFoundResult now (DelayTrackerService.toJourneyData j))
        /\ (dataNotFound r = None ->
            exists d,
              In d ds
              /\ Some (DelayDetector.dd_rid d) = rid j
              /\ r = DelayDetector.detectDelay det now
                       (DelayTrackerService.toJourneyData j) d)).
Proof.
  cbv zeta. split; [| split].
  - unfold DelayTrackerService.classify.
    rewrite detectDelaysBatch_map. now rewrite !length_map.
  - intros j d Hjs Hds Hrid. rewrite Hjs, Hds.
    unfold DelayTrackerService.classify, DelayTrackerService.mapDelayData.
    destruct (rid j) as [s |] eqn:Hs; [| discriminate].
    destruct s as [| c s']; [discriminate |].
    cbn. unfold DelayDetector.detectOne, DelayDetector.findDelayByRid.
    cbn. rewrite Hs. cbn. rewrite Ascii.eqb_refl, String.eqb_refl. cbn.
    eexists. split; [reflexivity |]. cbn. repeat split; reflexivity.
  - intros Hshape i j r Hj Hr.
    unfold DelayTrackerService.classify in Hr.
    rewrite (mapDelayData_identity _ _ Hshape), detectDelaysBatch_map in Hr.
    rewrite !nth_error_map, Hj in Hr. cbn in Hr. injection Hr as Hr.
    destruct (detectOne_cases (DelayTrackerService.delayDetector this) now
                (map DelayTrackerService.toDelayData
                     (DelayTrackerService.responseData raw))
                (DelayTrackerService.toJourneyData j))
      as [[Hnf _] | (d & Hin & Heq & Hne & Hdet)].
    + split.
      * intros _. congruence.
      * intro Hd. rewrite <- Hr, Hnf in Hd. discriminate.
    + assert (Hsome : Some (DelayDetector.dd_rid d) = rid j).
      { cbn in Heq. destruct (rid j) as [s |]; cbn in Heq; congruence. }
      split.
      * intro Hno. exfalso. exact (Hno d Hin Hsome).
      * intros _. exists d. repeat split; auto. congruence.
Qed.

Lemma C6_rid_matching_witness :
  (exists r,
      DelayTrackerService.classify Scenario.service 600 [Scenario.journey1]
        (map DelayTrackerService.toDelayData
             (DelayTrackerService.responseData
                (DarwinArray [Scenario.upstream_record "OTHER-RID" 20 false])))
      = [r]
      /\ delayMinutes r = 20)
  /\ (exists r,
         nth_error
           (DelayTrackerService.classify Scenario.service 600 [Scenario.journey1]
              (map DelayTrackerService.toDelayData
                   (DelayTrackerService.responseData
                      (DarwinArray [Scenario.upstream_record "OTHER-RID" 20 false;
                                    Scenario.upstream_record "THIRD-RID" 30 true]))))
           0
         = Some r
         /\ r = DelayDetector.notFoundResult 600
                  (DelayTrackerService.toJourneyData Scenario.journey1)).
Proof.
  split.
  - destruct (proj1 (proj2 (C6_rid_matching Scenario.service 600 [Scenario.journey1]
                              (DarwinArray
                                 [Scenario.upstream_record "OTHER-RID" 20 false])))
               Scenario.journey1
               (DelayTrackerService.toDelayData
                  (Scenario.upstream_record "OTHER-RID" 20 false))
               eq_refl eq_refl eq_refl)
      as (r & Hres & _ & _ & Hmin & _).
    exists r. split; [exact Hres | exact Hmin].
  - eexists. split; [lazy; reflexivity |].
    apply (proj2 (proj2 (C6_rid_matching Scenario.service 600 [Scenario.journey1]
                           (DarwinArray
                              [Scenario.upstream_record "OTHER-RID" 20 false;
                               Scenario.upstream_record "THIRD-RID" 30 true])))
             ltac:(cbn; intros [_ H]; discriminate H)
             0%nat Scenario.journey1 _ eq_refl eq_refl).
    cbn. intros d [Hd | [Hd | []]]; subst d; cbn; discriminate.
Defined.

(** ** The journey monitor on the store *)

Lemma first_or_null_find (k : string) (rows : list MonitoredJourney) :
  JourneyRepository.first_or_null (Pg.JourneyRows (filter (Pg.id_is k) rows))
  = find (Pg.id_is k) rows.
Proof.
  unfold JourneyRepository.first_or_null, JourneyRepository.mapRow. cbn.
  induction rows as [| r rows IH]; cbn; [reflexivity |].
  destruct (Pg.id_is k r); [reflexivity | exact IH].
Qed.

Lemma find_update_where (k : string) (sets : Pg.JourneySets)
      (rows : list MonitoredJourney) :
  find (Pg.id_is k)
       (map (fun r => if Pg.id_is k r then Pg.patch_journey sets r else r) rows)
  = option_map (Pg.patch_journey sets) (find (Pg.id_is k) rows).
Proof.
  induction rows as [| r rows IH]; cbn; [reflexivity |].
  destruct (Pg.id_is k r) eqn:Hr; cbn.
  - unfold Pg.id_is in *. cbn. now rewrite Hr.
  - now rewrite Hr.
Qed.

Lemma update_where_untouched (k : string) (f : MonitoredJourney -> MonitoredJourney)
      (rows : list MonitoredJourney) :
  find (Pg.id_is k) rows = None ->
  map (fun r => if Pg.id_is k r then f r else r) rows = rows.
Proof.
  induction rows as [| r rows IH]; cbn; [reflexivity |].
  destruct (Pg.id_is k r); [discriminate |].
  intro H. now rewrite IH.
Qed.

Lemma with_journeys_same (t : Pg.Tables) : Pg.with_journeys t (Pg.journeys t) = t.
Proof. destruct t; reflexivity. Qed.

Lemma permitted_includes (a b : MonitoringStatus) :
  Lifecycle.Permitted a b
  <-> JourneyMonitor.includes (JourneyMonitor.VALID_TRANSITIONS a) b = true.
Proof.
  split.
  - intros []; reflexivity.
  - destruct a, b; cbn; intro H; try discriminate; constructor.
Qed.

Lemma no_row_for_journey_id (ext : string) (rows : list MonitoredJourney) :
  (forall j, In j rows -> journey_id j <> ext) ->
  filter (fun j => String.eqb (journey_id j) ext) rows = []
  /\ existsb (fun j => String.eqb (journey_id j) ext) rows = false.
Proof.
  induction rows as [| r rows IH]; cbn; intro H; [split; reflexivity |].
  assert (Hr : String.eqb (journey_id r) ext = false)
    by (apply String.eqb_neq, H; left; reflexivity).
  rewrite Hr. cbn. apply IH. intros j Hj. apply H. right. exact Hj.
Qed.

(** C7: a registration for which no row with the same [journey_id] exists
    creates the journey in [pending_rid], with the first check at
    [scheduled_departure - 48h] when the departure is more than 48 hours
    away (so also at 48h + 1s) and at [now + 5 min] otherwise. *)
Theorem C7_registerJourney_schedule
        (data : JourneyMonitor.RegisterJourneyData) (env : Env) (w : World) :
  (forall j, In j (Pg.journeys (tables w)) ->
             journey_id j <> JourneyMonitor.reg_journey_id data) ->
  (forall s, fault env Pg.Pool s = false) ->
  let departure := JourneyMonitor.reg_scheduled_departure data in
  exists row w',
    JourneyMonitor.registerJourney data env w = (Ok row, w')
    /\ Pg.journeys (tables w') = Pg.journeys (tables w) ++ [row]
    /\ journey_id row = JourneyMonitor.reg_journey_id data
    /\ monitoring_status row = pending_rid
    /\ (departure - now env > 172800000 ->
        next_check_at row = Some (departure - 172800000))
    /\ (departure - now env = 172800000 + 1000 ->
        next_check_at row = Some (departure - 172800000))
    /\ (departure - now env <= 172800000 ->
        next_check_at row = Some (now env + 300000)).
Proof.
  intros Hnew Hfault departure.
  destruct (no_row_for_journey_id _ _ Hnew) as [Hfilter Hexists].
  unfold JourneyMonitor.registerJourney, JourneyRepository.findByJourneyId,
    JourneyRepository.create, JourneyRepository.first_or_null, bind, ret, ask, query.
  rewrite !Hfault. cbn. rewrite Hfilter. cbn.
  rewrite !Hfault. cbn. rewrite Hexists. cbn.
  eexists. eexists. split; [reflexivity |]. cbn.
  split; [reflexivity |]. split; [reflexivity |]. split; [reflexivity |].
  fold departure.
  change (JourneyMonitor.t48Hours) with 172800000.
  change (JourneyMonitor.checkIntervalMinutes * 60 * 1000) with 300000.
  destruct (Z.gtb_spec (departure - now env) 172800000) as [Hgt | Hle];
    repeat split; intros; try reflexivity; lia.
Qed.

Lemma C7_registerJourney_schedule_witness :
  exists row w',
    JourneyMonitor.registerJourney
      (Scenario.registration (600 + 172800000 + 1000)) Scenario.env1 Scenario.world1
    = (Ok row, w')
    /\ monitoring_status row = pending_rid
    /\ next_check_at row = Some (600 + 1000).
Proof.
  destruct (C7_registerJourney_schedule
              (Scenario.registration (600 + 172800000 + 1000))
              Scenario.env1 Scenario.world1)
    as (row & w' & Hrun & _ & _ & Hstatus & _ & Hnext & _).
  - cbn. intros j [Hj | []]. subst j. discriminate.
  - intro s. reflexivity.
  - exists row, w'. split; [exact Hrun |]. split; [exact Hstatus |].
    apply Hnext. reflexivity.
Defined.

(** C8: for a journey present in the store, [updateStatus] succeeds exactly
    for the permitted transitions, after which the stored status is the new
    one; any other request raises the invalid-transition error and leaves
    the stored rows as they were. *)
Theorem C8_updateStatus_transitions
        (k : string) (newStatus : MonitoringStatus)
        (additionalData : option (option string))
        (env : Env) (w : World) (j : MonitoredJourney) :
  find (Pg.id_is k) (Pg.journeys (tables w)) = Some j ->
  (forall s, fault env Pg.Pool s = false) ->
  let outcome := JourneyMonitor.updateStatus k newStatus additionalData env w in
  (Lifecycle.Permitted (monitoring_status j) newStatus ->
   exists w' j',
     outcome = (Ok tt, w')
     /\ find (Pg.id_is k) (Pg.journeys (tables w')) = Some j'
     /\ monitoring_status j' = newStatus)
  /\ (~ Lifecycle.Permitted (monitoring_status j) newStatus ->
      exists w',
        outcome
        = (Throw (JourneyMonitor.invalid_transition (monitoring_status j) newStatus), w')
        /\ tables w' = tables w).
Proof.
  intros Hfind Hfault outcome. subst outcome.
  unfold JourneyMonitor.updateStatus, JourneyRepository.findById,
    JourneyRepository.updateStatus, bind, ret, throw, query.
  rewrite ?Hfault. cbn. rewrite first_or_null_find, Hfind.
  split.
  - intro Hp. apply permitted_includes in Hp. rewrite Hp. cbn.
    rewrite ?Hfault. cbn.
    eexists. eexists. split; [reflexivity |]. cbn.
    rewrite find_update_where, Hfind. cbn. split; reflexivity.
  - intro Hp.
    destruct (JourneyMonitor.includes
                (JourneyMonitor.VALID_TRANSITIONS (monitoring_status j)) newStatus)
      eqn:Hi.
    + exfalso. apply Hp. apply permitted_includes. exact Hi.
    + cbn. eexists. split; reflexivity.
Qed.

Lemma C8_updateStatus_transitions_witness :
  (exists w' j',
      JourneyMonitor.updateStatus "j1" delayed None Scenario.env1 Scenario.world1
      = (Ok tt, w')
      /\ find (Pg.id_is "j1") (Pg.journeys (tables w')) = Some j'
      /\ monitoring_status j' = delayed)
  /\ (exists w',
         JourneyMonitor.updateStatus "j1" pending_rid None Scenario.env1 Scenario.world1
         = (Throw (JourneyMonitor.invalid_transition active pending_rid), w')
         /\ tables w' = tables Scenario.world1).
Proof.
  split.
  - apply (proj1 (C8_updateStatus_transitions "j1" delayed None Scenario.env1
                    Scenario.world1 Scenario.journey1 eq_refl
                    (fun s => eq_refl))).
    constructor.
  - apply (proj2 (C8_updateStatus_transitions "j1" pending_rid None Scenario.env1
                    Scenario.world1 Scenario.journey1 eq_refl
                    (fun s => eq_refl))).
    intro H. inversion H.
Defined.

(** C9: when no journey has the given id, [updateStatus] validates
    nothing: whatever the requested status it raises no error, and the
    status UPDATE is still sent for that id (it changes no row). *)
Theorem C9_updateStatus_unknown_journey
        (k : string) (newStatus : MonitoringStatus)
        (additionalData : option (option string)) (env : Env) (w : World) :
  find (Pg.id_is k) (Pg.journeys (tables w)) = None ->
  (forall s, fault env Pg.Pool s = false) ->
  exists w' r,
    JourneyMonitor.updateStatus k newStatus additionalData env w = (Ok tt, w')
    /\ trace w'
       = trace w ++ [SqlCall Pg.Pool (Pg.SelectJourneyById k);
                     SqlCall Pg.Pool (Pg.UpdateJourneyStatus k newStatus r)]
    /\ tables w' = tables w.
Proof.
  intros Hfind Hfault.
  unfold JourneyMonitor.updateStatus, JourneyRepository.findById,
    JourneyRepository.updateStatus, bind, ret, throw, query.
  rewrite ?Hfault. cbn. rewrite first_or_null_find, Hfind. cbn.
  rewrite ?Hfault. cbn.
  eexists. eexists. split; [reflexivity |]. cbn.
  split.
  - rewrite <- app_assoc. reflexivity.
  - rewrite (update_where_untouched _ _ _ Hfind). apply with_journeys_same.
Qed.

Lemma C9_updateStatus_unknown_journey_witness :
  exists w' r,
    JourneyMonitor.updateStatus "no-such-journey" active None
      Scenario.env1 Scenario.world1
    = (Ok tt, w')
    /\ trace w'
       = trace Scenario.world1
         ++ [SqlCall Pg.Pool (Pg.SelectJourneyById "no-such-journey");
             SqlCall Pg.Pool (Pg.UpdateJourneyStatus "no-such-journey" active r)]
    /\ tables w' = tables Scenario.world1.
Proof.
  apply (C9_updateStatus_unknown_journey "no-such-journey" active None
           Scenario.env1 Scenario.world1 eq_refl (fun s => eq_refl)).
Defined.

(** ** The claim-trigger response column *)






Lemma extract_wrapped (s : string) :
  s <> "" ->
  DelayAlertRepository.extract_response (Some (JObj [("message", JStr s)])) = Some s.
Proof. reflexivity. Qed.



Lemma query_pool (s : Pg.Stmt) (env : Env) (w : World) :
  fault env Pg.Pool s = false ->
  Pg.is_control s = false ->
  query Pg.Pool s env w
  = let w1 := set_trace w (trace w ++ [SqlCall Pg.Pool s]) in
    match Pg.run (uuid_of_nat (next_uuid w)) (now env) s (tables w) with
    | inl e => (Throw e, w1)
    | inr (t', rows) => (Ok rows, bump_uuid s (set_tables w1 t'))
    end.
Proof.
  intros Hf Hc. unfold query. rewrite Hf. cbn.
  destruct s; try discriminate; reflexivity.
Qed.

Lemma query_in_transaction (s : Pg.Stmt) (pending : Pg.Pending) (env : Env) (w : World) :
  fault env Pg.Client s = false ->
  Pg.is_control s = false ->
  tx w = Pg.InTx pending ->
  query Pg.Client s env w
  = let w1 := set_trace w (trace w ++ [SqlCall Pg.Client s]) in
    let newid := uuid_of_nat (next_uuid w) in
    match Pg.run newid (now env) s (Pg.replay (now env) pending (tables w)) with
    | inl e => (Throw e, set_tx w1 Pg.Aborted)
    | inr (_, rows) =>
        (Ok rows,
         bump_uuid s
           (set_tx w1 (Pg.InTx (if Pg.is_write s
                                then pending ++ [(newid, s)]
                                else pending))))
    end.
Proof.
  intros Hf Hc Htx. unfold query. rewrite Hf. cbn.
  rewrite Htx. destruct s; try discriminate; reflexivity.
Qed.







(** ** The detection cycle on its failing inputs *)

(** C1 (the code breaks the claim): a 25-minute delay is detected for the
    active journey [j1] and the outbox insert fails inside the per-journey
    transaction.  The cycle completes and the rollback removes the alert
    and the events, but the status change to [delayed] was sent on the
    pool, outside the transaction, and stays. *)
Lemma C1_status_change_survives_rollback :
  exists metrics w',
    DelayTrackerService.runDetectionCycle Scenario.service
      Scenario.env_outbox_down Scenario.world1
    = (Ok metrics, w')
    /\ tx w' = Pg.NoTx
    /\ Pg.alerts (tables w') = []
    /\ Pg.outbox (tables w') = []
    /\ option_map monitoring_status (Scenario.stored_journey1 Scenario.world1)
       = Some active
    /\ option_map monitoring_status (Scenario.stored_journey1 w') = Some delayed.
Proof.
  eexists. eexists. split; [vm_compute; reflexivity |].
  vm_compute. repeat split; reflexivity.
Qed.

(** C2 (the code breaks the claim): the upstream reports a cancellation for
    the active journey [j1].  After the cycle the journey is [cancelled] and
    its [next_check_at] is [now + 5 min], not null: the transition leaves
    the column alone and the final pacing update writes it. *)
Lemma C2_cancelled_journey_keeps_next_check :
  exists metrics w' j,
    DelayTrackerService.runDetectionCycle Scenario.service
      Scenario.env_cancelled Scenario.world1
    = (Ok metrics, w')
    /\ Scenario.stored_journey1 w' = Some j
    /\ monitoring_status j = cancelled
    /\ next_check_at j = Some (now Scenario.env_cancelled + 300000)
    /\ ~ Lifecycle.terminal_cleared j.
Proof.
  eexists. eexists. eexists. split; [vm_compute; reflexivity |].
  split; [vm_compute; reflexivity |]. cbn.
  split; [reflexivity |]. split; [reflexivity |].
  unfold Lifecycle.terminal_cleared. cbn. intro H.
  specialize (H eq_refl). discriminate H.
Qed.

(** C5 (the code breaks the claim): the upstream reports a cancellation
    with a delay of -5 minutes.  The claim asks for an alert with
    [max(1, -5) = 1] minutes and a transition to [cancelled]; the code
    inserts -5, the CHECK on [delay_minutes] rejects the row, the
    transaction is rolled back, and the journey stays [active] with no
    alert and no event. *)
Lemma C5_early_cancellation_not_recorded :
  Z.max 1 (-5) = 1
  /\ exists metrics w',
      DelayTrackerService.runDetectionCycle Scenario.service
        Scenario.env_cancelled_early Scenario.world1
      = (Ok metrics, w')
      /\ Pg.alerts (tables w') = []
      /\ Pg.outbox (tables w') = []
      /\ option_map monitoring_status (Scenario.stored_journey1 w') = Some active.
Proof.
  split; [reflexivity |].
  eexists. eexists. split; [vm_compute; reflexivity |].
  vm_compute. repeat split; reflexivity.
Qed.

(** ** Supporting facts on the lifecycle and the per-journey commit *)

(** The explicit terminal operations of the monitor clear the next check:
    after [cancelMonitoring] (resp. [completeJourney]) the stored journey is
    [cancelled] (resp. [completed]) with [next_check_at = null]. *)
Lemma terminal_operations_clear_next_check
      (k : string) (env : Env) (w : World) (j : MonitoredJourney) :
  find (Pg.id_is k) (Pg.journeys (tables w)) = Some j ->
  (forall s, fault env Pg.Pool s = false) ->
  (exists w' j',
      JourneyMonitor.cancelMonitoring k env w = (Ok tt, w')
      /\ find (Pg.id_is k) (Pg.journeys (tables w')) = Some j'
      /\ monitoring_status j' = cancelled
      /\ next_check_at j' = None)
  /\ (exists w' j',
         JourneyMonitor.completeJourney k env w = (Ok tt, w')
         /\ find (Pg.id_is k) (Pg.journeys (tables w')) = Some j'
         /\ monitoring_status j' = completed
         /\ next_check_at j' = None).
Proof.
  intros Hfind Hfault.
  split.
  - unfold JourneyMonitor.cancelMonitoring, JourneyRepository.findById,
      JourneyRepository.updateStatus, JourneyRepository.update, bind, ret, throw.
    rewrite query_pool by auto. cbn.
    rewrite first_or_null_find, Hfind.
    rewrite query_pool by auto. cbn.
    rewrite query_pool by auto. cbn.
    eexists. eexists. split; [reflexivity |]. cbn.
    rewrite !find_update_where, Hfind. cbn. auto.
  - unfold JourneyMonitor.completeJourney, JourneyRepository.findById,
      JourneyRepository.updateStatus, JourneyRepository.update, bind, ret, throw.
    rewrite query_pool by auto. cbn.
    rewrite first_or_null_find, Hfind.
    rewrite query_pool by auto. cbn.
    rewrite query_pool by auto. cbn.
    eexists. eexists. split; [reflexivity |]. cbn.
    rewrite !find_update_where, Hfind. cbn. auto.
Qed.






(** *** What a failed per-journey commit leaves behind *)

Lemma preserves_ret {A : Type} (I : World -> Prop) (a : A) : Frame.preserves I (ret a).
Proof. intros env w H. exact H. Qed.

Lemma preserves_throw {A : Type} (I : World -> Prop) (e : Js.Thrown) :
  Frame.preserves I (@throw A e).
Proof. intros env w H. exact H. Qed.

Lemma preserves_ask (I : World -> Prop) : Frame.preserves I ask.
Proof. intros env w H. exact H. Qed.

Lemma preserves_bind {A B : Type} (I : World -> Prop) (m : M A) (k : A -> M B) :
  Frame.preserves I m -> (forall a, Frame.preserves I (k a)) ->
  Frame.preserves I (bind m k).
Proof.
  intros Hm Hk env w H. unfold bind.
  specialize (Hm env w H). destruct (m env w) as [[a | e] w1]; cbn in *.
  - apply Hk. exact Hm.
  - exact Hm.
Qed.

Lemma preserves_try_catch {A : Type} (I : World -> Prop) (m : M A)
      (handler : Js.Thrown -> M A) :
  Frame.preserves I m -> (forall e, Frame.preserves I (handler e)) ->
  Frame.preserves I (try_catch m handler).
Proof.
  intros Hm Hh env w H. unfold try_catch.
  specialize (Hm env w H). destruct (m env w) as [[a | e] w1]; cbn in *.
  - exact Hm.
  - apply Hh. exact Hm.
Qed.

Lemma preserves_lift_remote {A : Type} (I : World -> Prop) (r : Js.Thrown + A) :
  Frame.preserves I (lift_remote r).
Proof. destruct r; [apply preserves_throw | apply preserves_ret]. Qed.

Lemma preserves_record_call (w0 : World) (c : Call) :
  Frame.preserves (Frame.uncommitted w0) (record_call c).
Proof. intros env w H. exact H. Qed.

Lemma preserves_incr_claimsTriggered (w0 : World) :
  Frame.preserves (Frame.uncommitted w0) DelayTrackerService.incr_claimsTriggered.
Proof. intros env w H. exact H. Qed.

Lemma run_journey_only (newid : string) (now : Z) (s : Pg.Stmt) (t t' : Pg.Tables)
      (rows : Pg.Rows) :
  Pg.journey_only s = true ->
  Pg.run newid now s t = inr (t', rows) ->
  Pg.alerts t' = Pg.alerts t /\ Pg.outbox t' = Pg.outbox t.
Proof.
  intros Hs Hrun. destruct s; try discriminate; cbn in Hrun.
  - injection Hrun as <- _. auto.
  - injection Hrun as <- _. auto.
  - injection Hrun as <- _. auto.
  - destruct (existsb _ _); [discriminate |]. injection Hrun as <- _. auto.
  - injection Hrun as <- _. auto.
  - injection Hrun as <- _. auto.
  - injection Hrun as <- _. auto.
Qed.

(** A statement on the pool that concerns journeys only. *)
Lemma preserves_query_pool (w0 : World) (s : Pg.Stmt) :
  Pg.journey_only s = true ->
  Frame.preserves (Frame.uncommitted w0) (query Pg.Pool s).
Proof.
  intros Hs env w [[Ha Ho] Htx]. unfold query.
  destruct (fault env Pg.Pool s); [split; [split |]; assumption |].
  destruct s; try discriminate;
    match goal with
    | |- context [Pg.run ?i ?n ?st ?t] =>
        destruct (Pg.run i n st t) as [e | [t' rows]] eqn:Hrun;
        [split; [split |]; assumption |];
        destruct (run_journey_only _ _ _ _ _ _ Hs Hrun) as [Ha' Ho'];
        cbn in Ha', Ho';
        split; [split |]; cbn; [congruence | congruence | assumption]
    end.
Qed.

Lemma query_aborted (s : Pg.Stmt) (env : Env) (w : World) :
  fault env Pg.Client s = false ->
  Pg.is_control s = false ->
  tx w = Pg.Aborted ->
  query Pg.Client s env w
  = (Throw Pg.aborted_error, set_trace w (trace w ++ [SqlCall Pg.Client s])).
Proof.
  intros Hf Hc Htx. unfold query. rewrite Hf. cbn.
  rewrite Htx. destruct s; try discriminate; reflexivity.
Qed.

(** A statement on the client while its transaction is open. *)
Lemma preserves_query_client (w0 : World) (s : Pg.Stmt) :
  Pg.is_control s = false ->
  Frame.preserves (Frame.uncommitted w0) (query Pg.Client s).
Proof.
  intros Hs env w [[Ha Ho] Htx].
  destruct (fault env Pg.Client s) eqn:Hf.
  - unfold query. rewrite Hf. split; [split |]; assumption.
  - destruct (tx w) as [| pending |] eqn:Hw; [contradiction | |].
    + rewrite (query_in_transaction s pending env w Hf Hs Hw). cbv zeta.
      destruct (Pg.run _ _ s _) as [e | [t' rows]];
        (split; [split |]; cbn; [assumption | assumption | discriminate]).
    + rewrite (query_aborted s env w Hf Hs Hw).
      split; [split |]; cbn; [assumption | assumption | congruence].
Qed.

Ltac preserve_step :=
  first
    [ apply preserves_ret
    | apply preserves_throw
    | apply preserves_ask
    | apply preserves_lift_remote
    | apply preserves_record_call
    | apply preserves_incr_claimsTriggered
    | apply preserves_query_client; reflexivity
    | apply preserves_query_pool; reflexivity
    | apply preserves_bind; [| intro]
    | apply preserves_try_catch; [| intro]
    | match goal with
      | |- Frame.preserves _ (if ?b then _ else _) => destruct b
      | |- Frame.preserves _ (match ?x with _ => _ end) => destruct x
      end ].

Ltac preserve := repeat preserve_step.

Lemma preserves_create_alert (w0 : World) (alert : DelayAlert) :
  Frame.preserves (Frame.uncommitted w0)
    (DelayAlertRepository.create alert (Some Pg.Client)).
Proof.
  unfold DelayAlertRepository.create, type_error. cbn [queryClient Js.nullish].
  preserve.
Qed.

Lemma preserves_updateStatus (w0 : World) (k : string) (st : MonitoringStatus) :
  Frame.preserves (Frame.uncommitted w0) (JourneyMonitor.updateStatus k st None).
Proof.
  unfold JourneyMonitor.updateStatus, JourneyRepository.findById,
    JourneyRepository.updateStatus.
  preserve.
Qed.

Lemma preserves_outbox_create (w0 : World) (etype atype aid : string) (body : Json) :
  Frame.preserves (Frame.uncommitted w0)
    (OutboxRepository.create etype atype aid body (Some Pg.Client)).
Proof.
  unfold OutboxRepository.create, type_error. cbn [queryClient Js.nullish].
  preserve.
Qed.

Lemma preserves_triggerClaim (w0 : World) (ct : ClaimTrigger.t) (input : DelayAlertInput) :
  Frame.preserves (Frame.uncommitted w0) (ClaimTrigger.triggerClaim ct input).
Proof.
  unfold ClaimTrigger.triggerClaim. preserve.
Qed.

Lemma preserves_claimStep (w0 : World) (this : DelayTrackerService.t)
      (correlationId : string) (journey : MonitoredJourney) (result : DelayResult)
      (alert : DelayAlert) :
  Frame.preserves (Frame.uncommitted w0)
    (DelayTrackerService.claimStep this correlationId journey result alert
       (Some Pg.Client)).
Proof.
  unfold DelayTrackerService.claimStep, DelayAlertRepository.markClaimTriggered,
    OutboxPublisher.publishClaimTriggered, OutboxPublisher.correlation,
    DelayAlertRepository.update.
  cbn [queryClient Js.nullish DelayAlertRepository.no_sets
       DelayAlertRepository.claim_outcome
       DelayAlertRepository.upd_delay_minutes DelayAlertRepository.upd_delay_reasons
       DelayAlertRepository.upd_is_cancellation
       DelayAlertRepository.upd_threshold_exceeded
       DelayAlertRepository.upd_claim_triggered
       DelayAlertRepository.upd_claim_triggered_at
       DelayAlertRepository.upd_claim_reference_id
       DelayAlertRepository.upd_claim_trigger_response
       DelayAlertRepository.upd_notification_sent
       DelayAlertRepository.upd_notification_sent_at].
  apply preserves_try_catch; [| intro].
  - apply preserves_bind; [apply preserves_triggerClaim | intro].
    destruct (success a && Js.truthy_opt_string (claimReferenceId a)).
    + preserve.
    + preserve.
  - preserve.
Qed.

Lemma throws_clean_bind {A B : Type} (w0 : World) (m : M A) (k : A -> M B) :
  Frame.preserves (Frame.uncommitted w0) m ->
  (forall a, Frame.throws_clean w0 (k a)) ->
  Frame.throws_clean w0 (bind m k).
Proof.
  intros Hm Hk env w e w' Hw. unfold bind.
  specialize (Hm env w Hw). destruct (m env w) as [[a | e1] w1]; cbn in Hm.
  - intro Hrun. exact (Hk a env w1 e w' Hm Hrun).
  - intro Hrun. injection Hrun as _ <-. apply Hm.
Qed.

Lemma throws_clean_commit (w0 : World) :
  Frame.throws_clean w0 (query Pg.Client Pg.Commit ;;; ret tt)%monad.
Proof.
  intros env w e w' [Hrows Htx]. unfold bind, query, ret.
  destruct (fault env Pg.Client Pg.Commit).
  - intro Hrun. injection Hrun as _ <-. exact Hrows.
  - cbn. destruct (tx w); discriminate.
Qed.

(** The committed alerts and events after a per-journey transaction that
    threw are those before it: nothing the client wrote has landed. *)
Lemma failed_transaction_leaves_no_alert_or_event
      (this : DelayTrackerService.t) (correlationId : string)
      (journey : MonitoredJourney) (result : DelayResult)
      (env : Env) (w : World) (e : Js.Thrown) (w' : World) :
  DelayTrackerService.transactionBody this correlationId journey result env w
  = (Throw e, w') ->
  Frame.same_rows w w'.
Proof.
  unfold DelayTrackerService.transactionBody.
  unfold bind at 1. unfold query at 1.
  destruct (fault env Pg.Client Pg.Begin).
  - intro Hrun. injection Hrun as _ <-. split; reflexivity.
  - cbv iota beta.
    match goal with
    | |- ?m env ?wb = _ -> _ =>
        intro Hrun;
        apply (fun H : Frame.throws_clean w m =>
                 H env wb e w' ltac:(split; [split; reflexivity | discriminate]) Hrun)
    end.
    apply throws_clean_bind; [apply preserves_create_alert | intro alert].
    apply throws_clean_bind.
    + destruct (isCancelled result); apply preserves_updateStatus.
    + intros _. apply throws_clean_bind.
      * unfold OutboxPublisher.publishDelayDetected, OutboxPublisher.correlation.
        preserve.
      * intros _. apply throws_clean_bind.
        -- destruct (claimEligible result && negb (isCancelled result));
             [apply preserves_claimStep | apply preserves_ret].
        -- intros _. apply throws_clean_commit.
Qed.

(** The same for one iteration of the result loop: when the transaction
    throws, the iteration rolls back and ends with the committed alerts and
    events unchanged and no transaction left open. *)
Lemma processResult_rolls_back
      (this : DelayTrackerService.t) (correlationId : string)
      (js : list MonitoredJourney) (result : DelayResult)
      (journey : MonitoredJourney) (env : Env) (w : World)
      (e : Js.Thrown) (w1 : World) :
  fault env Pg.Client Pg.Rollback = false ->
  (negb (exceedsThreshold result) && negb (isCancelled result)) = false ->
  find (fun j => String.eqb (id j) (journeyId result)) js = Some journey ->
  DelayTrackerService.transactionBody this correlationId journey result env
    (snd (DelayTrackerService.incr_delaysDetected env w))
  = (Throw e, w1) ->
  exists w',
    DelayTrackerService.processResult this correlationId js result env w = (Ok tt, w')
    /\ Frame.same_rows w w'
    /\ tx w' = Pg.NoTx
    /\ Pg.journeys (tables w') = Pg.journeys (tables w1).
Proof.
  intros Hf Hcond Hjs Hbody.
  unfold DelayTrackerService.processResult. rewrite Hcond.
  unfold bind at 1. cbn [DelayTrackerService.incr_delaysDetected].
  rewrite Hjs. unfold try_catch.
  cbn [DelayTrackerService.incr_delaysDetected snd] in Hbody. rewrite Hbody.
  pose proof (failed_transaction_leaves_no_alert_or_event _ _ _ _ _ _ _ _ Hbody)
    as [Ha Ho].
  unfold bind, query, ret. rewrite Hf. cbn.
  eexists. split; [reflexivity |]. cbn. cbn in Ha, Ho. repeat split; auto.
Qed.

(** * Further properties of the code *)

(** ** The journey monitor *)

Lemma resolveRid_cases
        (k r : string) (env : Env) (w : World) :
  (forall s, fault env Pg.Pool s = false) ->
  match find (Pg.id_is k) (Pg.journeys (tables w)) with
  | Some j =>
      exists w' j',
        JourneyMonitor.resolveRid k r env w = (Ok tt, w')
        /\ find (Pg.id_is k) (Pg.journeys (tables w')) = Some j'
        /\ monitoring_status j' = active
        /\ rid j' = Some r
        /\ next_check_at j' = Some (now env)
        /\ last_checked_at j' = last_checked_at j
        /\ journey_id j' = journey_id j
  | None =>
      exists w',
        JourneyMonitor.resolveRid k r env w
        = (Throw JourneyMonitor.journey_not_found, w')
        /\ tables w' = tables w
  end.
Proof.
  intro Hfault.
  destruct (find (Pg.id_is k) (Pg.journeys (tables w))) as [j |] eqn:Hfind.
  - unfold JourneyMonitor.resolveRid, JourneyRepository.findById,
      JourneyRepository.update, bind, ret, throw, ask.
    rewrite query_pool by auto. cbn.
    rewrite first_or_null_find, Hfind.
    rewrite query_pool by auto. cbn.
    rewrite query_pool by auto. cbn.
    eexists. eexists. split; [reflexivity |]. cbn.
    rewrite !find_update_where, Hfind. cbn. repeat split; reflexivity.
  - unfold JourneyMonitor.resolveRid, JourneyRepository.findById, bind, ret, throw.
    rewrite query_pool by auto. cbn.
    rewrite first_or_null_find, Hfind.
    eexists. split; reflexivity.
Qed.

(** X1. [resolveRid] activates the journey whatever its current status (it
    does not consult the transition table): the stored journey gets the
    RID, status [active] and [next_check_at = now]; [last_checked_at] is
    kept.  For an unknown id it throws "Journey not found" and changes
    nothing. *)
Theorem resolveRid_activates
        (k r : string) (env : Env) (w : World) :
  (forall s, fault env Pg.Pool s = false) ->
  match find (Pg.id_is k) (Pg.journeys (tables w)) with
  | Some j =>
      exists w' j',
        JourneyMonitor.resolveRid k r env w = (Ok tt, w')
        /\ find (Pg.id_is k) (Pg.journeys (tables w')) = Some j'
        /\ monitoring_status j' = active
        /\ rid j' = Some r
        /\ next_check_at j' = Some (now env)
        /\ last_checked_at j' = last_checked_at j
        /\ journey_id j' = journey_id j
  | None =>
      exists w',
        JourneyMonitor.resolveRid k r env w
        = (Throw JourneyMonitor.journey_not_found, w')
        /\ tables w' = tables w
  end.
Proof. exact (resolveRid_cases k r env w). Qed.

Lemma resolveRid_activates_witness :
  exists w' j',
    JourneyMonitor.resolveRid "j1" "R9" Scenario.env1 Scenario.world1 = (Ok tt, w')
    /\ find (Pg.id_is "j1") (Pg.journeys (tables w')) = Some j'
    /\ monitoring_status j' = active
    /\ rid j' = Some "R9"
    /\ next_check_at j' = Some 600
    /\ last_checked_at j' = None
    /\ journey_id j' = "ext-1".
Proof.
  exact (resolveRid_activates "j1" "R9" Scenario.env1 Scenario.world1
           (fun s => eq_refl)).
Defined.

(** X2. [cancelMonitoring] and [completeJourney] do not consult the
    transition table either: from any status the stored journey becomes
    [cancelled] (resp. [completed]) with [next_check_at = null]; for an
    unknown id they throw "Journey not found" and change nothing. *)
Theorem terminal_operations
        (k : string) (env : Env) (w : World) :
  (forall s, fault env Pg.Pool s = false) ->
  match find (Pg.id_is k) (Pg.journeys (tables w)) with
  | Some j =>
      (exists w' j',
          JourneyMonitor.cancelMonitoring k env w = (Ok tt, w')
          /\ find (Pg.id_is k) (Pg.journeys (tables w')) = Some j'
          /\ monitoring_status j' = cancelled
          /\ next_check_at j' = None)
      /\ (exists w' j',
             JourneyMonitor.completeJourney k env w = (Ok tt, w')
             /\ find (Pg.id_is k) (Pg.journeys (tables w')) = Some j'
             /\ monitoring_status j' = completed
             /\ next_check_at j' = None)
  | None =>
      (exists w',
          JourneyMonitor.cancelMonitoring k env w
          = (Throw JourneyMonitor.journey_not_found, w')
          /\ tables w' = tables w)
      /\ (exists w',
             JourneyMonitor.completeJourney k env w
             = (Throw JourneyMonitor.journey_not_found, w')
             /\ tables w' = tables w)
  end.
Proof.
  intro Hfault.
  destruct (find (Pg.id_is k) (Pg.journeys (tables w))) as [j |] eqn:Hfind.
  - exact (terminal_operations_clear_next_check k env w j Hfind Hfault).
  - split.
    + unfold JourneyMonitor.cancelMonitoring, JourneyRepository.findById,
        bind, ret, throw.
      rewrite query_pool by auto. cbn. rewrite first_or_null_find, Hfind.
      eexists. split; reflexivity.
    + unfold JourneyMonitor.completeJourney, JourneyRepository.findById,
        bind, ret, throw.
      rewrite query_pool by auto. cbn. rewrite first_or_null_find, Hfind.
      eexists. split; reflexivity.
Qed.

Lemma terminal_operations_witness :
  (exists w' j',
      JourneyMonitor.cancelMonitoring "j1" Scenario.env1 Scenario.world1 = (Ok tt, w')
      /\ find (Pg.id_is "j1") (Pg.journeys (tables w')) = Some j'
      /\ monitoring_status j' = cancelled
      /\ next_check_at j' = None)
  /\ (exists w' j',
         JourneyMonitor.completeJourney "j1" Scenario.env1 Scenario.world1 = (Ok tt, w')
         /\ find (Pg.id_is "j1") (Pg.journeys (tables w')) = Some j'
         /\ monitoring_status j' = completed
         /\ next_check_at j' = None).
Proof.
  exact (terminal_operations "j1" Scenario.env1 Scenario.world1 (fun s => eq_refl)).
Defined.

Lemma Forall2_map_right {A : Type} (P : A -> A -> Prop) (f : A -> A) (l : list A) :
  (forall x, P x (f x)) -> Forall2 P l (map f l).
Proof.
  intro H. induction l as [| x l IH]; cbn; constructor; auto.
Qed.

Lemma id_in_In (ids : list string) (j : MonitoredJourney) :
  Pg.id_in ids j = true <-> In (id j) ids.
Proof.
  unfold Pg.id_in. rewrite existsb_exists. split.
  - intros (x & Hin & Heq). apply String.eqb_eq in Heq. now subst x.
  - intro Hin. exists (id j). split; [exact Hin | apply String.eqb_refl].
Qed.

Lemma updateLastChecked_effect
      (ids : list string) (env : Env) (w : World) :
  (forall s, fault env Pg.Pool s = false) ->
  exists w',
    JourneyMonitor.updateLastChecked ids env w = (Ok tt, w')
    /\ (ids = [] -> w' = w)
    /\ Pg.alerts (tables w') = Pg.alerts (tables w)
    /\ Pg.outbox (tables w') = Pg.outbox (tables w)
    /\ Forall2
         (fun j j' =>
            (In (id j) ids ->
             id j' = id j
             /\ monitoring_status j' = monitoring_status j
             /\ rid j' = rid j
             /\ last_checked_at j' = Some (now env)
             /\ next_check_at j' = Some (now env + 300000)
             /\ forall t, t < now env + 300000 -> Pg.is_due t j' = false)
            /\ (~ In (id j) ids -> j' = j))
         (Pg.journeys (tables w)) (Pg.journeys (tables w')).
Proof.
  intro Hfault. destruct ids as [| k ids].
  - exists w. split; [reflexivity |]. split; [reflexivity |].
    split; [reflexivity |]. split; [reflexivity |].
    replace (Pg.journeys (tables w))
      with (map (fun j : MonitoredJourney => j) (Pg.journeys (tables w))) at 2
      by apply map_id.
    apply Forall2_map_right. intro j. split; [intros [] | reflexivity].
  - unfold JourneyMonitor.updateLastChecked, JourneyRepository.updateLastChecked,
      bind, ret, ask.
    rewrite query_pool by auto. cbn.
    rewrite query_pool by auto. cbn.
    eexists. split; [reflexivity |]. split; [discriminate |]. cbn.
    split; [reflexivity |]. split; [reflexivity |].
    rewrite map_map. apply Forall2_map_right. intro j.
    change (JourneyMonitor.checkIntervalMinutes * 60 * 1000) with 300000.
    pose proof (id_in_In (k :: ids) j) as Hiff.
    unfold Pg.id_in in Hiff. cbn in Hiff.
    destruct ((id j =? k)%string || existsb (String.eqb (id j)) ids) eqn:Hin;
      cbn; rewrite ?Hin; cbn.
    + split.
      * intros _. repeat split; try reflexivity.
        intros t Ht. unfold Pg.is_due. cbn.
        destruct (Z.leb_spec (now env + 300000) t); [lia | reflexivity].
      * intro Hn. exfalso. apply Hn. apply Hiff. reflexivity.
    + split.
      * intro Hi. apply Hiff in Hi. discriminate.
      * reflexivity.
Qed.

(** X3. [updateLastChecked] paces the journeys it is given: each of them
    gets [last_checked_at = now] and [next_check_at = now + 5 min], so the
    due query does not return it at any instant before that; status and RID
    are not touched, and no other journey changes.  With an empty list it
    sends nothing. *)
Theorem updateLastChecked_paces
        (ids : list string) (env : Env) (w : World) :
  (forall s, fault env Pg.Pool s = false) ->
  exists w',
    JourneyMonitor.updateLastChecked ids env w = (Ok tt, w')
    /\ (ids = [] -> w' = w)
    /\ Pg.alerts (tables w') = Pg.alerts (tables w)
    /\ Pg.outbox (tables w') = Pg.outbox (tables w)
    /\ Forall2
         (fun j j' =>
            (In (id j) ids ->
             id j' = id j
             /\ monitoring_status j' = monitoring_status j
             /\ rid j' = rid j
             /\ last_checked_at j' = Some (now env)
             /\ next_check_at j' = Some (now env + 300000)
             /\ forall t, t < now env + 300000 -> Pg.is_due t j' = false)
            /\ (~ In (id j) ids -> j' = j))
         (Pg.journeys (tables w)) (Pg.journeys (tables w')).
Proof. exact (updateLastChecked_effect ids env w). Qed.

Lemma updateLastChecked_paces_witness :
  exists w',
    JourneyMonitor.updateLastChecked ["j1"] Scenario.env1 Scenario.world1 = (Ok tt, w')
    /\ option_map next_check_at (Scenario.stored_journey1 w') = Some (Some 300600)
    /\ option_map (Pg.is_due 300599) (Scenario.stored_journey1 w') = Some false.
Proof.
  destruct (updateLastChecked_paces ["j1"] Scenario.env1 Scenario.world1
              (fun s => eq_refl))
    as (w' & Hrun & _ & _ & _ & Hall).
  exists w'. split; [exact Hrun |].
  unfold Scenario.stored_journey1.
  cbn in Hall. inversion Hall as [| j j' l l' [Hin _] Hrest Hl Hl']; subst.
  inversion Hrest; subst.
  destruct (Hin (or_introl eq_refl)) as (Hid & _ & _ & _ & Hnext & Hdue).
  cbn. unfold Pg.id_is. rewrite Hid. cbn.
  split.
  - rewrite Hnext. reflexivity.
  - rewrite (Hdue 300599); [reflexivity | reflexivity].
Defined.

Lemma row_for_journey_id (ext : string) (rows : list MonitoredJourney)
      (j : MonitoredJourney) :
  In j rows -> journey_id j = ext ->
  exists r, JourneyRepository.first_or_null
              (Pg.JourneyRows (filter (fun x => String.eqb (journey_id x) ext) rows))
            = Some r.
Proof.
  intros Hin Heq. unfold JourneyRepository.first_or_null. cbn.
  destruct (filter _ rows) as [| r rest] eqn:Hf; [| eauto].
  exfalso.
  assert (Hj : In j (filter (fun x => String.eqb (journey_id x) ext) rows)).
  { apply filter_In. split; [exact Hin |]. apply String.eqb_eq. exact Heq. }
  rewrite Hf in Hj. exact Hj.
Qed.

(** X4. Registering a [journey_id] that already has a row is rejected with
    "Journey already registered for monitoring" before any INSERT, and the
    tables stay as they were; so registering the same journey twice leaves
    exactly one row for it, the one created first. *)
Theorem registerJourney_conflict
        (data : JourneyMonitor.RegisterJourneyData) (env : Env) (w : World) :
  (forall s, fault env Pg.Pool s = false) ->
  ((exists j, In j (Pg.journeys (tables w))
              /\ journey_id j = JourneyMonitor.reg_journey_id data) ->
   exists w',
     JourneyMonitor.registerJourney data env w
     = (Throw (Js.ErrorObj "Journey already registered for monitoring"), w')
     /\ tables w' = tables w
     /\ trace w'
        = trace w
          ++ [SqlCall Pg.Pool
                (Pg.SelectJourneyByJourneyId (JourneyMonitor.reg_journey_id data))])
  /\ ((forall j, In j (Pg.journeys (tables w)) ->
                 journey_id j <> JourneyMonitor.reg_journey_id data) ->
      exists row w1 w2,
        JourneyMonitor.registerJourney data env w = (Ok row, w1)
        /\ JourneyMonitor.registerJourney data env w1
           = (Throw (Js.ErrorObj "Journey already registered for monitoring"), w2)
        /\ tables w2 = tables w1
        /\ filter (fun x => String.eqb (journey_id x)
                                       (JourneyMonitor.reg_journey_id data))
                  (Pg.journeys (tables w2))
           = [row]).
Proof.
  intro Hfault.
  assert (Hdup : forall w0,
             (exists j, In j (Pg.journeys (tables w0))
                        /\ journey_id j = JourneyMonitor.reg_journey_id data) ->
             exists w',
               JourneyMonitor.registerJourney data env w0
               = (Throw (Js.ErrorObj "Journey already registered for monitoring"), w')
               /\ tables w' = tables w0
               /\ trace w'
                  = trace w0
                    ++ [SqlCall Pg.Pool
                          (Pg.SelectJourneyByJourneyId
                             (JourneyMonitor.reg_journey_id data))]).
  { intros w0 (j & Hin & Heq).
    destruct (row_for_journey_id _ _ _ Hin Heq) as [r Hr].
    unfold JourneyMonitor.registerJourney, JourneyRepository.findByJourneyId,
      bind, ret, throw.
    rewrite query_pool by auto. cbn. rewrite Hr.
    eexists. repeat split; reflexivity. }
  split; [apply Hdup |].
  intro Hnew. destruct (no_row_for_journey_id _ _ Hnew) as [Hfilter Hexists].
  assert (Hfirst : exists row w1,
             JourneyMonitor.registerJourney data env w = (Ok row, w1)
             /\ Pg.journeys (tables w1) = Pg.journeys (tables w) ++ [row]
             /\ journey_id row = JourneyMonitor.reg_journey_id data).
  { unfold JourneyMonitor.registerJourney, JourneyRepository.findByJourneyId,
      JourneyRepository.create, JourneyRepository.first_or_null, bind, ret, ask.
    rewrite query_pool by auto. cbn. rewrite Hfilter. cbn.
    rewrite query_pool by auto. cbn. rewrite Hexists. cbn.
    eexists. eexists. repeat split; reflexivity. }
  destruct Hfirst as (row & w1 & Hrun & Hrows & Hext).
  destruct (Hdup w1) as (w2 & Hsecond & Htables & _).
  { exists row. split; [| exact Hext]. rewrite Hrows. apply in_or_app.
    right. left. reflexivity. }
  exists row, w1, w2. split; [exact Hrun |]. split; [exact Hsecond |].
  split; [exact Htables |].
  rewrite Htables, Hrows, filter_app, Hfilter. cbn.
  rewrite Hext, String.eqb_refl. reflexivity.
Qed.

Lemma registerJourney_conflict_witness :
  (exists w',
      JourneyMonitor.registerJourney
        {| JourneyMonitor.reg_user_id := "u1";
           JourneyMonitor.reg_journey_id := "ext-1";
           JourneyMonitor.reg_service_date := "2026-01-15";
           JourneyMonitor.reg_origin_crs := "KGX";
           JourneyMonitor.reg_destination_crs := "EDB";
           JourneyMonitor.reg_scheduled_departure := 1000;
           JourneyMonitor.reg_scheduled_arrival := 100000 |}
        Scenario.env1 Scenario.world1
      = (Throw (Js.ErrorObj "Journey already registered for monitoring"), w')
      /\ tables w' = tables Scenario.world1)
  /\ (exists row w1 w2,
         JourneyMonitor.registerJourney (Scenario.registration 5000)
           Scenario.env1 Scenario.world1 = (Ok row, w1)
         /\ JourneyMonitor.registerJourney (Scenario.registration 5000)
              Scenario.env1 w1
            = (Throw (Js.ErrorObj "Journey already registered for monitoring"), w2)
         /\ tables w2 = tables w1
         /\ filter (fun x => String.eqb (journey_id x) "ext-9")
                   (Pg.journeys (tables w2))
            = [row]).
Proof.
  split.
  - destruct (proj1 (registerJourney_conflict
                       {| JourneyMonitor.reg_user_id := "u1";
                          JourneyMonitor.reg_journey_id := "ext-1";
                          JourneyMonitor.reg_service_date := "2026-01-15";
                          JourneyMonitor.reg_origin_crs := "KGX";
                          JourneyMonitor.reg_destination_crs := "EDB";
                          JourneyMonitor.reg_scheduled_departure := 1000;
                          JourneyMonitor.reg_scheduled_arrival := 100000 |}
                       Scenario.env1 Scenario.world1 (fun s => eq_refl)))
      as (w' & Hrun & Htab & _).
    + exists Scenario.journey1. split; [left; reflexivity | reflexivity].
    + exists w'. split; assumption.
  - apply (proj2 (registerJourney_conflict (Scenario.registration 5000)
                    Scenario.env1 Scenario.world1 (fun s => eq_refl))).
    cbn. intros j [Hj | []]. subst j. discriminate.
Defined.

(** ** The alert repository *)





(** ** The claim trigger, in batch *)

Lemma triggerClaim_result (this : ClaimTrigger.t) (alert : DelayAlertInput) (env : Env) :
  exists r,
    delayAlertId r = in_id alert
    /\ forall w, exists w',
        ClaimTrigger.triggerClaim this alert env w = (Ok r, w')
        /\ tables w' = tables w /\ tx w' = tx w.
Proof.
  unfold ClaimTrigger.triggerClaim, bind, record_call, ask, ret.
  destruct (Js.truthy_opt_bool (in_claim_triggered alert)).
  { eexists. split; [| intro w; eexists; split; [reflexivity | split; reflexivity]].
    reflexivity. }
  destruct (in_delay_minutes alert <? ClaimTrigger.thresholdMinutes this).
  { eexists. split; [| intro w; eexists; split; [reflexivity | split; reflexivity]].
    reflexivity. }
  unfold try_catch, bind, record_call, lift_remote, ret, throw.
  destruct (eligibilityClient_triggerClaim env _) as [thrown | response].
  - eexists. split; [| intro w; eexists; split; [reflexivity | split; reflexivity]].
    reflexivity.
  - eexists. split; [| intro w; eexists; split; [reflexivity | split; reflexivity]].
    unfold ClaimTrigger.classify.
    destruct (negb _ && _); [reflexivity |].
    destruct (api_eligible response) as [[|] |];
      try destruct (negb _); reflexivity.
Qed.

(** X6. [triggerClaimsBatch] never throws and answers for every alert, in
    order: the i-th result is the one [triggerClaim] gives for the i-th
    alert on its own (an oracle failure for one alert becomes that alert's
    NETWORK_ERROR result and the following alerts are still processed);
    the database is not touched. *)
Theorem triggerClaimsBatch_answers_each
        (this : ClaimTrigger.t) (alerts : list DelayAlertInput)
        (env : Env) (w : World) :
  exists results w',
    ClaimTrigger.triggerClaimsBatch this alerts env w = (Ok results, w')
    /\ Forall2
         (fun alert r =>
            delayAlertId r = in_id alert
            /\ forall w0, fst (ClaimTrigger.triggerClaim this alert env w0) = Ok r)
         alerts results
    /\ tables w' = tables w
    /\ tx w' = tx w.
Proof.
  revert w. induction alerts as [| alert rest IH]; intro w.
  - exists [], w. repeat split; constructor.
  - destruct (triggerClaim_result this alert env) as (r & Hid & Hr).
    destruct (Hr w) as (w1 & Hrun & Ht1 & Hx1).
    destruct (IH w1) as (rs & w2 & Hrest & Hall & Ht2 & Hx2).
    exists (r :: rs), w2.
    split.
    { cbn [ClaimTrigger.triggerClaimsBatch]. unfold bind.
      rewrite Hrun, Hrest. reflexivity. }
    split; [| split; congruence].
    constructor; [| exact Hall].
    split; [exact Hid |]. intro w0.
    destruct (Hr w0) as (w0' & Hrun0 & _). now rewrite Hrun0.
Qed.

(** ** The due query *)

Lemma insert_due_perm (j : MonitoredJourney) (l : list MonitoredJourney) :
  Permutation (Pg.insert_due j l) (j :: l).
Proof.
  induction l as [| x l IH]; cbn; [reflexivity |].
  destruct (Pg.due_key j <=? Pg.due_key x); [reflexivity |].
  rewrite IH. apply perm_swap.
Qed.

Lemma order_by_next_check_perm (l : list MonitoredJourney) :
  Permutation (Pg.order_by_next_check l) l.
Proof.
  unfold Pg.order_by_next_check.
  induction l as [| x l IH]; cbn; [reflexivity |].
  rewrite insert_due_perm. now rewrite IH.
Qed.

Lemma insert_due_sorted (j : MonitoredJourney) (l : list MonitoredJourney) :
  StronglySorted due_le l -> StronglySorted due_le (Pg.insert_due j l).
Proof.
  induction l as [| x l IH]; cbn; intro Hs.
  - constructor; constructor.
  - apply StronglySorted_inv in Hs. destruct Hs as [Hl Hx].
    destruct (Z.leb_spec (Pg.due_key j) (Pg.due_key x)).
    + constructor; [constructor; assumption |].
      constructor; [exact H |].
      eapply Forall_impl; [| exact Hx]. unfold due_le. intros a Ha. lia.
    + constructor; [apply IH; exact Hl |].
      eapply Permutation_Forall; [symmetry; apply insert_due_perm |].
      constructor; [unfold due_le; lia | exact Hx].
Qed.

Lemma order_by_next_check_sorted (l : list MonitoredJourney) :
  StronglySorted due_le (Pg.order_by_next_check l).
Proof.
  unfold Pg.order_by_next_check.
  induction l as [| x l IH]; cbn; [constructor |].
  apply insert_due_sorted. exact IH.
Qed.

Lemma In_firstn {A : Type} (n : nat) (l : list A) (x : A) :
  In x (firstn n l) -> In x l.
Proof.
  revert n. induction l as [| y l IH]; intros [| n]; cbn; try tauto.
  intros [H | H]; [left; exact H | right; eapply IH; exact H].
Qed.

Lemma StronglySorted_firstn {A : Type} (R : A -> A -> Prop) (n : nat) (l : list A) :
  StronglySorted R l -> StronglySorted R (firstn n l).
Proof.
  revert n. induction l as [| x l IH]; intros n Hs.
  - destruct n; constructor.
  - destruct n; cbn; [constructor |].
    apply StronglySorted_inv in Hs. destruct Hs as [Hl Hx].
    constructor; [apply IH; exact Hl |].
    rewrite Forall_forall in *. intros y Hy. apply Hx.
    eapply In_firstn. exact Hy.
Qed.

Lemma StronglySorted_weaken {A : Type} (R R' : A -> A -> Prop) (l : list A) :
  (forall a b, R a b -> R' a b) -> StronglySorted R l -> StronglySorted R' l.
Proof.
  intros Himp Hs. induction Hs as [| x l Hl IH Hx]; constructor; auto.
  eapply Forall_impl; [| exact Hx]. intros a. apply Himp.
Qed.

(** X7. The due query returns only stored journeys whose [next_check_at] is
    set and not after the check time and whose status is [active] or
    [pending_rid]; it returns them by ascending [next_check_at]; it returns
    at most [limit] of them (100 by default); and when no more than
    [limit] journeys are due it returns every one of them.  It changes no
    row.  (For a [limit] that is not negative: the server rejects a
    negative LIMIT.) *)
Theorem findJourneysDueForCheck_spec
        (limit at_time : option Z) (env : Env) (w : World) :
  let checkTime := Js.nullish at_time (now env) in
  let bound := Z.to_nat (Js.nullish limit 100) in
  0 <= Js.nullish limit 100 ->
  fault env Pg.Pool (Pg.SelectJourneysDue checkTime (Js.nullish limit 100)) = false ->
  exists rows w',
    JourneyRepository.findJourneysDueForCheck limit at_time env w = (Ok rows, w')
    /\ tables w' = tables w
    /\ (List.length rows <= bound)%nat
    /\ (forall j, In j rows ->
                  In j (Pg.journeys (tables w))
                  /\ (monitoring_status j = active \/ monitoring_status j = pending_rid)
                  /\ exists t, next_check_at j = Some t /\ t <= checkTime)
    /\ StronglySorted
         (fun a b => forall ta tb,
              next_check_at a = Some ta -> next_check_at b = Some tb -> ta <= tb)
         rows
    /\ ((List.length (filter (Pg.is_due checkTime) (Pg.journeys (tables w))) <= bound)%nat ->
        forall j, In j (Pg.journeys (tables w)) ->
                  Pg.is_due checkTime j = true -> In j rows).
Proof.
  intros checkTime bound _ Hfault.
  unfold JourneyRepository.findJourneysDueForCheck, bind, ret, ask.
  fold checkTime. rewrite query_pool by auto.
  cbn -[Pg.order_by_next_check firstn].
  rewrite map_id. fold bound.
  eexists. eexists. split; [reflexivity |].
  cbn -[Pg.order_by_next_check firstn].
  split; [destruct (tables w); reflexivity |].
  split; [apply firstn_le_length |].
  split; [| split].
  - intros j Hj. apply In_firstn in Hj.
    apply (Permutation_in _ (order_by_next_check_perm _)) in Hj.
    apply filter_In in Hj. destruct Hj as [Hin Hdue].
    split; [exact Hin |].
    unfold Pg.is_due in Hdue.
    destruct (next_check_at j) as [t |]; [| discriminate].
    apply andb_true_iff in Hdue. destruct Hdue as [Ht Hst].
    split.
    + destruct (monitoring_status j); cbn in Hst; try discriminate; auto.
    + exists t. split; [reflexivity | apply Z.leb_le; exact Ht].
  - apply StronglySorted_firstn.
    eapply StronglySorted_weaken; [| apply order_by_next_check_sorted].
    intros a b Hab ta tb Ha Hb. unfold due_le, Pg.due_key in Hab.
    rewrite Ha, Hb in Hab. exact Hab.
  - intros Hfew j Hin Hdue.
    rewrite firstn_all2.
    + apply (Permutation_in _ (Permutation_sym (order_by_next_check_perm _))).
      apply filter_In. split; assumption.
    + rewrite (Permutation_length (order_by_next_check_perm _)). exact Hfew.
Qed.

Lemma findJourneysDueForCheck_spec_witness :
  exists rows w',
    JourneyRepository.findJourneysDueForCheck None None Scenario.env1 Scenario.world1
    = (Ok rows, w')
    /\ (List.length rows <= 100)%nat
    /\ In Scenario.journey1 rows.
Proof.
  assert (Hlimit : 0 <= Js.nullish None 100) by (cbn; lia).
  destruct (findJourneysDueForCheck_spec None None Scenario.env1 Scenario.world1
              Hlimit eq_refl)
    as (rows & w' & Hrun & _ & Hlen & _ & _ & Hall).
  exists rows, w'. split; [exact Hrun |]. split; [exact Hlen |].
  apply Hall.
  - cbn. lia.
  - left. reflexivity.
  - reflexivity.
Defined.

(** ** The detection cycle, step by step *)



(** X9. A per-journey transaction that throws, at whatever statement and
    for whatever reason, is discarded: the iteration issues ROLLBACK and
    ends normally, the committed alerts and outbox events are exactly those
    from before the iteration, and no transaction is left open.  (The
    journeys table is whatever the body left: it is written on the
    pool.) *)
Theorem failed_commit_is_discarded
        (this : DelayTrackerService.t) (correlationId : string)
        (js : list MonitoredJourney) (result : DelayResult)
        (journey : MonitoredJourney) (env : Env) (w : World)
        (e : Js.Thrown) (w1 : World) :
  fault env Pg.Client Pg.Rollback = false ->
  (negb (exceedsThreshold result) && negb (isCancelled result)) = false ->
  find (fun j => String.eqb (id j) (journeyId result)) js = Some journey ->
  DelayTrackerService.transactionBody this correlationId journey result env
    (snd (DelayTrackerService.incr_delaysDetected env w))
  = (Throw e, w1) ->
  exists w',
    DelayTrackerService.processResult this correlationId js result env w = (Ok tt, w')
    /\ Pg.alerts (tables w') = Pg.alerts (tables w)
    /\ Pg.outbox (tables w') = Pg.outbox (tables w)
    /\ tx w' = Pg.NoTx
    /\ Pg.journeys (tables w') = Pg.journeys (tables w1).
Proof.
  intros Hf Hcond Hjs Hbody.
  destruct (processResult_rolls_back this correlationId js result journey env w e w1
              Hf Hcond Hjs Hbody)
    as (w' & Hrun & [Ha Ho] & Htx & Hj).
  exists w'. repeat split; assumption.
Qed.

Lemma failed_commit_is_discarded_witness :
  exists w',
    DelayTrackerService.processResult Scenario.service "cid" [Scenario.journey1]
      (Samples.result_for 25 false) Scenario.env_outbox_down Scenario.world1
    = (Ok tt, w')
    /\ Pg.alerts (tables w') = []
    /\ Pg.outbox (tables w') = []
    /\ tx w' = Pg.NoTx.
Proof.
  destruct (failed_commit_is_discarded Scenario.service "cid" [Scenario.journey1]
              (Samples.result_for 25 false) Scenario.journey1
              Scenario.env_outbox_down Scenario.world1
              (Js.ErrorObj "DB error")
              (snd (DelayTrackerService.transactionBody Scenario.service "cid"
                      Scenario.journey1 (Samples.result_for 25 false)
                      Scenario.env_outbox_down
                      (snd (DelayTrackerService.incr_delaysDetected
                              Scenario.env_outbox_down Scenario.world1))))
              eq_refl eq_refl eq_refl)
    as (w' & Hrun & Ha & Ho & Htx & _).
  - vm_compute. reflexivity.
  - exists w'. repeat split; assumption.
Defined.


Lemma order_by_next_check_nil (l : list MonitoredJourney) :
  l = [] -> Pg.order_by_next_check l = [].
Proof. intros ->. reflexivity. Qed.

(** X11. When no journey is due, the cycle asks the database once (the due
    query), calls no remote service, changes no row and reports zero
    journeys, zero delays and zero claims. *)
Theorem runDetectionCycle_nothing_due
        (this : DelayTrackerService.t) (env : Env) (w : World) :
  filter (Pg.is_due (now env)) (Pg.journeys (tables w)) = [] ->
  fault env Pg.Pool (Pg.SelectJourneysDue (now env) 100) = false ->
  exists w',
    DelayTrackerService.runDetectionCycle this env w
    = (Ok {| DelayTrackerService.journeysChecked := 0;
             DelayTrackerService.metric_delaysDetected := 0;
             DelayTrackerService.metric_claimsTriggered := 0;
             DelayTrackerService.durationMs := 0 |}, w')
    /\ tables w' = tables w
    /\ tx w' = tx w
    /\ trace w' = trace w ++ [SqlCall Pg.Pool (Pg.SelectJourneysDue (now env) 100)].
Proof.
  intros Hnone Hfault.
  unfold DelayTrackerService.runDetectionCycle, DelayTrackerService.reset_locals,
    JourneyMonitor.getJourneysDueForCheck, JourneyRepository.findJourneysDueForCheck,
    randomUUID, bind, ret, ask.
  cbn [Js.nullish]. rewrite query_pool by auto.
  cbn -[Pg.order_by_next_check firstn]. rewrite Hnone. cbn.
  eexists. split; [reflexivity |]. cbn.
  split; [destruct (tables w); reflexivity |]. split; reflexivity.
Qed.

Lemma runDetectionCycle_nothing_due_witness :
  exists w',
    DelayTrackerService.runDetectionCycle Scenario.service Scenario.env1
      (Scenario.world_of [])
    = (Ok {| DelayTrackerService.journeysChecked := 0;
             DelayTrackerService.metric_delaysDetected := 0;
             DelayTrackerService.metric_claimsTriggered := 0;
             DelayTrackerService.durationMs := 0 |}, w')
    /\ tables w' = tables (Scenario.world_of [])
    /\ tx w' = Pg.NoTx
    /\ trace w' = [SqlCall Pg.Pool (Pg.SelectJourneysDue 600 100)].
Proof.
  exact (runDetectionCycle_nothing_due Scenario.service Scenario.env1
           (Scenario.world_of []) eq_refl eq_refl).
Defined.



Lemma quiet_loop (this : DelayTrackerService.t) (correlationId : string)
      (js : list MonitoredJourney) (results : list DelayResult) (env : Env) (w : World) :
  Forall quiet results ->
  for_each results (DelayTrackerService.processResult this correlationId js) env w
  = (Ok tt, w).
Proof.
  intro H. induction H as [| r rs [He Hc] Hrs IH]; cbn; [reflexivity |].
  unfold bind. unfold DelayTrackerService.processResult at 1.
  rewrite He, Hc. cbn. exact IH.
Qed.

Lemma mapDelayData_keeps (P : Z -> bool -> Prop) (js : list MonitoredJourney)
      (ds : list DelayDetector.DelayData) :
  Forall (fun d => P (DelayDetector.total_delay_minutes d) (DelayDetector.cancelled_flag d)) ds ->
  Forall (fun d => P (DelayDetector.total_delay_minutes d) (DelayDetector.cancelled_flag d))
         (DelayTrackerService.mapDelayData js ds).
Proof.
  intro H. unfold DelayTrackerService.mapDelayData.
  destruct js as [| j [| j' js']]; try exact H.
  destruct ds as [| d [| d' ds']]; try exact H.
  inversion H; subst. constructor; [cbn; assumption | constructor].
Qed.

Lemma classify_quiet (this : DelayTrackerService.t) (now : Z)
      (js : list MonitoredJourney) (ds : list DelayDetector.DelayData) :
  Forall (fun d =>
            DelayDetector.total_delay_minutes d
            < DelayDetector.thresholdMinutes (DelayTrackerService.delayDetector this)
            /\ DelayDetector.cancelled_flag d = false) ds ->
  Forall quiet (DelayTrackerService.classify this now js ds).
Proof.
  intro H.
  apply (mapDelayData_keeps
           (fun m c =>
              m < DelayDetector.thresholdMinutes (DelayTrackerService.delayDetector this)
              /\ c = false) js) in H.
  unfold DelayTrackerService.classify. rewrite detectDelaysBatch_map.
  apply Forall_forall. intros r Hr. apply in_map_iff in Hr.
  destruct Hr as (jd & <- & _).
  destruct (detectOne_cases (DelayTrackerService.delayDetector this) now
              (DelayTrackerService.mapDelayData js ds) jd)
    as [[Hnf _] | (d & Hin & _ & _ & Hdet)].
  - rewrite Hnf. split; reflexivity.
  - rewrite Hdet. rewrite Forall_forall in H. destruct (H d Hin) as [Hlt Hc].
    split; cbn; [| exact Hc].
    unfold DelayDetector.meetsThreshold. rewrite Z.geb_leb. apply Z.leb_gt. exact Hlt.
Qed.

(** X13. When the upstream answers and every record it returns is below
    the detector's threshold and not a cancellation, the detection phase
    writes nothing: no alert, no status change, no event, no claim; the only
    call is the one upstream request.  (Journeys with no matching record are
    covered: their result is quiet too.) *)
Theorem detectionPhase_ignores_minor_delays
        (this : DelayTrackerService.t) (correlationId : string)
        (js : list MonitoredJourney) (raw : DarwinResponse) (env : Env) (w : World) :
  js <> [] ->
  darwinClient_getDelaysByRids env (map (fun j => Js.nullish (rid j) "") js) = inr raw ->
  (forall d, In d (DelayTrackerService.responseData raw) ->
             DelayDetector.total_delay_minutes (DelayTrackerService.toDelayData d)
             < DelayDetector.thresholdMinutes (DelayTrackerService.delayDetector this)
             /\ DelayDetector.cancelled_flag (DelayTrackerService.toDelayData d) = false) ->
  exists w',
    DelayTrackerService.detectionPhase this correlationId js env w = (Ok true, w')
    /\ tables w' = tables w
    /\ tx w' = tx w
    /\ locals w' = locals w
    /\ trace w'
       = trace w ++ [DarwinCall (map (fun j => Js.nullish (rid j) "") js)].
Proof.
  intros Hjs Hraw Hminor.
  unfold DelayTrackerService.detectionPhase.
  destruct js as [| j js']; [contradiction |].
  unfold bind at 1. unfold ask at 1. unfold bind at 1.
  unfold try_catch, bind, record_call, lift_remote, ret.
  rewrite Hraw. cbv iota beta.
  rewrite quiet_loop.
  - eexists. split; [reflexivity |]. cbn. repeat split; reflexivity.
  - apply classify_quiet. apply Forall_forall. intros d Hd.
    apply in_map_iff in Hd. destruct Hd as (d0 & <- & Hd0). apply Hminor. exact Hd0.
Qed.

Lemma detectionPhase_ignores_minor_delays_witness :
  exists w',
    DelayTrackerService.detectionPhase Scenario.service "cid" [Scenario.journey1]
      (Scenario.env_with Scenario.no_fault
         [Scenario.upstream_record "202601150800123" 14 false]
         (inr Scenario.claimTriggerSuccess))
      Scenario.world1
    = (Ok true, w')
    /\ tables w' = tables Scenario.world1
    /\ tx w' = Pg.NoTx
    /\ locals w' = locals Scenario.world1
    /\ trace w' = [DarwinCall ["202601150800123"]].
Proof.
  apply (detectionPhase_ignores_minor_delays Scenario.service "cid" [Scenario.journey1]
           (DarwinArray [Scenario.upstream_record "202601150800123" 14 false])).
  - discriminate.
  - reflexivity.
  - cbn. intros d [Hd | []]. subst d. cbn. split; [lia | reflexivity].
Defined.

(** X14. When the upstream call fails, the detection phase creates nothing
    (alerts and events are unchanged, no transaction is opened), paces the
    journeys it asked about ([next_check_at = now + 5 min]) and makes the
    cycle return at once. *)
Theorem detectionPhase_upstream_failure
        (this : DelayTrackerService.t) (correlationId : string)
        (js : list MonitoredJourney) (e : Js.Thrown) (env : Env) (w : World) :
  js <> [] ->
  darwinClient_getDelaysByRids env (map (fun j => Js.nullish (rid j) "") js) = inl e ->
  (forall s, fault env Pg.Pool s = false) ->
  exists w',
    DelayTrackerService.detectionPhase this correlationId js env w = (Ok false, w')
    /\ Pg.alerts (tables w') = Pg.alerts (tables w)
    /\ Pg.outbox (tables w') = Pg.outbox (tables w)
    /\ tx w' = tx w
    /\ Forall2
         (fun j j' =>
            (In (id j) (map id js) ->
             id j' = id j
             /\ monitoring_status j' = monitoring_status j
             /\ next_check_at j' = Some (now env + 300000))
            /\ (~ In (id j) (map id js) -> j' = j))
         (Pg.journeys (tables w)) (Pg.journeys (tables w')).
Proof.
  intros Hjs Hraw Hfault.
  unfold DelayTrackerService.detectionPhase.
  destruct js as [| j js']; [contradiction |].
  unfold bind at 1. unfold ask at 1. unfold bind at 1.
  unfold try_catch. unfold bind at 1. unfold record_call at 1.
  unfold bind at 1. unfold lift_remote. rewrite Hraw. unfold throw.
  cbv iota beta.
  match goal with
  | |- context [JourneyMonitor.updateLastChecked ?ids] =>
      destruct (updateLastChecked_effect ids env
                  (set_trace w (trace w ++
                     [DarwinCall (map (fun j0 => Js.nullish (rid j0) "") (j :: js'))]))
                  Hfault)
        as (w' & Hrun & _ & Ha & Ho & Hall)
  end.
  unfold bind. rewrite Hrun. cbn.
  exists w'. split; [reflexivity |]. cbn in Ha, Ho, Hall.
  split; [exact Ha |]. split; [exact Ho |].
  split.
  - revert Hrun.
    unfold JourneyMonitor.updateLastChecked, JourneyRepository.updateLastChecked,
      bind, ret, ask.
    cbn [map]. rewrite query_pool by auto. cbn.
    rewrite query_pool by auto. cbn.
    intro Hrun. injection Hrun as <-. reflexivity.
  - eapply Forall2_impl; [| exact Hall].
    intros a b [Hin Hout]. split; [| exact Hout].
    intro Hi. destruct (Hin Hi) as (H1 & H2 & _ & _ & H5 & _). auto.
Qed.

Lemma detectionPhase_upstream_failure_witness :
  exists w',
    DelayTrackerService.detectionPhase Scenario.service "cid" [Scenario.journey1]
      Samples.env_upstream_down Scenario.world1
    = (Ok false, w')
    /\ Pg.alerts (tables w') = []
    /\ Pg.outbox (tables w') = []
    /\ option_map next_check_at (Scenario.stored_journey1 w') = Some (Some 300600).
Proof.
  destruct (detectionPhase_upstream_failure Scenario.service "cid" [Scenario.journey1]
              (Js.ErrorObj "connect ECONNREFUSED") Samples.env_upstream_down
              Scenario.world1 ltac:(discriminate) eq_refl (fun s => eq_refl))
    as (w' & Hrun & Ha & Ho & _ & Hall).
  exists w'. split; [exact Hrun |]. split; [exact Ha |]. split; [exact Ho |].
  unfold Scenario.stored_journey1.
  cbn in Hall. inversion Hall as [| j j' l l' [Hin _] Hrest Hl Hl']; subst.
  inversion Hrest; subst.
  destruct (Hin (or_introl eq_refl)) as (Hid & _ & Hnext).
  cbn. unfold Pg.id_is. rewrite Hid. cbn. rewrite Hnext. reflexivity.
Defined.

Lemma find_patched_single (k : string) (sets : Pg.JourneySets)
      (rows : list MonitoredJourney) :
  find (Pg.id_is k)
       (map (fun r => if Pg.id_in [k] r then Pg.patch_journey sets r else r) rows)
  = option_map (Pg.patch_journey sets) (find (Pg.id_is k) rows).
Proof.
  rewrite <- find_update_where. f_equal. apply map_ext. intro j.
  unfold Pg.id_in, Pg.id_is. cbn. rewrite orb_false_r. reflexivity.
Qed.

Lemma paced_single (k : string) (stored : MonitoredJourney) (env : Env) (w : World) :
  (forall s, fault env Pg.Pool s = false) ->
  find (Pg.id_is k) (Pg.journeys (tables w)) = Some stored ->
  exists w' j',
    JourneyMonitor.updateLastChecked [k] env w = (Ok tt, w')
    /\ find (Pg.id_is k) (Pg.journeys (tables w')) = Some j'
    /\ Pg.alerts (tables w') = Pg.alerts (tables w)
    /\ Pg.outbox (tables w') = Pg.outbox (tables w)
    /\ monitoring_status j' = monitoring_status stored
    /\ rid j' = rid stored
    /\ last_checked_at j' = Some (now env)
    /\ next_check_at j' = Some (now env + 300000).
Proof.
  intros Hfault Hfind.
  unfold JourneyMonitor.updateLastChecked, JourneyRepository.updateLastChecked,
    bind, ret, ask.
  rewrite query_pool by auto. cbn -[Pg.id_in].
  rewrite query_pool by auto. cbn -[Pg.id_in].
  eexists. eexists. split; [reflexivity |]. cbn -[Pg.id_in].
  rewrite !find_patched_single, Hfind. cbn.
  split; [reflexivity |]. repeat split; reflexivity.
Qed.

(** X15. RID resolution of one pending journey (a stored row, healthy
    pool).  If the matcher is configured and answers with a journey that has
    a segment carrying a RID, the journey becomes [active] with the first
    such RID and is due at once ([next_check_at = now]).  In every other
    case (no matcher configured, the matcher throws, answers 404/null, has
    no segments, or no segment has a RID) the step still ends normally, the
    journey keeps its status and RID, and it is paced to [now + 5 min]. *)
Theorem resolveStep_outcomes
        (journey stored : MonitoredJourney) (env : Env) (w : World) :
  find (Pg.id_is (id journey)) (Pg.journeys (tables w)) = Some stored ->
  (forall s, fault env Pg.Pool s = false) ->
  exists w' j',
    DelayTrackerService.resolveStep journey env w = (Ok tt, w')
    /\ find (Pg.id_is (id journey)) (Pg.journeys (tables w')) = Some j'
    /\ Pg.alerts (tables w') = Pg.alerts (tables w)
    /\ Pg.outbox (tables w') = Pg.outbox (tables w)
    /\ match matcher_rid env (journey_id journey) with
       | Some r =>
           monitoring_status j' = active
           /\ rid j' = Some r
           /\ next_check_at j' = Some (now env)
       | None =>
           monitoring_status j' = monitoring_status stored
           /\ rid j' = rid stored
           /\ last_checked_at j' = Some (now env)
           /\ next_check_at j' = Some (now env + 300000)
       end.
Proof.
  intros Hfind Hfault.
  assert (Hpace : forall w0, tables w0 = tables w ->
            exists w' j',
              JourneyMonitor.updateLastChecked [id journey] env w0 = (Ok tt, w')
              /\ find (Pg.id_is (id journey)) (Pg.journeys (tables w')) = Some j'
              /\ Pg.alerts (tables w') = Pg.alerts (tables w)
              /\ Pg.outbox (tables w') = Pg.outbox (tables w)
              /\ monitoring_status j' = monitoring_status stored
              /\ rid j' = rid stored
              /\ last_checked_at j' = Some (now env)
              /\ next_check_at j' = Some (now env + 300000)).
  { intros w0 Ht.
    destruct (paced_single (id journey) stored env w0 Hfault)
      as (w' & j' & Hrun & Hf & Ha & Ho & Hrest).
    - rewrite Ht. exact Hfind.
    - rewrite Ht in Ha, Ho. exists w', j'. auto. }
  unfold DelayTrackerService.resolveStep, matcher_rid.
  unfold bind at 1. unfold ask at 1. unfold try_catch.
  destruct (journeyMatcherClient env) as [getJourneyWithSegments |].
  2:{ destruct (Hpace w eq_refl) as (w' & j' & Hrun & Hf & Ha & Ho & Hrest).
      rewrite Hrun. exists w', j'. auto. }
  unfold bind at 1. unfold record_call at 1. unfold bind at 1. unfold lift_remote.
  set (w0 := set_trace w (trace w ++ [MatcherCall (journey_id journey)])).
  assert (Ht0 : tables w0 = tables w) by reflexivity.
  destruct (getJourneyWithSegments (journey_id journey)) as [e | [jws |]];
    unfold throw, ret; cbv iota beta.
  - destruct (Hpace w0 Ht0) as (w' & j' & Hrun & Hf & Ha & Ho & Hrest).
    rewrite Hrun. exists w', j'. auto.
  - destruct (segments jws) as [| seg segs] eqn:Hsegs.
    + destruct (Hpace w0 Ht0) as (w' & j' & Hrun & Hf & Ha & Ho & Hrest).
      rewrite Hrun. exists w', j'. cbn. auto.
    + destruct (JourneyMatcherClient.extractRidsFromSegments (seg :: segs))
        as [| r rs] eqn:Hrids.
      * destruct (Hpace w0 Ht0) as (w' & j' & Hrun & Hf & Ha & Ho & Hrest).
        rewrite Hrun. exists w', j'. cbn. auto.
      * pose proof (resolveRid_cases (id journey) r env w0 Hfault) as Hres.
        rewrite Ht0, Hfind in Hres.
        destruct Hres as (w' & j' & Hrun & Hf & Hs & Hr & Hn & _ & _).
        rewrite Hrun. exists w', j'. split; [reflexivity |]. split; [exact Hf |].
        cbn [hd_error].
        assert (Hao : Pg.alerts (tables w') = Pg.alerts (tables w)
                      /\ Pg.outbox (tables w') = Pg.outbox (tables w)).
        { revert Hrun.
          unfold JourneyMonitor.resolveRid, JourneyRepository.findById,
            JourneyRepository.update, bind, ret, throw, ask.
          rewrite query_pool by auto. cbn.
          rewrite first_or_null_find, Hfind.
          rewrite query_pool by auto. cbn.
          rewrite query_pool by auto. cbn.
          intro Hrun. injection Hrun as <-. split; reflexivity. }
        destruct Hao. auto.
  - destruct (Hpace w0 Ht0) as (w' & j' & Hrun & Hf & Ha & Ho & Hrest).
    rewrite Hrun. exists w', j'. auto.
Qed.

Lemma resolveStep_outcomes_witness :
  exists w' j',
    DelayTrackerService.resolveStep Samples.pending_journey
      (Samples.env_matcher (inr (Some Samples.two_legs)))
      (Scenario.world_of [Samples.pending_journey])
    = (Ok tt, w')
    /\ find (Pg.id_is "j2") (Pg.journeys (tables w')) = Some j'
    /\ monitoring_status j' = active
    /\ rid j' = Some "202601150900456"
    /\ next_check_at j' = Some 600.
Proof.
  destruct (resolveStep_outcomes Samples.pending_journey Samples.pending_journey
              (Samples.env_matcher (inr (Some Samples.two_legs)))
              (Scenario.world_of [Samples.pending_journey])
              eq_refl (fun s => eq_refl))
    as (w' & j' & Hrun & Hf & _ & _ & Hs & Hr & Hn).
  exists w', j'. auto.
Defined.

(** ** The per-journey commit, statement by statement *)








(** A statement on the pool. *)
Lemma pool_statement (st : Pg.Stmt) (t' : Pg.Tables) (rows : Pg.Rows)
      (env : Env) (w : World) :
  fault env Pg.Pool st = false ->
  Pg.is_control st = false ->
  Pg.run (uuid_of_nat (next_uuid w)) (now env) st (tables w) = inr (t', rows) ->
  query Pg.Pool st env w
  = (Ok rows,
     {| tables := t';
        tx := tx w;
        next_uuid := if Pg.is_insert st then S (next_uuid w) else next_uuid w;
        trace := trace w ++ [SqlCall Pg.Pool st];
        locals := locals w |}).
Proof.
  intros Hf Hc Hrun. rewrite query_pool by assumption. cbv zeta. rewrite Hrun.
  reflexivity.
Qed.




















(** ** The journey matcher's helpers *)


(** ** Registration through the service *)

Lemma registerJourney_duplicate
      (data : JourneyMonitor.RegisterJourneyData) (env : Env) (w : World) :
  (forall s, Pg.journey_only s = true -> fault env Pg.Pool s = false) ->
  (exists j, In j (Pg.journeys (tables w))
             /\ journey_id j = JourneyMonitor.reg_journey_id data) ->
  JourneyMonitor.registerJourney data env w
  = (Throw (Js.ErrorObj "Journey already registered for monitoring"),
     {| tables := tables w; tx := tx w; next_uuid := next_uuid w;
        trace := trace w
                 ++ [SqlCall Pg.Pool
                       (Pg.SelectJourneyByJourneyId
                          (JourneyMonitor.reg_journey_id data))];
        locals := locals w |}).
Proof.
  intros Hfault (j & Hin & Heq).
  destruct (row_for_journey_id _ _ _ Hin Heq) as [r Hr].
  unfold JourneyMonitor.registerJourney, JourneyRepository.findByJourneyId,
    bind, ret, throw.
  erewrite pool_statement by first [apply Hfault; reflexivity | reflexivity].
  cbn [Pg.is_insert]. rewrite Hr. destruct (tables w); reflexivity.
Qed.

Lemma registerJourney_inserts
      (data : JourneyMonitor.RegisterJourneyData) (env : Env) (w : World) :
  (forall s, Pg.journey_only s = true -> fault env Pg.Pool s = false) ->
  (forall j, In j (Pg.journeys (tables w)) ->
             journey_id j <> JourneyMonitor.reg_journey_id data) ->
  exists row calls,
    JourneyMonitor.registerJourney data env w
    = (Ok row,
       {| tables := Pg.with_journeys (tables w) (Pg.journeys (tables w) ++ [row]);
          tx := tx w;
          next_uuid := S (next_uuid w);
          trace := trace w ++ calls;
          locals := locals w |})
    /\ id row = uuid_of_nat (next_uuid w)
    /\ user_id row = JourneyMonitor.reg_user_id data
    /\ journey_id row = JourneyMonitor.reg_journey_id data
    /\ rid row = None
    /\ monitoring_status row = pending_rid
    /\ forallb is_sql_call calls = true.
Proof.
  intros Hfault Hnew. destruct (no_row_for_journey_id _ _ Hnew) as [Hfilter Hexists].
  unfold JourneyMonitor.registerJourney, JourneyRepository.findByJourneyId,
    JourneyRepository.create, JourneyRepository.first_or_null, bind, ret, ask.
  erewrite pool_statement by first [apply Hfault; reflexivity | reflexivity].
  cbn [Pg.is_insert JourneyRepository.journey_rows]. rewrite Hfilter.
  cbn [queryClient Js.nullish].
  erewrite pool_statement;
    [| apply Hfault; reflexivity | reflexivity
     | cbn [tables Pg.run journey_id]; rewrite Hexists; reflexivity ].
  cbn [JourneyRepository.journey_rows JourneyRepository.mapRow Pg.is_insert
       tables tx next_uuid trace locals].
  eexists. eexists. split.
  - rewrite <- app_assoc. reflexivity.
  - cbn. repeat split; reflexivity.
Qed.

(** X19. Registration through the service.  A journey that is not yet
    monitored is stored in [pending_rid] under the member values chosen
    camelCase first, and one [journey.monitoring_started] event is written
    for it, whose aggregate is the new row; alerts are untouched.  A journey
    that is already monitored is refused, and then nothing is written: no
    row and no event. *)
Theorem registerJourney_announces
        (data : DelayTrackerService.RegisterJourneyData) (env : Env) (w : World) :
  (forall s, fault env Pg.Pool s = false) ->
  let ext := DelayTrackerService.chosen (DelayTrackerService.rd_journeyId data) in
  ((forall j, In j (Pg.journeys (tables w)) -> journey_id j <> ext) ->
   exists row ev w',
     DelayTrackerService.registerJourney data env w = (Ok row, w')
     /\ Pg.journeys (tables w') = Pg.journeys (tables w) ++ [row]
     /\ journey_id row = ext
     /\ user_id row
        = DelayTrackerService.chosen (DelayTrackerService.rd_userId data)
     /\ monitoring_status row = pending_rid
     /\ rid row = None
     /\ Pg.outbox (tables w') = Pg.outbox (tables w) ++ [ev]
     /\ event_type ev = "journey.monitoring_started"
     /\ aggregate_type ev = "monitored_journey"
     /\ aggregate_id ev = id row
     /\ status ev = ob_pending
     /\ Pg.alerts (tables w') = Pg.alerts (tables w))
  /\ ((exists j, In j (Pg.journeys (tables w)) /\ journey_id j = ext) ->
      exists w',
        DelayTrackerService.registerJourney data env w
        = (Throw (Js.ErrorObj "Journey already registered for monitoring"), w')
        /\ tables w' = tables w).
Proof.
  intros Hfault ext. split.
  - intro Hnew.
    unfold DelayTrackerService.registerJourney. cbv zeta.
    match goal with
    | |- context [JourneyMonitor.registerJourney ?d] =>
        destruct (registerJourney_inserts d env w (fun s _ => Hfault s) Hnew)
          as (row & calls & Hrun & Hid & Huser & Hext & Hrid & Hst & _)
    end.
    unfold bind at 1. rewrite Hrun. cbv beta iota.
    unfold OutboxPublisher.publishJourneyMonitoringStarted,
      OutboxPublisher.correlation, OutboxRepository.create, randomUUID.
    unfold bind at 1. unfold bind at 1. cbv beta iota.
    unfold bind at 1. unfold bind at 1. cbn [queryClient Js.nullish].
    erewrite pool_statement by first [apply Hfault | reflexivity].
    cbv beta iota. cbn [OutboxRepository.outbox_rows]. unfold ret.
    eexists. eexists. eexists. split; [reflexivity |].
    cbn [tables Pg.journeys Pg.outbox Pg.alerts Pg.with_journeys Pg.with_outbox
         set_next_uuid event_type aggregate_type aggregate_id status].
    repeat split; assumption || reflexivity.
  - intro Hdup.
    unfold DelayTrackerService.registerJourney. cbv zeta.
    unfold bind at 1.
    rewrite registerJourney_duplicate by (auto || assumption).
    eexists. split; reflexivity.
Qed.

Lemma registerJourney_announces_witness :
  exists row ev w',
    DelayTrackerService.registerJourney Samples.registration_both
      Scenario.env1 Scenario.world1
    = (Ok row, w')
    /\ journey_id row = "ext-9"
    /\ user_id row = "u9"
    /\ monitoring_status row = pending_rid
    /\ Pg.outbox (tables w') = [ev]
    /\ event_type ev = "journey.monitoring_started"
    /\ aggregate_id ev = id row.
Proof.
  destruct (proj1 (registerJourney_announces Samples.registration_both
                     Scenario.env1 Scenario.world1 (fun s => eq_refl)))
    as (row & ev & w' & Hrun & _ & Hext & Huser & Hst & _ & Ho & Hty & _ & Hagg & _).
  - cbn. intros j [Hj | []]. subst j. discriminate.
  - exists row, ev, w'. cbn in Ho. auto 10.
Defined.

(** X20. The registration and its event are two statements on the pool,
    not one transaction: when the outbox insert is rejected the call
    throws, the journey stays registered and no event exists; a second
    attempt is then refused as a duplicate, so the event is not written by
    retrying either. *)
Theorem registerJourney_event_lost
        (data : DelayTrackerService.RegisterJourneyData) (env : Env) (w : World) :
  (forall s, fault env Pg.Pool s
             = match s with
               | Pg.InsertOutbox _ _ _ _ => true
               | _ => false
               end) ->
  (forall j, In j (Pg.journeys (tables w)) ->
             journey_id j
             <> DelayTrackerService.chosen (DelayTrackerService.rd_journeyId data)) ->
  exists row w1 w2,
    DelayTrackerService.registerJourney data env w
    = (Throw (Js.ErrorObj "DB error"), w1)
    /\ Pg.journeys (tables w1) = Pg.journeys (tables w) ++ [row]
    /\ journey_id row
       = DelayTrackerService.chosen (DelayTrackerService.rd_journeyId data)
    /\ Pg.outbox (tables w1) = Pg.outbox (tables w)
    /\ DelayTrackerService.registerJourney data env w1
       = (Throw (Js.ErrorObj "Journey already registered for monitoring"), w2)
    /\ tables w2 = tables w1.
Proof.
  intros Hfault Hnew.
  assert (Hjourneys : forall s, Pg.journey_only s = true -> fault env Pg.Pool s = false).
  { intros s Hs. rewrite Hfault. destruct s; try reflexivity; discriminate Hs. }
  unfold DelayTrackerService.registerJourney. cbv zeta.
  match goal with
  | |- context [JourneyMonitor.registerJourney ?d] =>
      destruct (registerJourney_inserts d env w Hjourneys Hnew)
        as (row & calls & Hrun & Hid & Huser & Hext & Hrid & Hst & _);
      pose proof (fun w0 => registerJourney_duplicate d env w0 Hjourneys) as Hdup
  end.
  exists row. eexists. eexists.
  unfold bind at 1. rewrite Hrun. cbv beta iota.
  unfold OutboxPublisher.publishJourneyMonitoringStarted,
    OutboxPublisher.correlation, OutboxRepository.create, randomUUID.
  unfold bind at 1. unfold bind at 1. cbv beta iota.
  unfold bind at 1. unfold bind at 1. cbn [queryClient Js.nullish].
  unfold query at 1. rewrite Hfault. cbv beta iota zeta.
  split; [reflexivity |].
  cbn [tables Pg.journeys Pg.outbox Pg.with_journeys set_trace set_next_uuid].
  split; [reflexivity |]. split; [exact Hext |]. split; [reflexivity |].
  unfold bind at 1. rewrite Hdup.
  - split; reflexivity.
  - exists row. cbn [tables Pg.journeys Pg.with_journeys set_trace set_next_uuid].
    split; [apply in_or_app; right; left; reflexivity | exact Hext].
Qed.

Lemma registerJourney_event_lost_witness :
  exists row w1 w2,
    DelayTrackerService.registerJourney Samples.registration_both
      Samples.env_pool_outbox_down Scenario.world1
    = (Throw (Js.ErrorObj "DB error"), w1)
    /\ Pg.journeys (tables w1) = [Scenario.journey1; row]
    /\ Pg.outbox (tables w1) = []
    /\ DelayTrackerService.registerJourney Samples.registration_both
         Samples.env_pool_outbox_down w1
       = (Throw (Js.ErrorObj "Journey already registered for monitoring"), w2).
Proof.
  destruct (registerJourney_event_lost Samples.registration_both
              Samples.env_pool_outbox_down Scenario.world1)
    as (row & w1 & w2 & Hrun & Hrows & _ & Hout & Hagain & _).
  - intros []; reflexivity.
  - cbn. intros j [Hj | []]. subst j. discriminate.
  - exists row, w1, w2. cbn in Hrows, Hout. auto.
Defined.

(** ** The checker and the scheduler *)

Lemma Forall2_map_image {A B : Type} (P : A -> B -> Prop) (f : A -> B) (l : list A) :
  (forall x, P x (f x)) -> Forall2 P l (map f l).
Proof.
  intro H. induction l as [| x l IH]; cbn; constructor; auto.
Qed.

Lemma checkDelays_known
      (this : DelayChecker.t) (journeys : list DelayChecker.JourneyToCheck)
      (env : Env) (w : World) :
  (journeys = [] -> DelayChecker.checkDelays this journeys env w = (Ok [], w))
  /\ (journeys <> [] ->
      match DelayChecker.getDelaysByRids this (map DelayChecker.jc_rid journeys) with
      | inl e =>
          exists w',
            DelayChecker.checkDelays this journeys env w = (Throw e, w')
            /\ tables w' = tables w
      | inr infos =>
          exists results w',
            DelayChecker.checkDelays this journeys env w = (Ok results, w')
            /\ tables w' = tables w
      end).
Proof.
  split.
  - intros ->. reflexivity.
  - intro Hne. destruct journeys as [| j0 js]; [contradiction |].
    unfold DelayChecker.checkDelays. cbv zeta.
    unfold bind at 1. unfold record_call at 1. cbv beta iota.
    unfold bind at 1. unfold lift_remote.
    destruct (DelayChecker.getDelaysByRids this _) as [e | infos].
    + unfold throw. eexists. split; reflexivity.
    + unfold ret at 1. cbv beta iota. unfold bind, ask, ret.
      eexists. eexists. split; reflexivity.
Qed.

(** X21. [DelayChecker.checkDelays].  With no journey it answers [[]]
    without calling the upstream.  Otherwise it calls the upstream once,
    with the RIDs of the journeys in order; a failure of the upstream is
    thrown to the caller; an answer gives one result per journey, in order,
    under the journey's id.  A result is [dataNotFound] exactly when the
    journey's RID is empty or no record carries it, and any other result
    takes its delay and cancellation from a record with the journey's own
    RID: here a single record is never applied to a single journey with
    another RID.  The database is not touched. *)
Theorem checkDelays_spec
        (this : DelayChecker.t) (journeys : list DelayChecker.JourneyToCheck)
        (env : Env) (w : World) :
  (journeys = [] -> DelayChecker.checkDelays this journeys env w = (Ok [], w))
  /\ (journeys <> [] ->
      match DelayChecker.getDelaysByRids this (map DelayChecker.jc_rid journeys) with
      | inl e =>
          exists w',
            DelayChecker.checkDelays this journeys env w = (Throw e, w')
            /\ tables w' = tables w
      | inr infos =>
          exists results w',
            DelayChecker.checkDelays this journeys env w = (Ok results, w')
            /\ tables w' = tables w
            /\ trace w'
               = trace w ++ [DarwinCall (map DelayChecker.jc_rid journeys)]
            /\ Forall2
                 (fun j r =>
                    journeyId r = DelayChecker.jc_id j
                    /\ (dataNotFound r = Some true
                        <-> DelayChecker.jc_rid j = ""
                            \/ forall d, In d infos ->
                                         DelayChecker.di_rid d <> DelayChecker.jc_rid j)
                    /\ (dataNotFound r <> Some true ->
                        exists d,
                          In d infos
                          /\ DelayChecker.di_rid d = DelayChecker.jc_rid j
                          /\ delayMinutes r = DelayChecker.di_delay_minutes d
                          /\ isCancelled r = DelayChecker.di_is_cancelled d))
                 journeys results
      end).
Proof.
  split.
  - intros ->. reflexivity.
  - intro Hne. destruct journeys as [| j0 js]; [contradiction |].
    unfold DelayChecker.checkDelays. cbv zeta.
    unfold bind at 1. unfold record_call at 1. cbv beta iota.
    unfold bind at 1. unfold lift_remote.
    destruct (DelayChecker.getDelaysByRids this _) as [e | infos].
    + unfold throw. eexists. split; reflexivity.
    + unfold ret at 1. cbv beta iota. unfold bind, ask, ret.
      eexists. eexists. split; [reflexivity |]. split; [reflexivity |].
      split; [reflexivity |].
      rewrite detectDelaysBatch_map, map_map.
      apply Forall2_map_image. intro j.
      destruct (detectOne_cases (DelayChecker.delayDetector this) (now env)
                  (map DelayChecker.toDelayData infos) (DelayChecker.toJourneyData j))
        as [[Hnf Hwhy] | (d & Hin & Hrid & Hnonempty & Hdet)].
      * rewrite Hnf. cbn in Hwhy |- *. split; [reflexivity |]. split.
        -- split; [intros _ | reflexivity].
           destruct Hwhy as [He | Hall]; [left; exact He | right].
           intros d Hd Heq. apply (Hall (DelayChecker.toDelayData d)).
           ++ apply in_map. exact Hd.
           ++ exact Heq.
        -- intro H. contradiction H. reflexivity.
      * rewrite Hdet. apply in_map_iff in Hin. destruct Hin as (i & <- & Hi).
        cbn in Hrid, Hnonempty |- *. split; [reflexivity |]. split.
        -- split; [discriminate |].
           intros [He | Hall]; exfalso.
           ++ apply Hnonempty. congruence.
           ++ exact (Hall i Hi Hrid).
        -- intros _. exists i. auto.
Qed.

Lemma checkDelays_spec_witness :
  exists r w',
    DelayChecker.checkDelays (Samples.checker (inr [Samples.info "R2" 30 false]))
      [{| DelayChecker.jc_id := "j1"; DelayChecker.jc_rid := "R1" |}]
      Scenario.env1 Scenario.world1
    = (Ok [r], w')
    /\ journeyId r = "j1"
    /\ dataNotFound r = Some true.
Proof.
  destruct (proj2 (checkDelays_spec (Samples.checker (inr [Samples.info "R2" 30 false]))
                     [{| DelayChecker.jc_id := "j1"; DelayChecker.jc_rid := "R1" |}]
                     Scenario.env1 Scenario.world1))
    as (results & w' & Hrun & _ & _ & Hall).
  - discriminate.
  - inversion Hall as [| j r js rs (Hid & Hnf & _) Hrest Hj Hr]; subst.
    inversion Hrest; subst.
    exists r, w'. split; [exact Hrun |]. split; [exact Hid |].
    apply Hnf. right. intros d [<- | []]. discriminate.
Defined.










Lemma getJourneysDueForCheck_runs (env : Env) (w : World) :
  fault env Pg.Pool (Pg.SelectJourneysDue (now env) 100) = false ->
  JourneyMonitor.getJourneysDueForCheck env w
  = (Ok (due_now env w),
     {| tables := tables w; tx := tx w; next_uuid := next_uuid w;
        trace := trace w ++ [SqlCall Pg.Pool (Pg.SelectJourneysDue (now env) 100)];
        locals := locals w |}).
Proof.
  intro Hf.
  unfold JourneyMonitor.getJourneysDueForCheck,
    JourneyRepository.findJourneysDueForCheck.
  unfold bind at 1. unfold ask at 1. cbv beta iota.
  unfold bind at 1. unfold ask at 1. cbv beta iota zeta.
  cbn [Js.nullish]. unfold bind at 1.
  erewrite pool_statement by first [exact Hf | reflexivity].
  cbv beta iota. unfold ret. cbn [JourneyRepository.journey_rows Pg.is_insert].
  unfold JourneyRepository.mapRow. rewrite map_id.
  unfold due_now. destruct (tables w); reflexivity.
Qed.

(** X23. A run of the scheduler on a healthy database whose upstream
    answers (or is not needed, no due journey having a RID) is counted as
    one execution, counts every due journey as processed, and paces every
    due journey, with or without a RID, to [now + 5 min]; the other
    journeys are left as they were. *)
Theorem execute_paces_due_journeys
        (this : CronScheduler.t) (env : Env) (w : World) :
  CronScheduler.executing this = false ->
  (forall s, fault env Pg.Pool s = false) ->
  (CronScheduler.journeysWithRids (due_now env w) <> [] ->
   exists infos,
     DelayChecker.getDelaysByRids (CronScheduler.delayChecker this)
       (map DelayChecker.jc_rid (CronScheduler.journeysWithRids (due_now env w)))
     = inr infos) ->
  exists this' w',
    CronScheduler.execute this env w = (Ok this', w')
    /\ CronScheduler.executing this' = false
    /\ CronScheduler.totalExecutions (CronScheduler.metrics this')
       = CronScheduler.totalExecutions (CronScheduler.metrics this) + 1
    /\ CronScheduler.journeysProcessed (CronScheduler.metrics this')
       = CronScheduler.journeysProcessed (CronScheduler.metrics this)
         + Z.of_nat (List.length (due_now env w))
    /\ CronScheduler.errorCount (CronScheduler.metrics this')
       = CronScheduler.errorCount (CronScheduler.metrics this)
    /\ Forall2
         (fun j j' =>
            (In (id j) (map id (due_now env w)) ->
             id j' = id j
             /\ monitoring_status j' = monitoring_status j
             /\ rid j' = rid j
             /\ last_checked_at j' = Some (now env)
             /\ next_check_at j' = Some (now env + 300000))
            /\ (~ In (id j) (map id (due_now env w)) -> j' = j))
         (Pg.journeys (tables w)) (Pg.journeys (tables w')).
Proof.
  intros He Hfault Hupstream.
  unfold CronScheduler.execute. rewrite He.
  unfold bind at 1. unfold ask at 1. cbv beta iota zeta. unfold try_catch.
  unfold bind at 1. rewrite getJourneysDueForCheck_runs by apply Hfault.
  cbv beta iota.
  set (w1 := {| tables := tables w; tx := tx w; next_uuid := next_uuid w;
                trace := trace w
                         ++ [SqlCall Pg.Pool (Pg.SelectJourneysDue (now env) 100)];
                locals := locals w |}).
  assert (Hchecked : exists w2,
             match CronScheduler.journeysWithRids (due_now env w) with
             | [] => ret tt
             | withRids =>
                 (DelayChecker.checkDelays (CronScheduler.delayChecker this)
                    withRids ;;; ret tt)%monad
             end env w1 = (Ok tt, w2)
             /\ tables w2 = tables w).
  { destruct (CronScheduler.journeysWithRids (due_now env w)) as [| c cs] eqn:Hc.
    - exists w1. split; reflexivity.
    - destruct Hupstream as [infos Hinfos]; [discriminate |].
      pose proof (proj2 (checkDelays_known (CronScheduler.delayChecker this)
                           (c :: cs) env w1) ltac:(discriminate)) as Hcheck.
      rewrite Hinfos in Hcheck. destruct Hcheck as (results & w2 & Hrun & Ht).
      exists w2. unfold bind. rewrite Hrun. split; [reflexivity | exact Ht]. }
  destruct Hchecked as (w2 & Hchecked & Htables).
  destruct (updateLastChecked_effect (map id (due_now env w)) env w2 Hfault)
    as (w3 & Hpace & Hnil & _ & _ & Hall).
  exists (CronScheduler.finished this
            {| CronScheduler.lastExecutionDurationMs := now env - now env;
               CronScheduler.totalExecutions :=
                 CronScheduler.totalExecutions (CronScheduler.metrics this) + 1;
               CronScheduler.journeysProcessed :=
                 CronScheduler.journeysProcessed (CronScheduler.metrics this)
                 + Z.of_nat (List.length (due_now env w));
               CronScheduler.errorCount :=
                 CronScheduler.errorCount (CronScheduler.metrics this) |}).
  destruct (due_now env w) as [| j js] eqn:Hdue.
  - exists w1. unfold bind, ret. split; [reflexivity |].
    split; [reflexivity |]. split; [reflexivity |]. split; [reflexivity |].
    split; [reflexivity |].
    replace (Pg.journeys (tables w1))
      with (map (fun j : MonitoredJourney => j) (Pg.journeys (tables w)))
      by apply map_id.
    apply Forall2_map_right. intro j. split; [intros [] | reflexivity].
  - exists w3. cbv beta iota. unfold bind at 1. unfold bind at 1.
    rewrite Hchecked. cbv beta iota. rewrite Hpace. cbv beta iota. unfold ret.
    split; [reflexivity |].
    split; [reflexivity |]. split; [reflexivity |]. split; [reflexivity |].
    split; [reflexivity |].
    rewrite Htables in Hall.
    eapply Forall2_impl; [| exact Hall].
    intros a b [Hin Hout]. split; [| exact Hout].
    intro Hi. destruct (Hin Hi) as (H1 & H2 & H3 & H4 & H5 & _). auto.
Qed.

Lemma execute_paces_due_journeys_witness :
  exists this' w',
    CronScheduler.execute (Samples.scheduler (inr [Samples.info "202601150800123" 25 false]))
      Scenario.env1 Scenario.world1
    = (Ok this', w')
    /\ CronScheduler.totalExecutions (CronScheduler.metrics this') = 1
    /\ CronScheduler.journeysProcessed (CronScheduler.metrics this') = 1
    /\ option_map next_check_at (Scenario.stored_journey1 w') = Some (Some 300600).
Proof.
  destruct (execute_paces_due_journeys
              (Samples.scheduler (inr [Samples.info "202601150800123" 25 false]))
              Scenario.env1 Scenario.world1 eq_refl (fun s => eq_refl))
    as (this' & w' & Hrun & _ & Ht & Hp & _ & Hall).
  - intros _. eexists. reflexivity.
  - exists this', w'. split; [exact Hrun |]. split; [exact Ht |].
    split; [exact Hp |].
    unfold Scenario.stored_journey1.
    cbn in Hall. inversion Hall as [| j j' l l' [Hin _] Hrest Hl Hl']; subst.
    inversion Hrest; subst.
    destruct (Hin (or_introl eq_refl)) as (Hid & _ & _ & _ & Hnext).
    cbn. unfold Pg.id_is. rewrite Hid. cbn. rewrite Hnext. reflexivity.
Defined.

(** X24. When the upstream fails during a run of the scheduler, the run is
    counted as an error, not as an execution, no journey is counted as
    processed, and no row changes: the due journeys are not paced, so they
    are due again at the next run. *)
Theorem execute_upstream_failure
        (this : CronScheduler.t) (e : Js.Thrown) (env : Env) (w : World) :
  CronScheduler.executing this = false ->
  fault env Pg.Pool (Pg.SelectJourneysDue (now env) 100) = false ->
  CronScheduler.journeysWithRids (due_now env w) <> [] ->
  DelayChecker.getDelaysByRids (CronScheduler.delayChecker this)
    (map DelayChecker.jc_rid (CronScheduler.journeysWithRids (due_now env w)))
  = inl e ->
  exists this' w',
    CronScheduler.execute this env w = (Ok this', w')
    /\ CronScheduler.executing this' = false
    /\ CronScheduler.errorCount (CronScheduler.metrics this')
       = CronScheduler.errorCount (CronScheduler.metrics this) + 1
    /\ CronScheduler.totalExecutions (CronScheduler.metrics this')
       = CronScheduler.totalExecutions (CronScheduler.metrics this)
    /\ CronScheduler.journeysProcessed (CronScheduler.metrics this')
       = CronScheduler.journeysProcessed (CronScheduler.metrics this)
    /\ tables w' = tables w
    /\ due_now env w' = due_now env w.
Proof.
  intros He Hfault Hsome Hdown.
  unfold CronScheduler.execute. rewrite He.
  unfold bind at 1. unfold ask at 1. cbv beta iota zeta. unfold try_catch.
  unfold bind at 1. rewrite getJourneysDueForCheck_runs by apply Hfault.
  cbv beta iota.
  set (w1 := {| tables := tables w; tx := tx w; next_uuid := next_uuid w;
                trace := trace w
                         ++ [SqlCall Pg.Pool (Pg.SelectJourneysDue (now env) 100)];
                locals := locals w |}).
  destruct (CronScheduler.journeysWithRids (due_now env w)) as [| c cs] eqn:Hc;
    [contradiction |].
  pose proof (proj2 (checkDelays_known (CronScheduler.delayChecker this)
                       (c :: cs) env w1) ltac:(discriminate)) as Hcheck.
  rewrite Hdown in Hcheck. destruct Hcheck as (w2 & Hrun & Ht).
  destruct (due_now env w) as [| j js] eqn:Hdue; [discriminate Hc |].
  cbv beta iota. unfold bind at 1. unfold bind at 1.
  unfold bind at 1. rewrite Hrun. cbv beta iota. unfold ret.
  eexists. eexists. split; [reflexivity |].
  split; [reflexivity |]. split; [reflexivity |]. split; [reflexivity |].
  split; [reflexivity |]. split; [exact Ht |].
  unfold due_now in Hdue |- *. rewrite Ht. exact Hdue.
Qed.

Lemma execute_upstream_failure_witness :
  exists this' w',
    CronScheduler.execute (Samples.scheduler (inl (Js.ErrorObj "Darwin API request timeout")))
      Scenario.env1 Scenario.world1
    = (Ok this', w')
    /\ CronScheduler.errorCount (CronScheduler.metrics this') = 1
    /\ CronScheduler.totalExecutions (CronScheduler.metrics this') = 0
    /\ tables w' = tables Scenario.world1.
Proof.
  destruct (execute_upstream_failure
              (Samples.scheduler (inl (Js.ErrorObj "Darwin API request timeout")))
              (Js.ErrorObj "Darwin API request timeout")
              Scenario.env1 Scenario.world1 eq_refl eq_refl)
    as (this' & w' & Hrun & _ & He & Ht & _ & Htab & _).
  - discriminate.
  - reflexivity.
  - exists this', w'. auto.
Defined.

(** ** The relay of the outbox *)

Lemma insert_created_perm (r : OutboxRelay.Row) (l : list OutboxRelay.Row) :
  Permutation (OutboxRelay.insert_created r l) (r :: l).
Proof.
  induction l as [| x l IH]; cbn; [reflexivity |].
  destruct (OutboxRelay.created_at r <=? OutboxRelay.created_at x); [reflexivity |].
  rewrite IH. apply perm_swap.
Qed.

Lemma order_by_created_perm (l : list OutboxRelay.Row) :
  Permutation (OutboxRelay.order_by_created l) l.
Proof.
  unfold OutboxRelay.order_by_created.
  induction l as [| x l IH]; cbn; [reflexivity |].
  rewrite insert_created_perm. now rewrite IH.
Qed.

Lemma insert_created_sorted (r : OutboxRelay.Row) (l : list OutboxRelay.Row) :
  StronglySorted OutboxRelay.created_le l ->
  StronglySorted OutboxRelay.created_le (OutboxRelay.insert_created r l).
Proof.
  induction l as [| x l IH]; cbn; intro Hs.
  - constructor; constructor.
  - apply StronglySorted_inv in Hs. destruct Hs as [Hl Hx].
    destruct (Z.leb_spec (OutboxRelay.created_at r) (OutboxRelay.created_at x)) as [Hle | Hgt].
    + constructor; [constructor; assumption |].
      constructor; [exact Hle |].
      eapply Forall_impl; [| exact Hx].
      unfold OutboxRelay.created_le. intros a Ha. lia.
    + constructor; [apply IH; exact Hl |].
      eapply Permutation_Forall; [symmetry; apply insert_created_perm |].
      constructor; [unfold OutboxRelay.created_le; lia | exact Hx].
Qed.

Lemma order_by_created_sorted (l : list OutboxRelay.Row) :
  StronglySorted OutboxRelay.created_le (OutboxRelay.order_by_created l).
Proof.
  unfold OutboxRelay.order_by_created.
  induction l as [| x l IH]; cbn; [constructor |].
  apply insert_created_sorted. exact IH.
Qed.

Lemma relay_query_pool (s : OutboxRelay.Stmt) (sur : OutboxRelay.Surroundings)
      (st : OutboxRelay.Store) (t' : list OutboxRelay.Row) (a : OutboxRelay.Answer) :
  OutboxRelay.rejected sur Pg.Pool s = false ->
  OutboxRelay.run sur s (OutboxRelay.rows st) = inr (t', a) ->
  OutboxRelay.query Pg.Pool s sur st
  = (Ok a, {| OutboxRelay.rows := t';
              OutboxRelay.published := OutboxRelay.published st;
              OutboxRelay.statements := OutboxRelay.statements st ++ [(Pg.Pool, s)] |}).
Proof.
  intros Hr Hrun. unfold OutboxRelay.query. rewrite Hr.
  cbn [OutboxRelay.rows OutboxRelay.published OutboxRelay.statements].
  rewrite Hrun. reflexivity.
Qed.



(** X25. [findPending] and [findPendingForProcessing] return only stored
    rows whose status is [pending] (the second, none that another session
    holds locked), oldest first, at most [limit] of them (100 by default),
    and every one of them when no more than [limit] qualify.  They change
    no row and hand nothing to the broker.  (For a [limit] that is not
    negative: the server rejects a negative LIMIT.) *)
Theorem findPending_spec
        (limit : option Z) (forProcessing : bool)
        (sur : OutboxRelay.Surroundings) (st : OutboxRelay.Store) :
  let n := Js.nullish limit 100 in
  let wanted :=
    fun r => OutboxRelay.is_pending r && negb (forProcessing && OutboxRelay.locked sur r) in
  0 <= n ->
  OutboxRelay.rejected sur Pg.Pool (OutboxRelay.SelectPending n forProcessing) = false ->
  exists es st',
    (if forProcessing
     then OutboxRelay.findPendingForProcessing limit
     else OutboxRelay.findPending limit) sur st = (Ok es, st')
    /\ OutboxRelay.rows st' = OutboxRelay.rows st
    /\ OutboxRelay.published st' = OutboxRelay.published st
    /\ (List.length es <= Z.to_nat n)%nat
    /\ (forall e, In e es ->
                  In e (OutboxRelay.rows st)
                  /\ status (OutboxRelay.event e) = ob_pending
                  /\ (forProcessing = true -> OutboxRelay.locked sur e = false))
    /\ StronglySorted OutboxRelay.created_le es
    /\ ((List.length (filter wanted (OutboxRelay.rows st)) <= Z.to_nat n)%nat ->
        forall e, In e (OutboxRelay.rows st) -> wanted e = true -> In e es).
Proof.
  intros n wanted Hn Hr.
  assert (Hrun : OutboxRelay.run sur (OutboxRelay.SelectPending n forProcessing)
                                 (OutboxRelay.rows st)
                 = inr (OutboxRelay.rows st,
                        OutboxRelay.Selected
                          (OutboxRelay.pending_batch sur n forProcessing
                                                     (OutboxRelay.rows st)))).
  { cbn [OutboxRelay.run]. destruct (Z.ltb_spec n 0); [lia | reflexivity]. }
  exists (OutboxRelay.pending_batch sur n forProcessing (OutboxRelay.rows st)).
  eexists. split.
  { destruct forProcessing;
      unfold OutboxRelay.findPendingForProcessing, OutboxRelay.findPending,
             OutboxRelay.bind; fold n;
      rewrite (relay_query_pool _ _ _ _ _ Hr Hrun); reflexivity. }
  cbn [OutboxRelay.rows OutboxRelay.published].
  split; [reflexivity |]. split; [reflexivity |].
  unfold OutboxRelay.pending_batch. fold wanted.
  split; [apply firstn_le_length |].
  split; [| split].
  - intros e He. apply In_firstn in He.
    apply (Permutation_in _ (order_by_created_perm _)) in He.
    apply filter_In in He. destruct He as [Hin Hw].
    split; [exact Hin |]. unfold wanted in Hw.
    apply andb_true_iff in Hw. destruct Hw as [Hp Hl].
    split.
    + unfold OutboxRelay.is_pending in Hp.
      destruct (status (OutboxRelay.event e)); try discriminate; reflexivity.
    + intros ->. cbn in Hl. now apply negb_true_iff in Hl.
  - apply StronglySorted_firstn. apply order_by_created_sorted.
  - intros Hfew e Hin Hw.
    rewrite firstn_all2.
    + apply (Permutation_in _ (Permutation_sym (order_by_created_perm _))).
      apply filter_In. split; assumption.
    + rewrite (Permutation_length (order_by_created_perm _)). exact Hfew.
Qed.

Lemma findPending_spec_witness :
  exists es st',
    OutboxRelay.findPendingForProcessing None OutboxRelay.quiet_surroundings
      (OutboxRelay.store_of
         [OutboxRelay.outbox_row "e1" ob_pending 0 10;
          OutboxRelay.outbox_row "e2" ob_processed 0 5;
          OutboxRelay.outbox_row "e3" ob_pending 0 7])
    = (Ok es, st')
    /\ In (OutboxRelay.outbox_row "e3" ob_pending 0 7) es
    /\ ~ In (OutboxRelay.outbox_row "e2" ob_processed 0 5) es.
Proof.
  assert (Hn : 0 <= Js.nullish None 100) by (cbn; lia).
  destruct (findPending_spec None true OutboxRelay.quiet_surroundings
              (OutboxRelay.store_of
                 [OutboxRelay.outbox_row "e1" ob_pending 0 10;
                  OutboxRelay.outbox_row "e2" ob_processed 0 5;
                  OutboxRelay.outbox_row "e3" ob_pending 0 7])
              Hn eq_refl)
    as (es & st' & Hrun & _ & _ & _ & Honly & _ & Hall).
  exists es, st'. split; [exact Hrun |]. split.
  - apply Hall.
    + cbn. lia.
    + right. right. left. reflexivity.
    + reflexivity.
  - intro Hin. apply Honly in Hin. destruct Hin as (_ & Hst & _). discriminate Hst.
Defined.


























Lemma filter_split_length {A : Type} (p : A -> bool) (l : list A) :
  (List.length (filter p l) + List.length (filter (fun x => negb (p x)) l)
   = List.length l)%nat.
Proof.
  induction l as [| x l IH]; cbn; [reflexivity |].
  destruct (p x); cbn; lia.
Qed.

(** X29. [cleanupOldEvents] deletes exactly the rows that are [processed]
    and were created before [NOW()] minus the retention, and answers with
    their number.  A [pending] or [failed] row is kept whatever its age,
    and nothing is handed to the broker. *)
Theorem cleanupOldEvents_spec
        (retentionDays cutoff : Z)
        (sur : OutboxRelay.Surroundings) (st : OutboxRelay.Store) :
  OutboxRelay.rejected sur Pg.Pool (OutboxRelay.DeleteProcessedBefore retentionDays) = false ->
  OutboxRelay.days_ago sur retentionDays = inr cutoff ->
  exists n st',
    OutboxRelay.cleanupOldEvents retentionDays sur st = (Ok n, st')
    /\ (forall r, In r (OutboxRelay.rows st') <->
                  In r (OutboxRelay.rows st)
                  /\ ~ (status (OutboxRelay.event r) = ob_processed
                        /\ OutboxRelay.created_at r < cutoff))
    /\ n = Z.of_nat (List.length (OutboxRelay.rows st))
           - Z.of_nat (List.length (OutboxRelay.rows st'))
    /\ OutboxRelay.published st' = OutboxRelay.published st.
Proof.
  intros Hr Hcut.
  unfold OutboxRelay.cleanupOldEvents, OutboxRelay.bind.
  rewrite (relay_query_pool _ _ _
             (filter (fun r => negb (OutboxRelay.expired cutoff r)) (OutboxRelay.rows st))
             (OutboxRelay.Affected
                (Z.of_nat (List.length (filter (OutboxRelay.expired cutoff)
                                               (OutboxRelay.rows st))))) Hr);
    [| cbn [OutboxRelay.run]; now rewrite Hcut].
  eexists. eexists. split; [reflexivity |].
  cbn [OutboxRelay.rows OutboxRelay.published OutboxRelay.row_count].
  split; [| split; [| reflexivity]].
  - intro r. rewrite filter_In. unfold OutboxRelay.expired, OutboxRelay.is_processed.
    split.
    + intros [Hin Hk]. split; [exact Hin |]. intros [Hs Hlt].
      rewrite Hs in Hk. apply Z.ltb_lt in Hlt. rewrite Hlt in Hk. discriminate.
    + intros [Hin Hk]. split; [exact Hin |].
      destruct (status (OutboxRelay.event r)) eqn:Hs; try reflexivity.
      destruct (Z.ltb_spec (OutboxRelay.created_at r) cutoff); [| reflexivity].
      exfalso. apply Hk. split; [reflexivity | assumption].
  - pose proof (filter_split_length (OutboxRelay.expired cutoff) (OutboxRelay.rows st)).
    lia.
Qed.

Lemma cleanupOldEvents_spec_witness :
  exists st',
    OutboxRelay.cleanupOldEvents 0 OutboxRelay.quiet_surroundings
      (OutboxRelay.store_of
         [OutboxRelay.outbox_row "e1" ob_pending 0 10;
          OutboxRelay.outbox_row "e2" ob_processed 0 5;
          OutboxRelay.outbox_row "e3" ob_processed 0 2000])
    = (Ok 1, st')
    /\ In (OutboxRelay.outbox_row "e1" ob_pending 0 10) (OutboxRelay.rows st')
    /\ ~ In (OutboxRelay.outbox_row "e2" ob_processed 0 5) (OutboxRelay.rows st').
Proof.
  destruct (cleanupOldEvents_spec 0 1000 OutboxRelay.quiet_surroundings
              (OutboxRelay.store_of
                 [OutboxRelay.outbox_row "e1" ob_pending 0 10;
                  OutboxRelay.outbox_row "e2" ob_processed 0 5;
                  OutboxRelay.outbox_row "e3" ob_processed 0 2000])
              eq_refl eq_refl)
    as (n & st' & Hrun & Hrows & Hn & _).
  exists st'. split.
  - rewrite Hrun. f_equal. f_equal.
    apply (f_equal fst) in Hrun. cbn in Hrun. now injection Hrun as <-.
  - split.
    + apply Hrows. split; [left; reflexivity |]. intros [H _]. discriminate H.
    + intro Hin. apply Hrows in Hin. destruct Hin as [_ Hk]. apply Hk.
      split; [reflexivity | cbn; lia].
Defined.


